(** * TextTrack: the render session's packet engine and the session registry

    A shallow embedding of [RenderSession] (packet building, packet dispatch,
    the render thread's loop) and of the session operations of
    [TextTrackImplementation] ([OpenSession], [SetPreviewText]).

    Conventions.
    - A [uint32_t] is a [Z] reduced modulo [2^32]; an [int64_t] is a [Z] in
      [-2^63, 2^63) and arithmetic on it wraps.
    - A [DataBuffer] is a list of bytes.  [BuildPacket::operator()] copies the
      object representation of a [uint32_t]; the targets are little-endian, so
      the four bytes are appended low byte first.
    - The decoder controllers, the packet parser, the graphics engine and the
      STC provider belong to subttxrend.  They are opaque here: every call the
      session makes on them is appended to a call log, and the answers of their
      queries ([wantsData], [getWaitTime], [parse]) are parameters. *)

From Stdlib Require Import String Strings.Byte.
From Stdlib Require Import ZArith List Lia Bool.
Import ListNotations.
Open Scope Z_scope.

(** ** Machine integers *)

Definition UINT32_MAX : Z := 2 ^ 32 - 1.
Definition INT64_MIN : Z := - 2 ^ 63.
Definition INT64_MAX : Z := 2 ^ 63 - 1.

(** Conversion to [uint32_t]. *)
Definition u32 (z : Z) : Z := z mod 2 ^ 32.

(** The value of a 64-bit pattern read as [int64_t]. *)
Definition s64 (z : Z) : Z := (z + 2 ^ 63) mod 2 ^ 64 - 2 ^ 63.

Definition int64_range (z : Z) : Prop := INT64_MIN <= z <= INT64_MAX.

(** ** Bytes and buffers *)

Definition byte_of_Z (z : Z) : byte :=
  match Byte.of_N (Z.to_N (z mod 256)) with
  | Some b => b
  | None => x00
  end.

Definition Z_of_byte (b : byte) : Z := Z.of_N (Byte.to_N b).

Definition DataBuffer : Type := list byte.

(** The object representation of a [uint32_t] on a little-endian host. *)
Definition le32 (v : Z) : DataBuffer :=
  [ byte_of_Z v;
    byte_of_Z (Z.shiftr v 8);
    byte_of_Z (Z.shiftr v 16);
    byte_of_Z (Z.shiftr v 24) ].

(** [*reinterpret_cast<uint32_t *>(p)] for a pointer to at least four bytes. *)
Definition word_at (l : DataBuffer) : Z :=
  match l with
  | b0 :: b1 :: b2 :: b3 :: _ =>
      Z_of_byte b0 + 2 ^ 8 * Z_of_byte b1 + 2 ^ 16 * Z_of_byte b2
      + 2 ^ 24 * Z_of_byte b3
  | _ => 0
  end.

Definition rd32 (buf : DataBuffer) (off : nat) : Z := word_at (skipn off buf).

(** A 64-bit value stored as two 32-bit words, the low word first. *)
Definition rd64 (buf : DataBuffer) (off : nat) : Z :=
  rd32 buf off + 2 ^ 32 * rd32 buf (off + 4).

(** [*reinterpret_cast<uint32_t *>(data() + off) = v]. *)
Definition patch32 (off : nat) (v : Z) (buf : DataBuffer) : DataBuffer :=
  firstn off buf ++ le32 v ++ skipn (off + 4) buf.

(** ** Packet types *)

Module PacketType.
Inductive t : Set :=
| INVALID
| PES_DATA | TTML_DATA | WEBVTT_DATA | CC_DATA
| SUBTITLE_SELECTION | TELETEXT_SELECTION | TTML_SELECTION | WEBVTT_SELECTION
| RESET_ALL | RESET_CHANNEL
| TIMESTAMP | TTML_TIMESTAMP | WEBVTT_TIMESTAMP
| PAUSE | RESUME | MUTE | UNMUTE
| TTML_INFO | SET_CC_ATTRIBUTES.
End PacketType.

Module DataType.
(** [BAD] stands for a value of the enumeration's underlying type that
    names none of its enumerators (the [default] branch of [sendData]). *)
Inductive t : Set := PES | TTML | CC | WEBVTT | BAD (raw : Z).
End DataType.

(** ** BuildPacket *)

Record BuildPacket : Type := { pBuffer : DataBuffer }.

(** [operator()(uint32_t v)]. *)
Definition put (v : Z) (bp : BuildPacket) : BuildPacket :=
  {| pBuffer := pBuffer bp ++ le32 (u32 v) |}.

(** [BuildPacket(type)]: the constructor pre-increments the shared counter
    [sCounter]; it returns the packet and the counter's new value. *)
Definition BuildPacket_ctor (type : Z) (sCounter : Z) : BuildPacket * Z :=
  let c := u32 (sCounter + 1) in
  (put 1 (put 0 (put c (put type {| pBuffer := [] |}))), c).

(** [type(t)]. *)
Definition set_type (type : Z) (bp : BuildPacket) : BuildPacket :=
  if (4 <=? length (pBuffer bp))%nat
  then {| pBuffer := patch32 0 (u32 type) (pBuffer bp) |}
  else bp.

(** [done()]: the subtraction is in [size_t], the store narrows to 32 bits. *)
Definition done (bp : BuildPacket) : BuildPacket :=
  if (12 <=? length (pBuffer bp))%nat
  then {| pBuffer :=
            patch32 8 (u32 (Z.of_nat (length (pBuffer bp)) - 12)) (pBuffer bp) |}
  else bp.

(** [operator DataBufferPtr()]. *)
Definition to_DataBufferPtr (bp : BuildPacket) : DataBuffer := pBuffer (done bp).

(** [std::copy(data.begin(), data.end(), std::back_inserter( *bp.pBuffer))]. *)
Definition append_data (data : DataBuffer) (bp : BuildPacket) : BuildPacket :=
  {| pBuffer := pBuffer bp ++ data |}.

(** What a caller may do with a packet between its construction and its
    conversion to a buffer. *)
Inductive BuildOp : Type :=
| OpPut (v : Z)
| OpType (type : Z)
| OpData (data : DataBuffer).

Definition apply_op (bp : BuildPacket) (op : BuildOp) : BuildPacket :=
  match op with
  | OpPut v => put v bp
  | OpType t => set_type t bp
  | OpData d => append_data d bp
  end.

Definition encode (type : Z) (sCounter : Z) (ops : list BuildOp) : DataBuffer :=
  to_DataBufferPtr (fold_left apply_op ops (fst (BuildPacket_ctor type sCounter))).

(** The type word after a run of operations: the last [type(t)] wins. *)
Definition final_type (type : Z) (ops : list BuildOp) : Z :=
  fold_left (fun t op => match op with OpType t' => t' | _ => t end) ops type.

(** The bytes the operations append after the constructor's four words. *)
Definition body_of_ops (ops : list BuildOp) : DataBuffer :=
  flat_map (fun op => match op with
                      | OpPut v => le32 (u32 v)
                      | OpType _ => []
                      | OpData d => d
                      end) ops.

(** ** Parsed packets and the controllers *)

Module SessionType.
Inductive t : Set := NONE | CC | TTX | DVB | WEBVTT | TTML | SCTE.

Definition is_CC (x : t) : bool := match x with CC => true | _ => false end.
Definition is_TTML (x : t) : bool := match x with TTML => true | _ => false end.
End SessionType.

(** The subtitle type carried by a SUBTITLE_SELECTION packet, classified as
    the [switch] of [processDecoderSelection] does. *)
Inductive SubtitlesType : Type :=
| SUBTITLES_TYPE_DVB
| SUBTITLES_TYPE_SCTE
| SUBTITLES_TYPE_CC
| SUBTITLES_TYPE_TELETEXT
| SUBTITLES_TYPE_UNKNOWN (raw : Z).

(** What the session reads from a [protocol::Packet]. *)
Record Packet : Type := {
  getType : PacketType.t;
  getSubtitlesType : SubtitlesType;
  getBuffer : DataBuffer
}.

(** The classes behind [ctrl::ControllerInterface]. *)
Inductive Controller : Set :=
| DvbSubController
| ScteSubController
| CcSubController
| TtxController
| TtmlController
| WebvttController.

(** One controller object: its class and the serial number it was given when
    it was constructed. *)
Record Decoder : Type := { controller : Controller; serial : nat }.

Definition Decoder_eq_dec (a b : Decoder) : {a = b} + {a <> b}.
Proof. repeat decide equality. Defined.

(** Calls on the collaborators, as an instrumented build would record them. *)
Inductive Call : Type :=
| CtrlNew (d : Decoder) (p : Packet)
| CtrlDelete (d : Decoder)
| CtrlDeactivate (d : Decoder)
| CtrlAddData (d : Decoder) (p : Packet)
| CtrlMute (d : Decoder) (muted : bool)
| CtrlPause (d : Decoder)
| CtrlResume (d : Decoder)
| CtrlProcessTimestamp (d : Decoder) (p : Packet)
| CtrlProcessInfo (d : Decoder) (p : Packet)
| CtrlProcessSetCCAttributesPacket (d : Decoder) (p : Packet)
| CtrlSetTextForPreview (d : Decoder) (text : string)
| CtrlProcess (d : Decoder)
| StcProcessTimestamp (p : Packet)
| FontCacheNew
| GfxInit | GfxCreateWindow | GfxAttach | GfxExecute
| SocketStart.

(** What subttxrend decides: the numbering of the packet types, the parser,
    and the two queries of a controller, which may depend on everything the
    controller has been told so far. *)
Class Subttxrend : Type := {
  typeCode : PacketType.t -> Z;
  parse : DataBuffer -> Packet;
  wantsData : list Call -> Decoder -> Packet -> bool;
  getWaitTime : list Call -> Decoder -> Z
}.

(** A [DataBufferPtr] may be null. *)
Definition DataBufferPtr : Type := option DataBuffer.

(** ** The session *)

Record RenderSession : Type := {
  mSessionType : SessionType.t;
  mDisplayName : string;
  mSocketName : string;
  mStarted : bool;
  mLastActiveTime : Z;
  mSocket : bool;  (* a socket source is held *)
  mPreviewText : string;
  mHasCustomTtmlStyling : bool;
  mDecoder : option Decoder;
  mGfxWindow : bool;  (* a window is held *)
  mQuitRenderThread : bool;
  mRenderThread : bool;  (* the thread is joinable *)
  mDataQueue : list DataBufferPtr;
  steadyClock : Z;  (* what [steady_clock::now()] reads *)
  nextSerial : nat;  (* identity of the next controller object *)
  calls : list Call  (* calls made on the collaborators, oldest first *)
}.

(** Assignments to one member. *)
Definition set_mSessionType (v : SessionType.t) (s : RenderSession) : RenderSession :=
  {| mSessionType := v; mDisplayName := mDisplayName s;
     mSocketName := mSocketName s; mStarted := mStarted s;
     mLastActiveTime := mLastActiveTime s; mSocket := mSocket s;
     mPreviewText := mPreviewText s;
     mHasCustomTtmlStyling := mHasCustomTtmlStyling s;
     mDecoder := mDecoder s; mGfxWindow := mGfxWindow s;
     mQuitRenderThread := mQuitRenderThread s;
     mRenderThread := mRenderThread s; mDataQueue := mDataQueue s;
     steadyClock := steadyClock s; nextSerial := nextSerial s;
     calls := calls s |}.

Definition set_mStarted (v : bool) (s : RenderSession) : RenderSession :=
  {| mSessionType := mSessionType s; mDisplayName := mDisplayName s;
     mSocketName := mSocketName s; mStarted := v;
     mLastActiveTime := mLastActiveTime s; mSocket := mSocket s;
     mPreviewText := mPreviewText s;
     mHasCustomTtmlStyling := mHasCustomTtmlStyling s;
     mDecoder := mDecoder s; mGfxWindow := mGfxWindow s;
     mQuitRenderThread := mQuitRenderThread s;
     mRenderThread := mRenderThread s; mDataQueue := mDataQueue s;
     steadyClock := steadyClock s; nextSerial := nextSerial s;
     calls := calls s |}.

Definition set_mLastActiveTime (v : Z) (s : RenderSession) : RenderSession :=
  {| mSessionType := mSessionType s; mDisplayName := mDisplayName s;
     mSocketName := mSocketName s; mStarted := mStarted s;
     mLastActiveTime := v; mSocket := mSocket s;
     mPreviewText := mPreviewText s;
     mHasCustomTtmlStyling := mHasCustomTtmlStyling s;
     mDecoder := mDecoder s; mGfxWindow := mGfxWindow s;
     mQuitRenderThread := mQuitRenderThread s;
     mRenderThread := mRenderThread s; mDataQueue := mDataQueue s;
     steadyClock := steadyClock s; nextSerial := nextSerial s;
     calls := calls s |}.

Definition set_mSocket (v : bool) (s : RenderSession) : RenderSession :=
  {| mSessionType := mSessionType s; mDisplayName := mDisplayName s;
     mSocketName := mSocketName s; mStarted := mStarted s;
     mLastActiveTime := mLastActiveTime s; mSocket := v;
     mPreviewText := mPreviewText s;
     mHasCustomTtmlStyling := mHasCustomTtmlStyling s;
     mDecoder := mDecoder s; mGfxWindow := mGfxWindow s;
     mQuitRenderThread := mQuitRenderThread s;
     mRenderThread := mRenderThread s; mDataQueue := mDataQueue s;
     steadyClock := steadyClock s; nextSerial := nextSerial s;
     calls := calls s |}.

Definition set_mPreviewText (v : string) (s : RenderSession) : RenderSession :=
  {| mSessionType := mSessionType s; mDisplayName := mDisplayName s;
     mSocketName := mSocketName s; mStarted := mStarted s;
     mLastActiveTime := mLastActiveTime s; mSocket := mSocket s;
     mPreviewText := v; mHasCustomTtmlStyling := mHasCustomTtmlStyling s;
     mDecoder := mDecoder s; mGfxWindow := mGfxWindow s;
     mQuitRenderThread := mQuitRenderThread s;
     mRenderThread := mRenderThread s; mDataQueue := mDataQueue s;
     steadyClock := steadyClock s; nextSerial := nextSerial s;
     calls := calls s |}.

Definition set_mHasCustomTtmlStyling (v : bool) (s : RenderSession) : RenderSession :=
  {| mSessionType := mSessionType s; mDisplayName := mDisplayName s;
     mSocketName := mSocketName s; mStarted := mStarted s;
     mLastActiveTime := mLastActiveTime s; mSocket := mSocket s;
     mPreviewText := mPreviewText s; mHasCustomTtmlStyling := v;
     mDecoder := mDecoder s; mGfxWindow := mGfxWindow s;
     mQuitRenderThread := mQuitRenderThread s;
     mRenderThread := mRenderThread s; mDataQueue := mDataQueue s;
     steadyClock := steadyClock s; nextSerial := nextSerial s;
     calls := calls s |}.

Definition set_mDecoder (v : option Decoder) (s : RenderSession) : RenderSession :=
  {| mSessionType := mSessionType s; mDisplayName := mDisplayName s;
     mSocketName := mSocketName s; mStarted := mStarted s;
     mLastActiveTime := mLastActiveTime s; mSocket := mSocket s;
     mPreviewText := mPreviewText s;
     mHasCustomTtmlStyling := mHasCustomTtmlStyling s; mDecoder := v;
     mGfxWindow := mGfxWindow s; mQuitRenderThread := mQuitRenderThread s;
     mRenderThread := mRenderThread s; mDataQueue := mDataQueue s;
     steadyClock := steadyClock s; nextSerial := nextSerial s;
     calls := calls s |}.

Definition set_mGfxWindow (v : bool) (s : RenderSession) : RenderSession :=
  {| mSessionType := mSessionType s; mDisplayName := mDisplayName s;
     mSocketName := mSocketName s; mStarted := mStarted s;
     mLastActiveTime := mLastActiveTime s; mSocket := mSocket s;
     mPreviewText := mPreviewText s;
     mHasCustomTtmlStyling := mHasCustomTtmlStyling s;
     mDecoder := mDecoder s; mGfxWindow := v;
     mQuitRenderThread := mQuitRenderThread s;
     mRenderThread := mRenderThread s; mDataQueue := mDataQueue s;
     steadyClock := steadyClock s; nextSerial := nextSerial s;
     calls := calls s |}.

Definition set_mQuitRenderThread (v : bool) (s : RenderSession) : RenderSession :=
  {| mSessionType := mSessionType s; mDisplayName := mDisplayName s;
     mSocketName := mSocketName s; mStarted := mStarted s;
     mLastActiveTime := mLastActiveTime s; mSocket := mSocket s;
     mPreviewText := mPreviewText s;
     mHasCustomTtmlStyling := mHasCustomTtmlStyling s;
     mDecoder := mDecoder s; mGfxWindow := mGfxWindow s;
     mQuitRenderThread := v; mRenderThread := mRenderThread s;
     mDataQueue := mDataQueue s; steadyClock := steadyClock s;
     nextSerial := nextSerial s; calls := calls s |}.

Definition set_mRenderThread (v : bool) (s : RenderSession) : RenderSession :=
  {| mSessionType := mSessionType s; mDisplayName := mDisplayName s;
     mSocketName := mSocketName s; mStarted := mStarted s;
     mLastActiveTime := mLastActiveTime s; mSocket := mSocket s;
     mPreviewText := mPreviewText s;
     mHasCustomTtmlStyling := mHasCustomTtmlStyling s;
     mDecoder := mDecoder s; mGfxWindow := mGfxWindow s;
     mQuitRenderThread := mQuitRenderThread s; mRenderThread := v;
     mDataQueue := mDataQueue s; steadyClock := steadyClock s;
     nextSerial := nextSerial s; calls := calls s |}.

Definition set_mDataQueue (v : list DataBufferPtr) (s : RenderSession) : RenderSession :=
  {| mSessionType := mSessionType s; mDisplayName := mDisplayName s;
     mSocketName := mSocketName s; mStarted := mStarted s;
     mLastActiveTime := mLastActiveTime s; mSocket := mSocket s;
     mPreviewText := mPreviewText s;
     mHasCustomTtmlStyling := mHasCustomTtmlStyling s;
     mDecoder := mDecoder s; mGfxWindow := mGfxWindow s;
     mQuitRenderThread := mQuitRenderThread s;
     mRenderThread := mRenderThread s; mDataQueue := v;
     steadyClock := steadyClock s; nextSerial := nextSerial s;
     calls := calls s |}.

Definition set_nextSerial (v : nat) (s : RenderSession) : RenderSession :=
  {| mSessionType := mSessionType s; mDisplayName := mDisplayName s;
     mSocketName := mSocketName s; mStarted := mStarted s;
     mLastActiveTime := mLastActiveTime s; mSocket := mSocket s;
     mPreviewText := mPreviewText s;
     mHasCustomTtmlStyling := mHasCustomTtmlStyling s;
     mDecoder := mDecoder s; mGfxWindow := mGfxWindow s;
     mQuitRenderThread := mQuitRenderThread s;
     mRenderThread := mRenderThread s; mDataQueue := mDataQueue s;
     steadyClock := steadyClock s; nextSerial := v; calls := calls s |}.

Definition set_calls (v : list Call) (s : RenderSession) : RenderSession :=
  {| mSessionType := mSessionType s; mDisplayName := mDisplayName s;
     mSocketName := mSocketName s; mStarted := mStarted s;
     mLastActiveTime := mLastActiveTime s; mSocket := mSocket s;
     mPreviewText := mPreviewText s;
     mHasCustomTtmlStyling := mHasCustomTtmlStyling s;
     mDecoder := mDecoder s; mGfxWindow := mGfxWindow s;
     mQuitRenderThread := mQuitRenderThread s;
     mRenderThread := mRenderThread s; mDataQueue := mDataQueue s;
     steadyClock := steadyClock s; nextSerial := nextSerial s; calls := v |}.
Definition log (c : Call) (s : RenderSession) : RenderSession :=
  set_calls (calls s ++ [c]) s.

(** [RenderSession(configuration, displayName, socketName)], constructed when
    the steady clock reads [now]. *)
Definition RenderSession_ctor (displayName socketName : string) (now : Z)
  : RenderSession :=
  {| mSessionType := SessionType.NONE;
     mDisplayName := displayName;
     mSocketName := socketName;
     mStarted := false;
     mLastActiveTime := now;
     mSocket := false;
     mPreviewText := EmptyString;
     mHasCustomTtmlStyling := false;
     mDecoder := None;
     mGfxWindow := false;
     mQuitRenderThread := false;
     mRenderThread := false;
     mDataQueue := [];
     steadyClock := now;
     nextSerial := O;
     calls := [GfxInit] |}.

Definition is_empty (str : string) : bool :=
  match str with EmptyString => true | _ => false end.

(** [start()].  The second component tells whether the call left by the
    [throw] that follows a failed socket creation. *)
Definition start (socketCreated : bool) (s : RenderSession)
  : RenderSession * bool :=
  if mStarted s then (s, false)
  else
    let s1 := set_mStarted true s in
    let s2 := log GfxAttach (set_mGfxWindow true (log GfxCreateWindow s1)) in
    if negb (is_empty (mSocketName s2)) then
      if socketCreated then
        let s3 := log SocketStart (set_mSocket true s2) in
        (set_mRenderThread true (set_mQuitRenderThread false s3), false)
      else (s2, true)
    else (set_mRenderThread true (set_mQuitRenderThread false s2), false).

Definition getDisplayName (s : RenderSession) : string := mDisplayName s.

Definition getSessionType (s : RenderSession) : SessionType.t := mSessionType s.

Definition touchTime (s : RenderSession) : RenderSession :=
  set_mLastActiveTime (steadyClock s) s.

Definition isRenderingActive (s : RenderSession) : bool :=
  match mDecoder s with Some _ => true | None => false end.

Definition isDataQueued (s : RenderSession) : bool :=
  match mDataQueue s with [] => false | _ :: _ => true end.

(** [addBuffer(buffer)]. *)
Definition addBuffer (buffer : DataBufferPtr) (s : RenderSession)
  : RenderSession :=
  if isRenderingActive s then set_mDataQueue (mDataQueue s ++ [buffer]) s
  else s.

(** [mDecoder.reset(new X(packet, ...))]: the new controller is constructed
    first, then the pointer is replaced, then the old controller is deleted. *)
Definition reset_new (k : Controller) (p : Packet) (s : RenderSession)
  : RenderSession :=
  let d := {| controller := k; serial := nextSerial s |} in
  let s1 := log (CtrlNew d p) (set_nextSerial (S (nextSerial s)) s) in
  let s2 := set_mDecoder (Some d) s1 in
  match mDecoder s with
  | Some old => log (CtrlDelete old) s2
  | None => s2
  end.

(** [mDecoder.reset()]. *)
Definition reset_null (s : RenderSession) : RenderSession :=
  match mDecoder s with
  | Some old => log (CtrlDelete old) (set_mDecoder None s)
  | None => s
  end.

Definition processDecoderSelection (packet : Packet) (s : RenderSession)
  : RenderSession :=
  let s1 := match mDecoder s with
            | Some d => log (CtrlDeactivate d) s
            | None => s
            end in
  match getType packet with
  | PacketType.SUBTITLE_SELECTION =>
      match getSubtitlesType packet with
      | SUBTITLES_TYPE_DVB =>
          set_mSessionType SessionType.DVB (reset_new DvbSubController packet s1)
      | SUBTITLES_TYPE_SCTE =>
          set_mSessionType SessionType.SCTE (reset_new ScteSubController packet s1)
      | SUBTITLES_TYPE_CC =>
          set_mSessionType SessionType.CC
            (reset_new CcSubController packet (log FontCacheNew s1))
      | SUBTITLES_TYPE_TELETEXT =>
          set_mSessionType SessionType.TTX (reset_new TtxController packet s1)
      | SUBTITLES_TYPE_UNKNOWN _ => reset_null s1
      end
  | PacketType.TELETEXT_SELECTION =>
      set_mSessionType SessionType.TTX (reset_new TtxController packet s1)
  | PacketType.TTML_SELECTION =>
      set_mSessionType SessionType.TTML (reset_new TtmlController packet s1)
  | PacketType.WEBVTT_SELECTION =>
      set_mSessionType SessionType.WEBVTT (reset_new WebvttController packet s1)
  | _ => reset_null s1
  end.

Definition processDataPacket (packet : Packet) (s : RenderSession)
  : RenderSession :=
  match mDecoder s with
  | Some d => log (CtrlAddData d packet) s
  | None => s
  end.

Definition processMutePacket (packet : Packet) (s : RenderSession)
  : RenderSession :=
  match mDecoder s with
  | Some d => log (CtrlMute d true) s
  | None => s
  end.

Definition processUnmutePacket (packet : Packet) (s : RenderSession)
  : RenderSession :=
  match mDecoder s with
  | Some d => log (CtrlMute d false) s
  | None => s
  end.

Definition processSetCCAttributes (packet : Packet) (s : RenderSession)
  : RenderSession :=
  match mDecoder s with
  | Some d =>
      if SessionType.is_CC (mSessionType s)
      then log (CtrlProcessSetCCAttributesPacket d packet) s
      else s
  | None => s
  end.

Definition processResetAll (packet : Packet) (s : RenderSession)
  : RenderSession :=
  match mDecoder s with
  | Some d =>
      let s1 := set_mDataQueue [] s in
      let s2 := log (CtrlDeactivate d) s1 in
      reset_null s2
  | None => s
  end.

Definition processPause (packet : Packet) (s : RenderSession) : RenderSession :=
  match mDecoder s with
  | Some d => log (CtrlPause d) s
  | None => s
  end.

Definition processResume (packet : Packet) (s : RenderSession) : RenderSession :=
  match mDecoder s with
  | Some d => log (CtrlResume d) s
  | None => s
  end.

Definition processTtmlTimestamp (packet : Packet) (s : RenderSession)
  : RenderSession :=
  match mDecoder s with
  | Some d => log (CtrlProcessTimestamp d packet) s
  | None => s
  end.

Definition processWebvttTimestamp (packet : Packet) (s : RenderSession)
  : RenderSession :=
  match mDecoder s with
  | Some d => log (CtrlProcessTimestamp d packet) s
  | None => s
  end.

Definition processTtmlInfo (packet : Packet) (s : RenderSession)
  : RenderSession :=
  match mDecoder s with
  | Some d => log (CtrlProcessInfo d packet) s
  | None => s
  end.

(** [setTextForClosedCaptionPreview(text)]. *)
Definition setTextForClosedCaptionPreview (text : string) (s : RenderSession)
  : RenderSession :=
  let s1 := set_mPreviewText text s in
  match mDecoder s1 with
  | Some d =>
      if SessionType.is_CC (mSessionType s1)
      then log (CtrlSetTextForPreview d text) s1
      else s1
  | None => s1
  end.

Section WithSubttxrend.
Context {ext : Subttxrend}.

(** The [switch] of [sendData]: the packet as it stands before the data
    is copied behind it; [None] is the [default] branch. *)
Definition sendData_packet (type : DataType.t) (offsetMs : Z)
    (bp : BuildPacket) : option BuildPacket :=
  match type with
  | DataType.PES =>
      Some (put 0 (set_type (typeCode PacketType.PES_DATA) bp))
  | DataType.TTML =>
      let bp := set_type (typeCode PacketType.TTML_DATA) bp in
      Some (put (Z.shiftr offsetMs 32) (put (Z.land offsetMs UINT32_MAX) bp))
  | DataType.WEBVTT =>
      let bp := set_type (typeCode PacketType.WEBVTT_DATA) bp in
      let offsetMs := s64 (- offsetMs) in
      Some (put (Z.shiftr offsetMs 32) (put (Z.land offsetMs UINT32_MAX) bp))
  | DataType.CC =>
      let bp := set_type (typeCode PacketType.CC_DATA) bp in
      Some (put 0 (put 0 (put 3 bp)))
  | DataType.BAD _ => None
  end.

(** The buffer [sendData] hands to [addBuffer], and the counter's new value. *)
Definition sendData_buffer (type : DataType.t) (data : DataBuffer)
    (offsetMs : Z) (sCounter : Z) : option DataBuffer * Z :=
  let (bp, c) := BuildPacket_ctor (typeCode PacketType.INVALID) sCounter in
  match sendData_packet type offsetMs bp with
  | Some bp => (Some (to_DataBufferPtr (append_data data bp)), c)
  | None => (None, c)
  end.

(** [sendData(type, data, offsetMs)], with the shared counter threaded. *)
Definition sendData (type : DataType.t) (data : DataBuffer) (offsetMs : Z)
    (sCounter : Z) (s : RenderSession) : bool * Z * RenderSession :=
  match sendData_buffer type data offsetMs sCounter with
  | (Some buffer, c) => (true, c, addBuffer (Some buffer) s)
  | (None, c) => (false, c, s)
  end.

Definition processResetChannel (packet : Packet) (s : RenderSession)
  : RenderSession :=
  match mDecoder s with
  | Some d =>
      if wantsData (calls s) d packet
      then reset_null (log (CtrlDeactivate d) s)
      else s
  | None => s
  end.

Definition doOnPacketReceived (packet : Packet) (s : RenderSession)
  : RenderSession :=
  let s := touchTime s in
  match getType packet with
  | PacketType.SUBTITLE_SELECTION
  | PacketType.TELETEXT_SELECTION
  | PacketType.TTML_SELECTION
  | PacketType.WEBVTT_SELECTION => processDecoderSelection packet s
  | PacketType.PES_DATA
  | PacketType.TTML_DATA
  | PacketType.WEBVTT_DATA
  | PacketType.CC_DATA => processDataPacket packet s
  | PacketType.RESET_ALL => processResetAll packet s
  | PacketType.RESET_CHANNEL => processResetChannel packet s
  | PacketType.TIMESTAMP => log (StcProcessTimestamp packet) s
  | PacketType.TTML_TIMESTAMP => processTtmlTimestamp packet s
  | PacketType.WEBVTT_TIMESTAMP => processWebvttTimestamp packet s
  | PacketType.PAUSE => processPause packet s
  | PacketType.RESUME => processResume packet s
  | PacketType.MUTE => processMutePacket packet s
  | PacketType.UNMUTE => processUnmutePacket packet s
  | PacketType.TTML_INFO => processTtmlInfo packet s
  | PacketType.SET_CC_ATTRIBUTES => processSetCCAttributes packet s
  | PacketType.INVALID => s
  end.

(** A run of packets dispatched one after the other. *)
Definition dispatchAll (packets : list Packet) (s : RenderSession)
  : RenderSession :=
  fold_left (fun s p => doOnPacketReceived p s) packets s.

(** The first loop of [processData]: it ends when the queue is found
    empty; [fuel] bounds the number of rounds. *)
Fixpoint drain (fuel : nat) (s : RenderSession) : RenderSession :=
  match fuel with
  | O => s
  | S fuel' =>
      match mDataQueue s with
      | [] => s
      | buffer :: rest =>
          let s1 := set_mDataQueue rest s in
          let s2 := match buffer with
                    | Some b => doOnPacketReceived (parse b) s1
                    | None => s1
                    end in
          drain fuel' s2
      end
  end.

(** [processData()]: the wait time in milliseconds and the state it leaves.
    No dispatch lengthens the queue, so its length is fuel enough. *)
Definition processData (s : RenderSession) : Z * RenderSession :=
  let s1 := drain (length (mDataQueue s)) s in
  match mDecoder s1 with
  | Some d =>
      let s2 := log (CtrlProcess d) s1 in
      (getWaitTime (calls s2) d, s2)
  | None => (0, s1)
  end.

(** *** The render thread

    [processLoop] as a machine over its program points.  A step is what
    the render thread does between two points; [None] means the thread
    does not move: it is blocked on the condition variable, or it has
    returned.  Other threads may change the session between two steps. *)
Inductive Point : Type :=
| OuterTest                (* [while (!mQuitRenderThread)] *)
| OuterWait                (* [mRenderCond.wait(lock, ...)] *)
| InnerTest                (* [while (!mQuitRenderThread && isRenderingActive())] *)
| Pass                     (* [processData(); mGfxEngine->execute()] *)
| InnerWait (t : Z)        (* [mRenderCond.wait_for(lock, t, ...)] *)
| Clear                    (* [mDataQueue.clear()] *)
| Returned.

Definition step (pt : Point) (s : RenderSession)
  : option (Point * RenderSession) :=
  match pt with
  | OuterTest =>
      Some (if mQuitRenderThread s then Returned else OuterWait, s)
  | OuterWait =>
      if mQuitRenderThread s || (isRenderingActive s && isDataQueued s)
      then Some (InnerTest, s)
      else None
  | InnerTest =>
      Some (if negb (mQuitRenderThread s) && isRenderingActive s
            then Pass else Clear, s)
  | Pass =>
      let (processWaitTime, s1) := processData s in
      let s2 := log GfxExecute s1 in
      Some (if processWaitTime =? 0 then Clear else InnerWait processWaitTime,
            s2)
  | InnerWait _ => Some (InnerTest, s)
  | Clear => Some (OuterTest, set_mDataQueue [] s)
  | Returned => None
  end.

(** [n] steps of the render thread with no other thread in between. *)
Fixpoint steps (n : nat) (pt : Point) (s : RenderSession)
  : option (Point * RenderSession) :=
  match n with
  | O => Some (pt, s)
  | S n' =>
      match step pt s with
      | Some (pt', s') => steps n' pt' s'
      | None => None
      end
  end.
End WithSubttxrend.

(** ** Instrumentation: which controllers are active, which are alive *)

(** Controllers constructed and not yet deactivated. *)
Definition activeCtrls (cs : list Call) : list Decoder :=
  fold_left (fun act c => match c with
                          | CtrlNew d _ => act ++ [d]
                          | CtrlDeactivate d => remove Decoder_eq_dec d act
                          | _ => act
                          end) cs [].

(** Controllers constructed and not yet deleted. *)
Definition liveCtrls (cs : list Call) : list Decoder :=
  fold_left (fun live c => match c with
                           | CtrlNew d _ => live ++ [d]
                           | CtrlDelete d => remove Decoder_eq_dec d live
                           | _ => live
                           end) cs [].

(** At every moment of the log at most one controller is active. *)
Definition one_active_at_a_time (cs : list Call) : Prop :=
  forall pre post, cs = pre ++ post -> (length (activeCtrls pre) <= 1)%nat.

(** At every moment of the log at most one controller object exists: each
    controller is deleted before the next one is constructed. *)
Definition one_alive_at_a_time (cs : list Call) : Prop :=
  forall pre post, cs = pre ++ post -> (length (liveCtrls pre) <= 1)%nat.

Definition slot (o : option Decoder) : list Decoder :=
  match o with Some d => [d] | None => [] end.

(** The log and the decoder slot agree: at most one controller was ever
    active at a time, and the active one is the one the session holds. *)
Definition ok (cs : list Call) (o : option Decoder) : Prop :=
  one_active_at_a_time cs /\ activeCtrls cs = slot o.

Definition consistent (s : RenderSession) : Prop :=
  ok (calls s) (mDecoder s).

(** Calls that neither activate nor deactivate a controller. *)
Definition neutral (c : Call) : bool :=
  match c with
  | CtrlNew _ _ | CtrlDeactivate _ => false
  | _ => true
  end.

(** ** Classes of packets *)

Definition is_selection (t : PacketType.t) : bool :=
  match t with
  | PacketType.SUBTITLE_SELECTION | PacketType.TELETEXT_SELECTION
  | PacketType.TTML_SELECTION | PacketType.WEBVTT_SELECTION => true
  | _ => false
  end.

Definition is_data (t : PacketType.t) : bool :=
  match t with
  | PacketType.PES_DATA | PacketType.TTML_DATA
  | PacketType.WEBVTT_DATA | PacketType.CC_DATA => true
  | _ => false
  end.

(** Mute, unmute, pause and resume. *)
Definition is_transport (t : PacketType.t) : bool :=
  match t with
  | PacketType.MUTE | PacketType.UNMUTE
  | PacketType.PAUSE | PacketType.RESUME => true
  | _ => false
  end.

(** ** The session registry of [TextTrackImplementation] *)

(** The three [Core::hresult] values the session operations return. *)
Inductive hresult : Set := ERROR_NONE | ERROR_GENERAL | ERROR_NOT_SUPPORTED.

(** [std::map<unsigned, SessionInfo>]: entries in increasing key order, each
    owning its session. *)
Definition SessionMap : Type := list (Z * RenderSession).

Record TextTrackImplementation : Type := {
  mSessions : SessionMap;
  mSessionNumber : Z
}.

(** [mSessions.find(id)]. *)
Fixpoint find_session (id : Z) (m : SessionMap) : option RenderSession :=
  match m with
  | [] => None
  | (k, ses) :: rest => if k =? id then Some ses else find_session id rest
  end.

(** [std::find_if] over the map with the display-name predicate. *)
Fixpoint find_display (name : string) (m : SessionMap)
  : option (Z * RenderSession) :=
  match m with
  | [] => None
  | (k, ses) :: rest =>
      if String.eqb (getDisplayName ses) name then Some (k, ses)
      else find_display name rest
  end.

(** [mSessions.emplace(id, ...)]: nothing is stored when the key is taken. *)
Fixpoint emplace (id : Z) (ses : RenderSession) (m : SessionMap) : SessionMap :=
  match m with
  | [] => [(id, ses)]
  | (k, v) :: rest =>
      if id <? k then (id, ses) :: (k, v) :: rest
      else if id =? k then (k, v) :: rest
      else (k, v) :: emplace id ses rest
  end.

(** The effect on the map of a member call that changes the session the
    iterator returned by [find_session] points to. *)
Fixpoint store (id : Z) (ses : RenderSession) (m : SessionMap) : SessionMap :=
  match m with
  | [] => []
  | (k, v) :: rest =>
      if k =? id then (k, ses) :: rest else (k, v) :: store id ses rest
  end.

(** The effect on the map of a member call that changes the session the
    iterator returned by [find_display] points to. *)
Fixpoint store_display (name : string) (ses : RenderSession) (m : SessionMap)
  : SessionMap :=
  match m with
  | [] => []
  | (k, v) :: rest =>
      if String.eqb (getDisplayName v) name then (k, ses) :: rest
      else (k, v) :: store_display name ses rest
  end.

(** What the surroundings decide when a session is opened. *)
Record Host : Type := {
  ensureDisplayIsCreated : string -> bool;
  constructionThrows : bool;
  socketCreated : bool;
  now : Z
}.

(** How a call ends: it returns a result, or an exception leaves it. *)
Inductive Outcome : Set := Return (h : hresult) | Throw.

(** [OpenSession(iDisplayName, oSessionId)]; the second component is the
    value of the reference [oSessionId] afterwards. *)
Definition OpenSession (host : Host) (iDisplayName : string) (oSessionId : Z)
    (impl : TextTrackImplementation) : Outcome * Z * TextTrackImplementation :=
  if is_empty iDisplayName then (Return ERROR_GENERAL, oSessionId, impl)
  else
    match find_display iDisplayName (mSessions impl) with
    | Some (id, existingSession) =>
        let (started, thrown) := start (socketCreated host) existingSession in
        let impl' := {| mSessions :=
                          store_display iDisplayName started (mSessions impl);
                        mSessionNumber := mSessionNumber impl |} in
        (if thrown then Throw else Return ERROR_NONE, id, impl')
    | None =>
        let id := u32 (mSessionNumber impl + 1) in
        let impl1 := {| mSessions := mSessions impl; mSessionNumber := id |} in
        if negb (ensureDisplayIsCreated host iDisplayName)
        then (Return ERROR_GENERAL, id, impl1)
        else if constructionThrows host
        then (Return ERROR_NONE, id, impl1)
        else
          let newSession :=
            RenderSession_ctor iDisplayName EmptyString (now host) in
          let (started, thrown) := start (socketCreated host) newSession in
          if thrown then (Return ERROR_NONE, id, impl1)
          else (Return ERROR_NONE, id,
                {| mSessions := emplace id started (mSessions impl);
                   mSessionNumber := id |})
    end.

(** [SetPreviewText(sessionId, text)]. *)
Definition SetPreviewText (sessionId : Z) (text : string)
    (impl : TextTrackImplementation) : hresult * TextTrackImplementation :=
  match find_session sessionId (mSessions impl) with
  | Some ses =>
      if SessionType.is_CC (getSessionType ses) then
        let ses' := setTextForClosedCaptionPreview text (touchTime ses) in
        (ERROR_NONE,
         {| mSessions := store sessionId ses' (mSessions impl);
            mSessionNumber := mSessionNumber impl |})
      else (ERROR_NOT_SUPPORTED, impl)
  | None => (ERROR_GENERAL, impl)
  end.

(** ** Concrete collaborators for the examples *)

(** A numbering of the packet types, used where an example needs one. *)
Definition exampleTypeCode (t : PacketType.t) : Z :=
  match t with
  | PacketType.INVALID => 4294967295
  | PacketType.PES_DATA => 1
  | PacketType.TIMESTAMP => 2
  | PacketType.RESET_ALL => 3
  | PacketType.RESET_CHANNEL => 4
  | PacketType.SUBTITLE_SELECTION => 5
  | PacketType.TELETEXT_SELECTION => 6
  | PacketType.TTML_SELECTION => 7
  | PacketType.TTML_DATA => 8
  | PacketType.TTML_TIMESTAMP => 9
  | PacketType.CC_DATA => 10
  | PacketType.PAUSE => 11
  | PacketType.RESUME => 12
  | PacketType.MUTE => 13
  | PacketType.UNMUTE => 14
  | PacketType.WEBVTT_SELECTION => 15
  | PacketType.WEBVTT_DATA => 16
  | PacketType.WEBVTT_TIMESTAMP => 17
  | PacketType.SET_CC_ATTRIBUTES => 18
  | PacketType.TTML_INFO => 19
  end.

(** A packet of a given type with nothing else in it. *)
Definition bare (t : PacketType.t) : Packet :=
  {| getType := t; getSubtitlesType := SUBTITLES_TYPE_UNKNOWN 0;
     getBuffer := [] |}.

(** A parser that reads the type word of a buffer under [exampleTypeCode]. *)
Definition exampleParse (buf : DataBuffer) : Packet :=
  let code := rd32 buf 0 in
  let t := if code =? 1 then PacketType.PES_DATA
           else if code =? 3 then PacketType.RESET_ALL
           else if code =? 8 then PacketType.TTML_DATA
           else if code =? 10 then PacketType.CC_DATA
           else if code =? 16 then PacketType.WEBVTT_DATA
           else PacketType.INVALID in
  {| getType := t; getSubtitlesType := SUBTITLES_TYPE_UNKNOWN 0;
     getBuffer := buf |}.

(** Controllers that answer [wants] to every [wantsData] and [wait] to every
    [getWaitTime]. *)
Definition exampleExt (wants : bool) (wait : Z) : Subttxrend :=
  {| typeCode := exampleTypeCode;
     parse := exampleParse;
     wantsData := fun _ _ _ => wants;
     getWaitTime := fun _ _ => wait |}.

(** The bytes of an ASCII text. *)
Definition bytes_of (text : string) : DataBuffer := list_byte_of_string text.

(** ** The calls of [RenderSession] that build their own packet *)

Module CcServiceType.
Inductive t : Set := CEA608 | CEA708.

Definition code (x : t) : Z := match x with CEA608 => 0 | CEA708 => 1 end.
End CcServiceType.

Section Api.
Context {ext : Subttxrend}.

(** Two more numbers that subttxrend decides: the codes of the subtitle types
    in a SUBTITLE_SELECTION packet, and the attribute mask that
    [setCcAttributes] puts together from [CcAttribType]. *)
Variable subtitlesTypeCode : SubtitlesType -> Z.
Variable attributeMask : Z.

(** [onPacketReceived(packet)]; the notification of the render thread
    changes no member. *)
Definition onPacketReceived (packet : Packet) (s : RenderSession)
  : RenderSession :=
  doOnPacketReceived packet s.

(** A packet of the given type with the given fields, as the calls below
    build it before they hand it to the parser. *)
Definition built (type : PacketType.t) (fields : list Z) (sCounter : Z)
  : DataBuffer * Z :=
  let (bp, c) := BuildPacket_ctor (typeCode type) sCounter in
  (to_DataBufferPtr (fold_left (fun bp v => put v bp) fields bp), c).

(** [onPacketReceived(mParser.parse(bp))] for such a packet. *)
Definition send (type : PacketType.t) (fields : list Z) (sCounter : Z)
    (s : RenderSession) : Z * RenderSession :=
  let (buffer, c) := built type fields sCounter in
  (c, onPacketReceived (parse buffer) s).

(** [sendTimestamp(iMediaTimestampMs)], the argument a [uint64_t]. *)
Definition sendTimestamp (iMediaTimestampMs : Z) (sCounter : Z)
    (s : RenderSession) : Z * RenderSession :=
  match mSessionType s with
  | SessionType.WEBVTT =>
      send PacketType.WEBVTT_TIMESTAMP
        [Z.land iMediaTimestampMs 4294967295; Z.shiftr iMediaTimestampMs 32]
        sCounter s
  | SessionType.TTML =>
      send PacketType.TTML_TIMESTAMP
        [Z.land iMediaTimestampMs 4294967295; Z.shiftr iMediaTimestampMs 32]
        sCounter s
  | _ => (sCounter, s)
  end.

Definition pause (sCounter : Z) (s : RenderSession) : Z * RenderSession :=
  send PacketType.PAUSE [] sCounter s.

Definition resume (sCounter : Z) (s : RenderSession) : Z * RenderSession :=
  send PacketType.RESUME [] sCounter s.

(** [close()] in a build without the closed-caption HAL: nothing to do. *)
Definition close (s : RenderSession) : RenderSession := s.

Definition reset (sCounter : Z) (s : RenderSession) : Z * RenderSession :=
  send PacketType.RESET_CHANNEL [] sCounter (close s).

Definition mute (sCounter : Z) (s : RenderSession) : Z * RenderSession :=
  send PacketType.MUTE [] sCounter s.

Definition unmute (sCounter : Z) (s : RenderSession) : Z * RenderSession :=
  send PacketType.UNMUTE [] sCounter s.

(** The second half of [setCcAttributes]: a preview text, if there is one,
    is handed to the CC decoder again. *)
Definition refresh_preview (s : RenderSession) : RenderSession :=
  if negb (is_empty (mPreviewText s)) then
    match mDecoder s with
    | Some d =>
        if SessionType.is_CC (mSessionType s)
        then log (CtrlSetTextForPreview d (mPreviewText s)) s
        else s
    | None => s
    end
  else s.

(** [setCcAttributes(...)]: the packet, then the refresh of the preview. *)
Definition setCcAttributes
    (fontColor fontOpacity fontStyle fontSize edgeType edgeColor
     backgroundColor backgroundOpacity windowColor windowOpacity : Z)
    (sCounter : Z) (s : RenderSession) : Z * RenderSession :=
  let (c, s1) :=
    send PacketType.SET_CC_ATTRIBUTES
      [1; attributeMask;
       fontColor; backgroundColor; fontOpacity; backgroundOpacity;
       fontStyle; fontSize; -1; -1; -1; 4278190080;
       windowColor; windowOpacity; edgeType; edgeColor]
      sCounter s in
  (c, refresh_preview s1).

Definition selectCcService (type : CcServiceType.t) (serviceId : Z)
    (sCounter : Z) (s : RenderSession) : Z * RenderSession :=
  send PacketType.SUBTITLE_SELECTION
    [subtitlesTypeCode SUBTITLES_TYPE_CC; CcServiceType.code type; serviceId]
    sCounter s.

(** The two fields [selectTtxService] computes from a [uint16_t] page. *)
Definition ttxMagazine (page : Z) : Z := if 800 <=? page then 0 else page / 100.
Definition ttxPage (page : Z) : Z := page mod 100.

Definition selectTtxService (page : Z) (sCounter : Z) (s : RenderSession)
  : Z * RenderSession :=
  send PacketType.SUBTITLE_SELECTION
    [subtitlesTypeCode SUBTITLES_TYPE_TELETEXT; ttxMagazine page; ttxPage page]
    sCounter s.

(** [selectDvbService] and [selectScteService] only write a log line. *)
Definition selectDvbService (compositionPageId ancillaryPageId : Z)
    (sCounter : Z) (s : RenderSession) : Z * RenderSession :=
  (sCounter, s).

Definition selectScteService (sCounter : Z) (s : RenderSession)
  : Z * RenderSession :=
  (sCounter, s).

Definition selectWebvttService (iVideoWidth iVideoHeight : Z) (sCounter : Z)
    (s : RenderSession) : Z * RenderSession :=
  send PacketType.WEBVTT_SELECTION [iVideoWidth; iVideoHeight] sCounter s.

Definition selectTtmlService (iVideoWidth iVideoHeight : Z) (sCounter : Z)
    (s : RenderSession) : Z * RenderSession :=
  send PacketType.TTML_SELECTION [iVideoWidth; iVideoHeight] sCounter s.

(** ** The session with its render thread *)

(** The program point of the render thread and the members of the session.
    A session without a thread has the point [Returned]. *)
Definition Machine : Type := (Point * RenderSession)%type.

(** [mRenderThread.join()]: the thread runs on until [processLoop] returns.
    Once shutdown is requested five steps are enough from every point. *)
Fixpoint run_thread (fuel : nat) (pt : Point) (s : RenderSession) : Machine :=
  match fuel with
  | O => (pt, s)
  | S fuel' =>
      match step pt s with
      | Some (pt', s') => run_thread fuel' pt' s'
      | None => (pt, s)
      end
  end.

Definition join (m : Machine) : Machine :=
  let (pt, s) := run_thread 5 (fst m) (snd m) in
  (pt, set_mRenderThread false s).

(** [start()] with the thread it creates, which begins [processLoop]. *)
Definition start_thread (socketOk : bool) (m : Machine) : Machine * bool :=
  let (pt, s) := m in
  if mStarted s then (m, false)
  else
    let (s', thrown) := start socketOk s in
    ((if thrown then pt else OuterTest, s'), thrown).

(** [stop()].  The socket's [stop] and the window's [detach] show in the
    members [mSocket] and [mGfxWindow]. *)
Definition stop (m : Machine) : Machine :=
  let (pt, s) := m in
  if negb (mStarted s) then m
  else
    let s := set_mStarted false s in
    let s := if negb (is_empty (mSocketName s)) && mSocket s
             then set_mSocket false s else s in
    let s := set_mQuitRenderThread true s in
    let (pt, s) := if mRenderThread s then join (pt, s) else (pt, s) in
    let s := set_mDataQueue [] s in
    let s := match mDecoder s with
             | Some d => reset_null (log (CtrlDeactivate d) s)
             | None => s
             end in
    let s := if mGfxWindow s then set_mGfxWindow false s else s in
    (pt, s).

(** What can happen to a session: a packet arrives (from the socket or from
    one of the calls above), a buffer arrives, the preview text is set or
    refreshed, the session is started or stopped, the render thread takes a
    step. *)
Inductive Event : Type :=
| EvPacket (p : Packet)
| EvBuffer (b : DataBufferPtr)
| EvPreview (text : string)
| EvRefresh
| EvStart (socketOk : bool)
| EvStop
| EvThread.

Definition react (m : Machine) (e : Event) : Machine :=
  match e with
  | EvPacket p => (fst m, onPacketReceived p (snd m))
  | EvBuffer b => (fst m, addBuffer b (snd m))
  | EvPreview text => (fst m, setTextForClosedCaptionPreview text (snd m))
  | EvRefresh => (fst m, refresh_preview (snd m))
  | EvStart ok => fst (start_thread ok m)
  | EvStop => stop m
  | EvThread =>
      if mRenderThread (snd m) then
        match step (fst m) (snd m) with
        | Some m' => m'
        | None => m
        end
      else m
  end.

Definition history (events : list Event) (m : Machine) : Machine :=
  fold_left react events m.

(** A new session and no thread. *)
Definition new_machine (displayName socketName : string) (t : Z) : Machine :=
  (Returned, RenderSession_ctor displayName socketName t).

End Api.

(** The number of 32-bit fields [sendData] puts before the data. *)
Definition data_fields (type : DataType.t) : nat :=
  match type with
  | DataType.PES => 1
  | DataType.TTML | DataType.WEBVTT => 2
  | DataType.CC => 3
  | DataType.BAD _ => 0
  end.

(** The packet type [sendData] gives to the data of each kind. *)
Definition data_packet_type (type : DataType.t) : PacketType.t :=
  match type with
  | DataType.PES => PacketType.PES_DATA
  | DataType.TTML => PacketType.TTML_DATA
  | DataType.WEBVTT => PacketType.WEBVTT_DATA
  | DataType.CC => PacketType.CC_DATA
  | DataType.BAD _ => PacketType.INVALID
  end.

(** The non-null buffers of a queue, in order. *)
Definition buffers (q : list DataBufferPtr) : list DataBuffer :=
  flat_map (fun b => match b with Some x => [x] | None => [] end) q.

(** The class of controller that goes with a session type. *)
Definition controller_of (t : SessionType.t) : option Controller :=
  match t with
  | SessionType.NONE => None
  | SessionType.CC => Some CcSubController
  | SessionType.TTX => Some TtxController
  | SessionType.DVB => Some DvbSubController
  | SessionType.WEBVTT => Some WebvttController
  | SessionType.TTML => Some TtmlController
  | SessionType.SCTE => Some ScteSubController
  end.

(** The decoder the session holds is of the class its session type names,
    and every preview text in the log went to a CC controller. *)
Definition well_typed (s : RenderSession) : Prop :=
  (forall d, mDecoder s = Some d ->
             controller_of (mSessionType s) = Some (controller d))
  /\ (forall d text, In (CtrlSetTextForPreview d text) (calls s) ->
                     controller d = CcSubController).

(** The same, on the three members it speaks of. *)
Definition wt (o : option Decoder) (t : SessionType.t) (cs : list Call)
  : Prop :=
  (forall d, o = Some d -> controller_of t = Some (controller d))
  /\ (forall d text, In (CtrlSetTextForPreview d text) cs ->
                     controller d = CcSubController).

Definition is_preview (c : Call) : bool :=
  match c with CtrlSetTextForPreview _ _ => true | _ => false end.

(** The members that say how far the session has been started, what it is
    called and what it shows as a preview. *)
Definition lifecycle (s : RenderSession)
  : bool * string * string * bool * bool * bool * bool * string * bool * Z :=
  (mStarted s, mDisplayName s, mSocketName s, mSocket s, mGfxWindow s,
   mRenderThread s, mQuitRenderThread s, mPreviewText s,
   mHasCustomTtmlStyling s, steadyClock s).

(** Both invariants together. *)
Definition sound (s : RenderSession) : Prop := consistent s /\ well_typed s.

(** What the member calls behind the session operations have in common:
    they leave the lifecycle members alone and take at most one sequence
    number. *)
Definition tame (call : Z -> RenderSession -> Z * RenderSession) : Prop :=
  forall c ses,
    lifecycle (snd (call c ses)) = lifecycle ses
    /\ (fst (call c ses) = c \/ fst (call c ses) = u32 (c + 1)).

(** The fields of the packet [setCcAttributes] builds. *)
Definition cc_attribute_fields (attributeMask : Z)
    (fontColor fontOpacity fontStyle fontSize edgeType edgeColor
     backgroundColor backgroundOpacity windowColor windowOpacity : Z)
  : list Z :=
  [1; attributeMask;
   fontColor; backgroundColor; fontOpacity; backgroundOpacity;
   fontStyle; fontSize; -1; -1; -1; 4278190080;
   windowColor; windowOpacity; edgeType; edgeColor].

(** ** More of the session registry *)

(** The registry together with the counter shared by all packets built in
    the process. *)
Record Process : Type := {
  sCounter : Z;
  registry : TextTrackImplementation
}.

Section RegistryApi.
Context {ext : Subttxrend}.
Variable subtitlesTypeCode : SubtitlesType -> Z.

(** The pattern of the session operations: look the identifier up, call a
    member of the session found, return [ERROR_NONE]; [ERROR_GENERAL] when
    there is no such session. *)
Definition on_session (sessionId : Z)
    (call : Z -> RenderSession -> Z * RenderSession) (w : Process)
  : hresult * Process :=
  match find_session sessionId (mSessions (registry w)) with
  | Some ses =>
      let (c, ses') := call (sCounter w) ses in
      (ERROR_NONE,
       {| sCounter := c;
          registry :=
            {| mSessions := store sessionId ses' (mSessions (registry w));
               mSessionNumber := mSessionNumber (registry w) |} |})
  | None => (ERROR_GENERAL, w)
  end.

Definition CloseSession (iSessionId : Z) (w : Process) : hresult * Process :=
  on_session iSessionId
    (fun c ses => let (c', ses') := mute c ses in (c', close (touchTime ses')))
    w.

Definition PauseSession (iSessionId : Z) (w : Process) : hresult * Process :=
  on_session iSessionId pause w.

Definition ResumeSession (iSessionId : Z) (w : Process) : hresult * Process :=
  on_session iSessionId resume w.

Definition MuteSession (iSessionId : Z) (w : Process) : hresult * Process :=
  on_session iSessionId mute w.

Definition UnMuteSession (iSessionId : Z) (w : Process) : hresult * Process :=
  on_session iSessionId unmute w.

Definition ResetSession (iSessionId : Z) (w : Process) : hresult * Process :=
  on_session iSessionId reset w.

(** [fTypeConvert]: a value that names no enumerator becomes CC. *)
Definition fTypeConvert (type_ : DataType.t) : DataType.t :=
  match type_ with
  | DataType.PES => DataType.PES
  | DataType.TTML => DataType.TTML
  | DataType.CC => DataType.CC
  | DataType.WEBVTT => DataType.WEBVTT
  | DataType.BAD _ => DataType.CC
  end.

(** [SendSessionData]: the result of [sendData] is not looked at. *)
Definition SendSessionData (sessionId : Z) (type : DataType.t)
    (displayOffsetMs : Z) (data : DataBuffer) (w : Process)
  : hresult * Process :=
  on_session sessionId
    (fun c ses =>
       let '(_, c', ses') :=
         sendData (fTypeConvert type) data displayOffsetMs c ses in
       (c', ses'))
    w.

Definition SendSessionTimestamp (iSessionId : Z) (iMediaTimestampMs : Z)
    (w : Process) : hresult * Process :=
  on_session iSessionId (sendTimestamp iMediaTimestampMs) w.

Definition SetSessionTeletextSelection (iSessionId : Z) (page : Z)
    (w : Process) : hresult * Process :=
  on_session iSessionId (selectTtxService subtitlesTypeCode page) w.

Definition SetSessionDvbSubtitleSelection (sessionId : Z)
    (compositionPageId ancillaryPageId : Z) (w : Process)
  : hresult * Process :=
  on_session sessionId (selectDvbService compositionPageId ancillaryPageId) w.

Definition SetSessionWebVTTSelection (iSessionId : Z) (w : Process)
  : hresult * Process :=
  on_session iSessionId (selectWebvttService 1920 1080) w.

Definition SetSessionSCTESelection (iSessionId : Z) (w : Process)
  : hresult * Process :=
  on_session iSessionId selectScteService w.

(** The operations above, to speak of all of them at once. *)
Inductive SessionOp : Type :=
| OpClose | OpPause | OpResume | OpMute | OpUnMute | OpReset
| OpSendData (type : DataType.t) (displayOffsetMs : Z) (data : DataBuffer)
| OpSendTimestamp (iMediaTimestampMs : Z)
| OpTeletext (page : Z)
| OpDvb (compositionPageId ancillaryPageId : Z)
| OpWebVTT
| OpSCTE.

Definition perform (op : SessionOp) (sessionId : Z) (w : Process)
  : hresult * Process :=
  match op with
  | OpClose => CloseSession sessionId w
  | OpPause => PauseSession sessionId w
  | OpResume => ResumeSession sessionId w
  | OpMute => MuteSession sessionId w
  | OpUnMute => UnMuteSession sessionId w
  | OpReset => ResetSession sessionId w
  | OpSendData type o data => SendSessionData sessionId type o data w
  | OpSendTimestamp ts => SendSessionTimestamp sessionId ts w
  | OpTeletext page => SetSessionTeletextSelection sessionId page w
  | OpDvb c a => SetSessionDvbSubtitleSelection sessionId c a w
  | OpWebVTT => SetSessionWebVTTSelection sessionId w
  | OpSCTE => SetSessionSCTESelection sessionId w
  end.
End RegistryApi.

(** The display names of the sessions of a map, in key order. *)
Definition display_names (m : SessionMap) : list string :=
  map (fun e => getDisplayName (snd e)) m.

(** A parser that recognises every packet type under [exampleTypeCode]. *)
Definition exampleParseAll (buf : DataBuffer) : Packet :=
  let code := rd32 buf 0 in
  let t :=
    if code =? 1 then PacketType.PES_DATA
    else if code =? 2 then PacketType.TIMESTAMP
    else if code =? 3 then PacketType.RESET_ALL
    else if code =? 4 then PacketType.RESET_CHANNEL
    else if code =? 5 then PacketType.SUBTITLE_SELECTION
    else if code =? 6 then PacketType.TELETEXT_SELECTION
    else if code =? 7 then PacketType.TTML_SELECTION
    else if code =? 8 then PacketType.TTML_DATA
    else if code =? 9 then PacketType.TTML_TIMESTAMP
    else if code =? 10 then PacketType.CC_DATA
    else if code =? 11 then PacketType.PAUSE
    else if code =? 12 then PacketType.RESUME
    else if code =? 13 then PacketType.MUTE
    else if code =? 14 then PacketType.UNMUTE
    else if code =? 15 then PacketType.WEBVTT_SELECTION
    else if code =? 16 then PacketType.WEBVTT_DATA
    else if code =? 17 then PacketType.WEBVTT_TIMESTAMP
    else if code =? 18 then PacketType.SET_CC_ATTRIBUTES
    else if code =? 19 then PacketType.TTML_INFO
    else PacketType.INVALID in
  let sub := let k := rd32 buf 16 in
             if k =? 0 then SUBTITLES_TYPE_DVB
             else if k =? 1 then SUBTITLES_TYPE_TELETEXT
             else if k =? 2 then SUBTITLES_TYPE_SCTE
             else if k =? 3 then SUBTITLES_TYPE_CC
             else SUBTITLES_TYPE_UNKNOWN k in
  {| getType := t; getSubtitlesType := sub; getBuffer := buf |}.

Definition exampleSubtitlesTypeCode (t : SubtitlesType) : Z :=
  match t with
  | SUBTITLES_TYPE_DVB => 0
  | SUBTITLES_TYPE_TELETEXT => 1
  | SUBTITLES_TYPE_SCTE => 2
  | SUBTITLES_TYPE_CC => 3
  | SUBTITLES_TYPE_UNKNOWN raw => raw
  end.

Definition exampleExtAll (wants : bool) (wait : Z) : Subttxrend :=
  {| typeCode := exampleTypeCode;
     parse := exampleParseAll;
     wantsData := fun _ _ _ => wants;
     getWaitTime := fun _ _ => wait |}.

(** ** Lemmas on bytes and words *)

Lemma Z_of_byte_of_Z (z : Z) : Z_of_byte (byte_of_Z z) = z mod 256.
Proof.
  unfold Z_of_byte, byte_of_Z.
  assert (Hr : 0 <= z mod 256 < 256) by (apply Z.mod_pos_bound; lia).
  destruct (Byte.of_N (Z.to_N (z mod 256))) as [b|] eqn:E.
  - apply Byte.to_of_N in E. rewrite E. lia.
  - apply Byte.of_N_None_iff in E. lia.
Qed.

Lemma word_at_le32 (v : Z) (rest : DataBuffer) :
  word_at (le32 v ++ rest) = u32 v.
Proof.
  unfold le32, word_at, u32. cbn [app].
  rewrite !Z_of_byte_of_Z, !Z.shiftr_div_pow2 by lia.
  change (2 ^ 8) with 256. change (2 ^ 16) with 65536.
  change (2 ^ 24) with 16777216. change (2 ^ 32) with 4294967296.
  pose proof (Z.div_mod v 256 ltac:(lia)).
  pose proof (Z.div_mod (v / 256) 256 ltac:(lia)).
  pose proof (Z.div_mod (v / 256 / 256) 256 ltac:(lia)).
  pose proof (Z.div_mod (v / 256 / 256 / 256) 256 ltac:(lia)).
  pose proof (Z.mod_pos_bound v 256 ltac:(lia)).
  pose proof (Z.mod_pos_bound (v / 256) 256 ltac:(lia)).
  pose proof (Z.mod_pos_bound (v / 256 / 256) 256 ltac:(lia)).
  pose proof (Z.mod_pos_bound (v / 256 / 256 / 256) 256 ltac:(lia)).
  replace (v / 65536) with (v / 256 / 256)
    by (rewrite Z.div_div by lia; reflexivity).
  replace (v / 16777216) with (v / 256 / 256 / 256)
    by (rewrite !Z.div_div by lia; reflexivity).
  apply Z.mod_unique_pos with (q := v / 256 / 256 / 256 / 256); lia.
Qed.

Lemma length_le32 (v : Z) : length (le32 v) = 4%nat.
Proof. reflexivity. Qed.

Lemma u32_range (z : Z) : 0 <= u32 z < 2 ^ 32.
Proof. unfold u32. apply Z.mod_pos_bound. lia. Qed.

Lemma u32_idem (z : Z) : u32 (u32 z) = u32 z.
Proof. unfold u32. apply Z.mod_mod. lia. Qed.

Lemma u32_small (z : Z) : 0 <= z < 2 ^ 32 -> u32 z = z.
Proof. intros H. unfold u32. apply Z.mod_small. exact H. Qed.

Lemma s64_id (z : Z) : int64_range z -> s64 z = z.
Proof.
  unfold int64_range, INT64_MIN, INT64_MAX, s64. intros H.
  rewrite Z.mod_small; lia.
Qed.

Lemma s64_mod (z : Z) : s64 z mod 2 ^ 64 = z mod 2 ^ 64.
Proof.
  unfold s64.
  pose proof (Z.div_mod (z + 2 ^ 63) (2 ^ 64) ltac:(lia)) as E.
  replace ((z + 2 ^ 63) mod 2 ^ 64 - 2 ^ 63)
    with (z + (- ((z + 2 ^ 63) / 2 ^ 64)) * 2 ^ 64) by lia.
  apply Z.mod_add. lia.
Qed.

Lemma s64_of_mod (z : Z) : s64 (z mod 2 ^ 64) = s64 z.
Proof.
  unfold s64.
  rewrite Zplus_mod_idemp_l. reflexivity.
Qed.

(** A 64-bit pattern is its low word plus [2^32] times its high word. *)
Lemma split64 (z : Z) :
  z mod 2 ^ 32 + 2 ^ 32 * ((z / 2 ^ 32) mod 2 ^ 32) = z mod 2 ^ 64.
Proof.
  change (2 ^ 64) with (2 ^ 32 * 2 ^ 32).
  rewrite Z.rem_mul_r by lia. reflexivity.
Qed.

Lemma low_word (z : Z) : u32 (Z.land z UINT32_MAX) = u32 z.
Proof.
  unfold UINT32_MAX. change (2 ^ 32 - 1) with (Z.ones 32).
  rewrite Z.land_ones by lia. apply u32_idem.
Qed.

Lemma high_word (z : Z) : u32 (Z.shiftr z 32) = (z / 2 ^ 32) mod 2 ^ 32.
Proof. unfold u32. rewrite Z.shiftr_div_pow2 by lia. reflexivity. Qed.

(** Words that agree modulo [2^64] have the same low and high words. *)
Lemma words_congr (a b : Z) :
  a mod 2 ^ 64 = b mod 2 ^ 64 ->
  u32 a = u32 b /\ (a / 2 ^ 32) mod 2 ^ 32 = (b / 2 ^ 32) mod 2 ^ 32.
Proof.
  intros H. unfold u32.
  pose proof (split64 a) as Ha. pose proof (split64 b) as Hb.
  pose proof (Z.mod_pos_bound a (2 ^ 32) ltac:(lia)).
  pose proof (Z.mod_pos_bound b (2 ^ 32) ltac:(lia)).
  pose proof (Z.mod_pos_bound (a / 2 ^ 32) (2 ^ 32) ltac:(lia)).
  pose proof (Z.mod_pos_bound (b / 2 ^ 32) (2 ^ 32) ltac:(lia)).
  lia.
Qed.

(** ** The layout of a built packet *)

Lemma fold_ops_layout (ops : list BuildOp) :
  forall (t : Z) (rest tail : DataBuffer),
    pBuffer (fold_left apply_op ops {| pBuffer := le32 (u32 t) ++ rest ++ tail |})
    = le32 (u32 (final_type t ops)) ++ rest ++ tail ++ body_of_ops ops.
Proof.
  induction ops as [|op ops IH]; intros t rest tail.
  - cbn [fold_left body_of_ops flat_map final_type pBuffer].
    rewrite app_nil_r. reflexivity.
  - cbn [fold_left]. unfold final_type in *. cbn [fold_left].
    destruct op as [v|t'|d]; cbn [apply_op body_of_ops flat_map].
    + unfold put. cbn [pBuffer].
      rewrite <- !app_assoc. rewrite IH. rewrite <- !app_assoc. reflexivity.
    + unfold set_type. cbn [pBuffer].
      replace (4 <=? length (le32 (u32 t) ++ rest ++ tail))%nat with true
        by (symmetry; apply Nat.leb_le; rewrite length_app, length_le32; lia).
      unfold patch32. cbn [firstn pBuffer Nat.add].
      change (skipn 4 (le32 (u32 t) ++ rest ++ tail)) with (rest ++ tail).
      cbn [app]. rewrite IH. reflexivity.
    + unfold append_data. cbn [pBuffer].
      rewrite <- !app_assoc. rewrite IH. rewrite <- !app_assoc. reflexivity.
Qed.

(** The buffer [encode] returns, written out. *)
Lemma encode_bytes (type sCounter : Z) (ops : list BuildOp) :
  encode type sCounter ops
  = le32 (u32 (final_type type ops))
    ++ le32 (u32 (sCounter + 1))
    ++ le32 (u32 (Z.of_nat (length (body_of_ops ops)) + 4))
    ++ le32 1 ++ body_of_ops ops.
Proof.
  unfold encode, BuildPacket_ctor, to_DataBufferPtr. cbn [fst].
  unfold put at 1 2 3 4. cbn [pBuffer app].
  pose proof (fold_ops_layout ops type
                (le32 (u32 (u32 (sCounter + 1))) ++ le32 (u32 0))
                (le32 (u32 1))) as L.
  rewrite <- !app_assoc in L. rewrite <- !app_assoc.
  unfold done. rewrite !L.
  set (T := u32 (final_type type ops)).
  set (B := body_of_ops ops).
  rewrite u32_idem.
  replace (12 <=? length (le32 T ++ le32 (u32 (sCounter + 1)) ++ le32 (u32 0)
                            ++ le32 (u32 1) ++ B))%nat with true
    by (symmetry; apply Nat.leb_le; rewrite !length_app, !length_le32; lia).
  cbn [pBuffer]. unfold patch32.
  replace (Z.of_nat (length (le32 T ++ le32 (u32 (sCounter + 1)) ++ le32 (u32 0)
                               ++ le32 (u32 1) ++ B)) - 12)
    with (Z.of_nat (length B) + 4)
    by (rewrite !length_app, !length_le32; lia).
  reflexivity.
Qed.

Lemma rd32_0 (v : Z) (rest : DataBuffer) : rd32 (le32 v ++ rest) 0 = u32 v.
Proof. unfold rd32. cbn [skipn]. apply word_at_le32. Qed.

Lemma rd32_4 (a v : Z) (rest : DataBuffer) :
  rd32 (le32 a ++ le32 v ++ rest) 4 = u32 v.
Proof.
  unfold rd32.
  change (skipn 4 (le32 a ++ le32 v ++ rest)) with (le32 v ++ rest).
  apply word_at_le32.
Qed.

Lemma rd32_8 (a b v : Z) (rest : DataBuffer) :
  rd32 (le32 a ++ le32 b ++ le32 v ++ rest) 8 = u32 v.
Proof.
  unfold rd32.
  change (skipn 8 (le32 a ++ le32 b ++ le32 v ++ rest)) with (le32 v ++ rest).
  apply word_at_le32.
Qed.

Lemma rd32_12 (a b c v : Z) (rest : DataBuffer) :
  rd32 (le32 a ++ le32 b ++ le32 c ++ le32 v ++ rest) 12 = u32 v.
Proof.
  unfold rd32.
  change (skipn 12 (le32 a ++ le32 b ++ le32 c ++ le32 v ++ rest))
    with (le32 v ++ rest).
  apply word_at_le32.
Qed.

Lemma rd32_16 (a b c d v : Z) (rest : DataBuffer) :
  rd32 (le32 a ++ le32 b ++ le32 c ++ le32 d ++ le32 v ++ rest) 16 = u32 v.
Proof.
  unfold rd32.
  change (skipn 16 (le32 a ++ le32 b ++ le32 c ++ le32 d ++ le32 v ++ rest))
    with (le32 v ++ rest).
  apply word_at_le32.
Qed.

Lemma rd32_20 (a b c d e v : Z) (rest : DataBuffer) :
  rd32 (le32 a ++ le32 b ++ le32 c ++ le32 d ++ le32 e ++ le32 v ++ rest) 20
  = u32 v.
Proof.
  unfold rd32.
  change (skipn 20 (le32 a ++ le32 b ++ le32 c ++ le32 d ++ le32 e
                      ++ le32 v ++ rest))
    with (le32 v ++ rest).
  apply word_at_le32.
Qed.

(** ** C7: the header of a built packet *)

(** C7, as the code has it.  Every buffer the packet builder returns starts
    with a 12-byte header of three little-endian words: the type (the last
    one set), the sequence number (the shared counter after its increment)
    and the payload length.  The payload is everything behind these 12
    bytes; its first word is the constant 1 the constructor appends, the
    fields and the data follow.  The length word is written by [done], after
    all fields are in place, and equals the number of payload bytes (for a
    payload below 4 GiB, what 32 bits can hold). *)
Theorem encode_header_and_length (type sCounter : Z) (ops : list BuildOp) :
  Z.of_nat (length (body_of_ops ops)) + 4 < 2 ^ 32 ->
  let buf := encode type sCounter ops in
  rd32 buf 0 = u32 (final_type type ops)
  /\ rd32 buf 4 = u32 (sCounter + 1)
  /\ rd32 buf 8 = Z.of_nat (length (skipn 12 buf))
  /\ rd32 buf 12 = 1
  /\ skipn 12 buf = le32 1 ++ body_of_ops ops.
Proof.
  intros Hlen buf. subst buf. rewrite encode_bytes.
  set (B := body_of_ops ops) in *.
  assert (Hskip : skipn 12
            (le32 (u32 (final_type type ops)) ++ le32 (u32 (sCounter + 1))
             ++ le32 (u32 (Z.of_nat (length B) + 4)) ++ le32 1 ++ B)
          = le32 1 ++ B) by reflexivity.
  rewrite Hskip.
  split; [|split; [|split; [|split]]].
  - rewrite rd32_0. apply u32_idem.
  - rewrite rd32_4. apply u32_idem.
  - rewrite rd32_8, u32_idem, length_app, length_le32.
    rewrite u32_small by lia. lia.
  - rewrite rd32_12. reflexivity.
  - reflexivity.
Qed.

Lemma encode_header_and_length_witness :
  let buf := encode 13 41 [OpPut 7; OpData (bytes_of "abc")] in
  rd32 buf 0 = 13 /\ rd32 buf 4 = 42 /\ rd32 buf 8 = 11
  /\ length (skipn 12 buf) = 11%nat.
Proof.
  pose proof (encode_header_and_length 13 41
                [OpPut 7; OpData (bytes_of "abc")]) as H.
  cbv zeta in H.
  destruct H as (H0 & H4 & H8 & _ & Hp); [vm_compute; reflexivity|].
  cbv zeta. split; [|split; [|split]].
  - rewrite H0. reflexivity.
  - rewrite H4. reflexivity.
  - rewrite H8, Hp. reflexivity.
  - rewrite Hp. reflexivity.
Defined.

(** C7, as the claim words it, fails.  With four words (type, sequence,
    reserved, payload length) the length would be the fourth word.  In a
    packet built with no field at all the fourth word is the constant 1: it
    is neither the number of bytes behind the 12-byte header (4) nor the
    number behind the four words (0); and the third word is not a reserved
    zero, it holds the length. *)
Lemma encode_fourth_word_is_not_the_length :
  let buf := encode 13 0 [] in
  length buf = 16%nat
  /\ rd32 buf 12 = 1
  /\ rd32 buf 12 <> Z.of_nat (length (skipn 12 buf))
  /\ rd32 buf 12 <> Z.of_nat (length (skipn 16 buf))
  /\ rd32 buf 8 = 4.
Proof. vm_compute. repeat split; discriminate. Qed.

(** ** C2: the display offset in a data packet *)

Section SendData.
Context {ext : Subttxrend}.

Lemma sendData_buffer_TTML (data : DataBuffer) (o c : Z) :
  sendData_buffer DataType.TTML data o c
  = (Some (encode (typeCode PacketType.INVALID) c
             [OpType (typeCode PacketType.TTML_DATA);
              OpPut (Z.land o UINT32_MAX); OpPut (Z.shiftr o 32);
              OpData data]),
     u32 (c + 1)).
Proof. reflexivity. Qed.

Lemma sendData_buffer_WEBVTT (data : DataBuffer) (o c : Z) :
  sendData_buffer DataType.WEBVTT data o c
  = (Some (encode (typeCode PacketType.INVALID) c
             [OpType (typeCode PacketType.WEBVTT_DATA);
              OpPut (Z.land (s64 (- o)) UINT32_MAX);
              OpPut (Z.shiftr (s64 (- o)) 32);
              OpData data]),
     u32 (c + 1)).
Proof. reflexivity. Qed.

(** The words at offsets 16 and 20 of a packet with a 64-bit field. *)
Lemma encode_offset_field (t0 t c v : Z) (data : DataBuffer) :
  let buf := encode t0 c [OpType t; OpPut (Z.land v UINT32_MAX);
                          OpPut (Z.shiftr v 32); OpData data] in
  rd32 buf 0 = u32 t
  /\ rd32 buf 16 = u32 v
  /\ rd32 buf 20 = (v / 2 ^ 32) mod 2 ^ 32
  /\ skipn 24 buf = data.
Proof.
  intros buf. subst buf. rewrite encode_bytes.
  cbn [body_of_ops flat_map final_type fold_left].
  rewrite app_nil_r. change ([] ++ ?l) with l.
  split; [|split; [|split]].
  - rewrite rd32_0. apply u32_idem.
  - rewrite rd32_16, u32_idem. apply low_word.
  - rewrite rd32_20, u32_idem. apply high_word.
  - reflexivity.
Qed.

(** C2.  For every offset of type [int64_t], the packet [sendData] builds
    holds a 64-bit value at payload offset 4 (buffer offset 16) as two
    little-endian 32-bit words, the low word first, the data behind them.
    For TTML the value is the offset itself; for WebVTT it is the 64-bit
    pattern of the negated offset, which reads back as the negation for
    every offset that has one in 64 bits. *)
Theorem sendData_offset_encoding (data : DataBuffer) (offsetMs sCounter : Z) :
  int64_range offsetMs ->
  (exists buf,
      fst (sendData_buffer DataType.WEBVTT data offsetMs sCounter) = Some buf
      /\ rd32 buf 0 = u32 (typeCode PacketType.WEBVTT_DATA)
      /\ rd32 buf 16 = (- offsetMs) mod 2 ^ 32
      /\ rd32 buf 20 = ((- offsetMs) / 2 ^ 32) mod 2 ^ 32
      /\ rd64 buf 16 = (- offsetMs) mod 2 ^ 64
      /\ (offsetMs <> INT64_MIN -> s64 (rd64 buf 16) = - offsetMs)
      /\ skipn 24 buf = data)
  /\ (exists buf,
      fst (sendData_buffer DataType.TTML data offsetMs sCounter) = Some buf
      /\ rd32 buf 0 = u32 (typeCode PacketType.TTML_DATA)
      /\ rd32 buf 16 = offsetMs mod 2 ^ 32
      /\ rd32 buf 20 = (offsetMs / 2 ^ 32) mod 2 ^ 32
      /\ rd64 buf 16 = offsetMs mod 2 ^ 64
      /\ s64 (rd64 buf 16) = offsetMs
      /\ skipn 24 buf = data).
Proof.
  intros Hr. split.
  - rewrite sendData_buffer_WEBVTT. cbn [fst].
    eexists. split; [reflexivity|].
    destruct (encode_offset_field (typeCode PacketType.INVALID)
                (typeCode PacketType.WEBVTT_DATA) sCounter
                (s64 (- offsetMs)) data) as (H0 & H16 & H20 & Hd).
    destruct (words_congr (s64 (- offsetMs)) (- offsetMs) (s64_mod _))
      as (Hlo & Hhi).
    assert (H64 : rd64 (encode (typeCode PacketType.INVALID) sCounter
               [OpType (typeCode PacketType.WEBVTT_DATA);
                OpPut (Z.land (s64 (- offsetMs)) UINT32_MAX);
                OpPut (Z.shiftr (s64 (- offsetMs)) 32); OpData data]) 16
             = (- offsetMs) mod 2 ^ 64).
    { unfold rd64. change (16 + 4)%nat with 20%nat.
      rewrite H16, H20, Hlo, Hhi. apply split64. }
    repeat split; try assumption.
    + rewrite H16. exact Hlo.
    + rewrite H20. exact Hhi.
    + intros Hmin. rewrite H64, s64_of_mod. apply s64_id.
      unfold int64_range, INT64_MIN, INT64_MAX in *. lia.
  - rewrite sendData_buffer_TTML. cbn [fst].
    eexists. split; [reflexivity|].
    destruct (encode_offset_field (typeCode PacketType.INVALID)
                (typeCode PacketType.TTML_DATA) sCounter offsetMs data)
      as (H0 & H16 & H20 & Hd).
    assert (H64 : rd64 (encode (typeCode PacketType.INVALID) sCounter
               [OpType (typeCode PacketType.TTML_DATA);
                OpPut (Z.land offsetMs UINT32_MAX);
                OpPut (Z.shiftr offsetMs 32); OpData data]) 16
             = offsetMs mod 2 ^ 64).
    { unfold rd64. change (16 + 4)%nat with 20%nat.
      rewrite H16, H20. apply split64. }
    repeat split; try assumption.
    rewrite H64, s64_of_mod. apply s64_id. exact Hr.
Qed.
Lemma sendData_counter (type : DataType.t) (data : DataBuffer)
    (offsetMs sCounter : Z) :
  snd (sendData_buffer type data offsetMs sCounter) = u32 (sCounter + 1).
Proof. destruct type; reflexivity. Qed.

(** [sendData] queues the buffer when a decoder is held, and drops it
    otherwise; it returns true either way. *)
Lemma sendData_queues_the_buffer (type : DataType.t) (data buf : DataBuffer)
    (offsetMs sCounter : Z) (s : RenderSession) :
  fst (sendData_buffer type data offsetMs sCounter) = Some buf ->
  sendData type data offsetMs sCounter s
  = (true, u32 (sCounter + 1),
     if isRenderingActive s then set_mDataQueue (mDataQueue s ++ [Some buf]) s
     else s).
Proof.
  intros H. unfold sendData.
  pose proof (sendData_counter type data offsetMs sCounter) as C.
  destruct (sendData_buffer type data offsetMs sCounter) as [[b|] c];
    cbn in *; [|discriminate].
  injection H as ->. subst c. reflexivity.
Qed.
End SendData.

(** The examples of the specification: [sendData(WEBVTT, ..., 3000)] stores
    -3000 and [sendData(TTML, ..., -3500)] stores -3500. *)
Lemma sendData_offset_encoding_witness :
  (exists buf,
      fst (@sendData_buffer (exampleExt true 0) DataType.WEBVTT
             (bytes_of "cue") 3000 0) = Some buf
      /\ s64 (rd64 buf 16) = -3000)
  /\ (exists buf,
      fst (@sendData_buffer (exampleExt true 0) DataType.TTML
             (bytes_of "cue") (-3500) 0) = Some buf
      /\ s64 (rd64 buf 16) = -3500).
Proof.
  split.
  - destruct (@sendData_offset_encoding (exampleExt true 0)
                (bytes_of "cue") 3000 0) as [(buf & E & _ & _ & _ & _ & H & _) _].
    + unfold int64_range, INT64_MIN, INT64_MAX. lia.
    + exists buf. split; [exact E|]. apply H. unfold INT64_MIN. lia.
  - destruct (@sendData_offset_encoding (exampleExt true 0)
                (bytes_of "cue") (-3500) 0) as [_ (buf & E & _ & _ & _ & _ & H & _)].
    + unfold int64_range, INT64_MIN, INT64_MAX. lia.
    + exists buf. split; [exact E|exact H].
Defined.

(** ** The call log *)

Lemma activeCtrls_snoc (cs : list Call) (c : Call) :
  activeCtrls (cs ++ [c])
  = match c with
    | CtrlNew d _ => activeCtrls cs ++ [d]
    | CtrlDeactivate d => remove Decoder_eq_dec d (activeCtrls cs)
    | _ => activeCtrls cs
    end.
Proof. unfold activeCtrls. rewrite fold_left_app. reflexivity. Qed.

Lemma liveCtrls_snoc (cs : list Call) (c : Call) :
  liveCtrls (cs ++ [c])
  = match c with
    | CtrlNew d _ => liveCtrls cs ++ [d]
    | CtrlDelete d => remove Decoder_eq_dec d (liveCtrls cs)
    | _ => liveCtrls cs
    end.
Proof. unfold liveCtrls. rewrite fold_left_app. reflexivity. Qed.

(** A split of [cs ++ [c]] is a split of [cs], or it is the whole log. *)
Lemma split_snoc {A : Type} (cs pre post : list A) (c : A) :
  cs ++ [c] = pre ++ post ->
  (exists post', cs = pre ++ post') \/ pre = cs ++ [c].
Proof.
  revert cs. induction pre as [|x pre IH]; intros cs E.
  - left. exists cs. reflexivity.
  - destruct cs as [|y cs].
    + cbn in E. injection E as -> E.
      destruct pre; [|discriminate]. right. reflexivity.
    + cbn in E. injection E as -> E.
      destruct (IH cs E) as [(post' & ->)| ->].
      * left. exists post'. reflexivity.
      * right. reflexivity.
Qed.

Lemma one_active_snoc (cs : list Call) (c : Call) :
  one_active_at_a_time cs ->
  (length (activeCtrls (cs ++ [c])) <= 1)%nat ->
  one_active_at_a_time (cs ++ [c]).
Proof.
  intros H Hc pre post E.
  destruct (split_snoc _ _ _ _ E) as [(post' & E')| ->].
  - exact (H pre post' E').
  - exact Hc.
Qed.

Lemma slot_length (o : option Decoder) : (length (slot o) <= 1)%nat.
Proof. destruct o; cbn; lia. Qed.

Lemma ok_nil : ok [] None.
Proof.
  split; [|reflexivity].
  intros pre post E. symmetry in E. apply app_eq_nil in E as [-> _].
  cbn. lia.
Qed.

Lemma ok_snoc_neutral (cs : list Call) (o : option Decoder) (c : Call) :
  neutral c = true -> ok cs o -> ok (cs ++ [c]) o.
Proof.
  intros Hn [H1 H2].
  assert (E : activeCtrls (cs ++ [c]) = slot o)
    by (rewrite activeCtrls_snoc; destruct c; try discriminate; exact H2).
  split; [|exact E].
  apply one_active_snoc; [exact H1|]. rewrite E. apply slot_length.
Qed.

Lemma ok_snoc_deactivate (cs : list Call) (d : Decoder) :
  ok cs (Some d) -> ok (cs ++ [CtrlDeactivate d]) None.
Proof.
  intros [H1 H2].
  assert (E : activeCtrls (cs ++ [CtrlDeactivate d]) = slot None).
  { rewrite activeCtrls_snoc, H2. cbn.
    destruct (Decoder_eq_dec d d); [reflexivity|contradiction]. }
  split; [|exact E].
  apply one_active_snoc; [exact H1|]. rewrite E. apply slot_length.
Qed.

Lemma ok_snoc_new (cs : list Call) (d : Decoder) (p : Packet) :
  ok cs None -> ok (cs ++ [CtrlNew d p]) (Some d).
Proof.
  intros [H1 H2].
  assert (E : activeCtrls (cs ++ [CtrlNew d p]) = slot (Some d))
    by (rewrite activeCtrls_snoc, H2; reflexivity).
  split; [|exact E].
  apply one_active_snoc; [exact H1|]. rewrite E. apply slot_length.
Qed.

(** Peels the calls a dispatch has appended, the last one first. *)
Ltac peel :=
  repeat first
    [ assumption
    | apply ok_snoc_new
    | apply ok_snoc_deactivate
    | apply ok_snoc_neutral; [reflexivity|] ].

Section Dispatch.
Context {ext : Subttxrend}.

Lemma processDecoderSelection_consistent (p : Packet) (s : RenderSession) :
  consistent s -> consistent (processDecoderSelection p s).
Proof.
  unfold consistent, processDecoderSelection, reset_new, reset_null.
  intros H.
  destruct (mDecoder s) as [old|] eqn:E;
    destruct (getType p); try destruct (getSubtitlesType p);
    cbn; rewrite ?E; cbn; peel.
Qed.

Lemma doOnPacketReceived_consistent (p : Packet) (s : RenderSession) :
  consistent s -> consistent (doOnPacketReceived p s).
Proof.
  intros H.
  unfold doOnPacketReceived.
  assert (Ht : consistent (touchTime s)) by exact H.
  destruct (getType p);
    try (apply processDecoderSelection_consistent; exact Ht);
    unfold consistent, processDataPacket, processResetAll,
      processResetChannel, processTtmlTimestamp, processWebvttTimestamp,
      processPause, processResume, processMutePacket, processUnmutePacket,
      processTtmlInfo, processSetCCAttributes, reset_null in *;
    cbn in *;
    destruct (mDecoder s) as [d|] eqn:E; cbn; rewrite ?E; cbn;
    try destruct (wantsData (calls s) d p);
    try destruct (SessionType.is_CC (mSessionType s));
    cbn; rewrite ?E; cbn; peel.
Qed.

Lemma dispatchAll_consistent (ps : list Packet) :
  forall s, consistent s -> consistent (dispatchAll ps s).
Proof.
  induction ps as [|p ps IH]; intros s H; [exact H|].
  cbn. apply IH. apply doOnPacketReceived_consistent. exact H.
Qed.

Lemma RenderSession_ctor_consistent (displayName socketName : string)
    (t : Z) :
  consistent (RenderSession_ctor displayName socketName t).
Proof.
  unfold consistent. cbn.
  change [GfxInit] with ([] ++ [GfxInit]).
  apply ok_snoc_neutral; [reflexivity|apply ok_nil].
Qed.
End Dispatch.

(** ** C1: one decoder at a time *)

Section Selection.
Context {ext : Subttxrend}.

(** What a selection appends to the log when a decoder is held. *)
Lemma selection_calls (p : Packet) (s : RenderSession) (old : Decoder) :
  is_selection (getType p) = true ->
  mDecoder s = Some old ->
  exists mid,
    calls (doOnPacketReceived p s)
    = calls s ++ CtrlDeactivate old :: mid ++ [CtrlDelete old]
    /\ (forall d, mDecoder (doOnPacketReceived p s) = Some d ->
                  In (CtrlNew d p) mid)
    /\ (forall c, In c mid -> c = FontCacheNew \/ exists d, c = CtrlNew d p).
Proof.
  intros Hsel E.
  unfold doOnPacketReceived, processDecoderSelection, reset_new, reset_null.
  destruct (getType p); try discriminate Hsel;
    try destruct (getSubtitlesType p);
    cbn; rewrite ?E; cbn; rewrite ?E; cbn; rewrite <- ?app_assoc; cbn.
  all: first
    [ exists [CtrlNew {| controller := DvbSubController;
                         serial := nextSerial s |} p]
    ; (split; [reflexivity|]); split;
      [ intros d [= <-]; left; reflexivity
      | intros c [<-|[]]; right; eexists; reflexivity ]
    | exists [CtrlNew {| controller := ScteSubController;
                         serial := nextSerial s |} p]
    ; (split; [reflexivity|]); split;
      [ intros d [= <-]; left; reflexivity
      | intros c [<-|[]]; right; eexists; reflexivity ]
    | exists [FontCacheNew;
              CtrlNew {| controller := CcSubController;
                         serial := nextSerial s |} p]
    ; (split; [reflexivity|]); split;
      [ intros d [= <-]; right; left; reflexivity
      | intros c [<-|[<-|[]]];
        [left; reflexivity | right; eexists; reflexivity] ]
    | exists [CtrlNew {| controller := TtxController;
                         serial := nextSerial s |} p]
    ; (split; [reflexivity|]); split;
      [ intros d [= <-]; left; reflexivity
      | intros c [<-|[]]; right; eexists; reflexivity ]
    | exists [CtrlNew {| controller := TtmlController;
                         serial := nextSerial s |} p]
    ; (split; [reflexivity|]); split;
      [ intros d [= <-]; left; reflexivity
      | intros c [<-|[]]; right; eexists; reflexivity ]
    | exists [CtrlNew {| controller := WebvttController;
                         serial := nextSerial s |} p]
    ; (split; [reflexivity|]); split;
      [ intros d [= <-]; left; reflexivity
      | intros c [<-|[]]; right; eexists; reflexivity ]
    | exists []
    ; (split; [reflexivity|]); split;
      [ intros d Hd; discriminate Hd
      | intros c [] ] ].
Qed.

(** C1, as the code has it.  Whatever packets are dispatched to a session,
    from its construction on, at most one controller is active at any
    moment of the call log.  On a selection made while a decoder is held,
    the old decoder is deactivated first, then the new controller is
    constructed (after a fresh font cache for CC), and the old controller
    object is deleted last, once the new one exists. *)
Theorem selection_keeps_one_decoder_active :
  (forall (displayName socketName : string) (t : Z) (packets : list Packet),
      one_active_at_a_time
        (calls (dispatchAll packets
                  (RenderSession_ctor displayName socketName t))))
  /\ (forall (p : Packet) (s : RenderSession) (old : Decoder),
         is_selection (getType p) = true ->
         mDecoder s = Some old ->
         exists mid,
           calls (doOnPacketReceived p s)
           = calls s ++ CtrlDeactivate old :: mid ++ [CtrlDelete old]
           /\ (forall d, mDecoder (doOnPacketReceived p s) = Some d ->
                         In (CtrlNew d p) mid)
           /\ (forall c, In c mid ->
                         c = FontCacheNew \/ exists d, c = CtrlNew d p)).
Proof.
  split.
  - intros displayName socketName t packets.
    apply (dispatchAll_consistent packets).
    apply RenderSession_ctor_consistent.
  - exact selection_calls.
Qed.
End Selection.

(** A WebVTT selection followed by a TTML selection. *)
Lemma selection_keeps_one_decoder_active_witness :
  let ext := exampleExt true 0 in
  let s := doOnPacketReceived (bare PacketType.WEBVTT_SELECTION)
             (RenderSession_ctor "disp0" EmptyString 0) in
  let p := bare PacketType.TTML_SELECTION in
  let old := {| controller := WebvttController; serial := 0 |} in
  exists mid,
    calls (doOnPacketReceived p s)
    = calls s ++ CtrlDeactivate old :: mid ++ [CtrlDelete old]
    /\ In (CtrlNew {| controller := TtmlController; serial := 1 |} p) mid.
Proof.
  intros ext s p old.
  destruct (@selection_keeps_one_decoder_active ext) as [_ H].
  destruct (H p s old eq_refl eq_refl) as (mid & E & Hnew & _).
  exists mid. split; [exact E|]. apply Hnew. reflexivity.
Defined.

(** C1, as the claim words it, fails: the old controller is not released
    before the new one is constructed.  After a WebVTT selection and a TTML
    selection the log shows the WebVTT controller deleted after the TTML
    controller was constructed, so two controller objects exist for a
    moment. *)
Lemma old_controller_is_deleted_after_the_new_one_is_constructed :
  let ext := exampleExt true 0 in
  let p0 := bare PacketType.WEBVTT_SELECTION in
  let p1 := bare PacketType.TTML_SELECTION in
  let d0 := {| controller := WebvttController; serial := 0 |} in
  let d1 := {| controller := TtmlController; serial := 1 |} in
  let s := dispatchAll [p0; p1] (RenderSession_ctor "disp0" EmptyString 0) in
  calls s = [GfxInit; CtrlNew d0 p0; CtrlDeactivate d0; CtrlNew d1 p1;
             CtrlDelete d0]
  /\ ~ one_alive_at_a_time (calls s).
Proof.
  intros ext p0 p1 d0 d1 s.
  assert (E : calls s = [GfxInit; CtrlNew d0 p0; CtrlDeactivate d0;
                         CtrlNew d1 p1; CtrlDelete d0]) by reflexivity.
  split; [exact E|].
  intros H.
  specialize (H [GfxInit; CtrlNew d0 p0; CtrlDeactivate d0; CtrlNew d1 p1]
                [CtrlDelete d0] E).
  cbn in H. lia.
Qed.

(** ** C3: data packets *)

Section Data.
Context {ext : Subttxrend}.

(** C3, as the code has it.  A dispatched data packet (PES, TTML, WebVTT
    or CC data) is handed to the decoder the session holds by one
    [addData] call, whatever the format of that decoder; with no decoder
    it is dropped and only the time of last activity changes. *)
Theorem data_packet_goes_to_the_held_decoder (p : Packet)
    (s : RenderSession) :
  is_data (getType p) = true ->
  (forall d, mDecoder s = Some d ->
             doOnPacketReceived p s = log (CtrlAddData d p) (touchTime s))
  /\ (mDecoder s = None -> doOnPacketReceived p s = touchTime s).
Proof.
  intros Hd.
  unfold doOnPacketReceived, processDataPacket.
  destruct (getType p); try discriminate Hd;
    (split; [intros d E|intros E]); cbn; rewrite E; reflexivity.
Qed.
End Data.

(** A TTML data packet dispatched to a session with the TTML decoder. *)
Lemma data_packet_goes_to_the_held_decoder_witness :
  let ext := exampleExt true 0 in
  let s := doOnPacketReceived (bare PacketType.TTML_SELECTION)
             (RenderSession_ctor "disp0" EmptyString 0) in
  let d := {| controller := TtmlController; serial := 0 |} in
  let p := bare PacketType.TTML_DATA in
  doOnPacketReceived p s = log (CtrlAddData d p) (touchTime s).
Proof.
  intros ext s d p.
  exact (proj1 (@data_packet_goes_to_the_held_decoder ext p s eq_refl)
           d eq_refl).
Defined.

(** C3, as the claim words it, fails: the session does not compare the
    format of a data packet with the active format.  A TTML data packet
    dispatched while the WebVTT decoder is active reaches that decoder's
    [addData]. *)
Lemma data_for_another_format_reaches_addData :
  let ext := exampleExt true 0 in
  let s := doOnPacketReceived (bare PacketType.WEBVTT_SELECTION)
             (RenderSession_ctor "disp0" EmptyString 0) in
  let d := {| controller := WebvttController; serial := 0 |} in
  let p := bare PacketType.TTML_DATA in
  getSessionType s = SessionType.WEBVTT
  /\ mDecoder s = Some d
  /\ calls (doOnPacketReceived p s) = calls s ++ [CtrlAddData d p]
  /\ In (CtrlAddData d p) (calls (doOnPacketReceived p s)).
Proof.
  intros ext s d p. repeat split.
  cbn. right. right. left. reflexivity.
Qed.

(** ** C4: reset-all *)

Section Resets.
Context {ext : Subttxrend}.

(** C4, as the code has it.  After a dispatched reset-all packet the
    session holds no decoder.  When it held one, the ingress queue has
    been cleared and the decoder deactivated and then deleted; the session
    type keeps its value.  When it held none, only the time of last
    activity changes: the queue is left as it was. *)
Theorem reset_all_drops_the_decoder (p : Packet) (s : RenderSession) :
  getType p = PacketType.RESET_ALL ->
  mDecoder (doOnPacketReceived p s) = None
  /\ (forall d, mDecoder s = Some d ->
        mDataQueue (doOnPacketReceived p s) = []
        /\ calls (doOnPacketReceived p s)
           = calls s ++ [CtrlDeactivate d; CtrlDelete d]
        /\ mSessionType (doOnPacketReceived p s) = mSessionType s)
  /\ (mDecoder s = None -> doOnPacketReceived p s = touchTime s).
Proof.
  intros Ht.
  unfold doOnPacketReceived, processResetAll, reset_null. rewrite Ht.
  destruct (mDecoder s) as [d0|] eqn:E; cbn; rewrite ?E; cbn.
  - split; [reflexivity|]. split; [|discriminate].
    intros d [= <-]. rewrite <- app_assoc. repeat split.
  - split; [exact E|]. split; [discriminate|reflexivity].
Qed.

(** C5.  A dispatched reset-channel packet makes the session give up its
    decoder exactly when the decoder answers true to [wantsData] for this
    packet: it is then deactivated and deleted.  When the answer is false,
    or when the session holds no decoder, [processResetChannel] leaves the
    session as it is, so that the dispatch changes nothing but the time
    of last activity, which every dispatch sets. *)
Theorem reset_channel_asks_the_decoder (p : Packet) (s : RenderSession) :
  getType p = PacketType.RESET_CHANNEL ->
  (forall d, mDecoder s = Some d ->
     (mDecoder (doOnPacketReceived p s) = None
      <-> wantsData (calls s) d p = true)
     /\ (wantsData (calls s) d p = true ->
         calls (doOnPacketReceived p s)
         = calls s ++ [CtrlDeactivate d; CtrlDelete d])
     /\ (wantsData (calls s) d p = false ->
         processResetChannel p s = s
         /\ doOnPacketReceived p s = touchTime s))
  /\ (mDecoder s = None ->
      processResetChannel p s = s
      /\ doOnPacketReceived p s = touchTime s).
Proof.
  intros Ht.
  unfold doOnPacketReceived, processResetChannel, reset_null. rewrite Ht.
  split.
  - intros d E. cbn. rewrite E.
    destruct (wantsData (calls s) d p) eqn:W; cbn; rewrite ?E; cbn.
    + split; [split; reflexivity|]. split; [|discriminate].
      intros _. rewrite <- app_assoc. reflexivity.
    + split; [split; intros H; discriminate H|].
      split; [discriminate|]. intros _. split; reflexivity.
  - intros E. cbn. rewrite E. split; reflexivity.
Qed.
End Resets.

(** A session with the WebVTT decoder and one queued buffer. *)
Lemma reset_all_drops_the_decoder_witness :
  let ext := exampleExt true 0 in
  let s := addBuffer (Some (bytes_of "x"))
             (doOnPacketReceived (bare PacketType.WEBVTT_SELECTION)
                (RenderSession_ctor "disp0" EmptyString 0)) in
  let p := bare PacketType.RESET_ALL in
  mDataQueue s = [Some (bytes_of "x")]
  /\ mDecoder (doOnPacketReceived p s) = None
  /\ mDataQueue (doOnPacketReceived p s) = [].
Proof.
  intros ext s p.
  destruct (@reset_all_drops_the_decoder ext p s eq_refl) as (Hn & Hsome & _).
  destruct (Hsome {| controller := WebvttController; serial := 0 |} eq_refl)
    as (Hq & _).
  split; [reflexivity|]. split; [exact Hn|exact Hq].
Defined.

(** C4, as the claim words it, fails for a session without a decoder: the
    queue is not cleared there.  Such a state arises when a reset-channel
    packet removes the decoder while a buffer is still queued; a reset-all
    packet dispatched then leaves the buffer in the queue. *)
Lemma reset_all_without_decoder_keeps_the_queue :
  let ext := exampleExt true 0 in
  let s1 := doOnPacketReceived (bare PacketType.WEBVTT_SELECTION)
              (RenderSession_ctor "disp0" EmptyString 0) in
  let s2 := addBuffer (Some (bytes_of "x")) s1 in
  let s3 := doOnPacketReceived (bare PacketType.RESET_CHANNEL) s2 in
  let s4 := doOnPacketReceived (bare PacketType.RESET_ALL) s3 in
  mDecoder s3 = None
  /\ mDataQueue s3 = [Some (bytes_of "x")]
  /\ mDataQueue s4 = [Some (bytes_of "x")]
  /\ mDataQueue s4 <> [].
Proof.
  intros ext s1 s2 s3 s4. repeat split. discriminate.
Qed.

(** The same reset-channel packet with a decoder that answers true and with
    one that answers false. *)
Lemma reset_channel_asks_the_decoder_witness :
  let s := @doOnPacketReceived (exampleExt false 0)
             (bare PacketType.WEBVTT_SELECTION)
             (RenderSession_ctor "disp0" EmptyString 0) in
  let d := {| controller := WebvttController; serial := 0 |} in
  let p := bare PacketType.RESET_CHANNEL in
  (mDecoder (@doOnPacketReceived (exampleExt true 0) p s) = None
   /\ calls (@doOnPacketReceived (exampleExt true 0) p s)
      = calls s ++ [CtrlDeactivate d; CtrlDelete d])
  /\ @doOnPacketReceived (exampleExt false 0) p s = touchTime s.
Proof.
  intros s d p. split.
  - destruct (@reset_channel_asks_the_decoder (exampleExt true 0) p s eq_refl)
      as [H _].
    destruct (H d eq_refl) as (Hiff & Hcalls & _).
    split; [apply Hiff; reflexivity|apply Hcalls; reflexivity].
  - destruct (@reset_channel_asks_the_decoder (exampleExt false 0) p s eq_refl)
      as [H _].
    destruct (H d eq_refl) as (_ & _ & Hkeep).
    exact (proj2 (Hkeep eq_refl)).
Defined.

(** ** C8: mute, unmute, pause and resume without a decoder *)

Section Transport.
Context {ext : Subttxrend}.

Lemma dispatch_after_touchTime (q : Packet) (s : RenderSession) :
  doOnPacketReceived q (touchTime s) = doOnPacketReceived q s.
Proof. reflexivity. Qed.

Lemma selection_from_no_decoder (q : Packet) (s : RenderSession) (c : Call) :
  is_selection (getType q) = true ->
  mDecoder s = None ->
  In c (calls (doOnPacketReceived q s)) ->
  In c (calls s) \/ c = FontCacheNew \/ exists d, c = CtrlNew d q.
Proof.
  intros Hsel E.
  unfold doOnPacketReceived, processDecoderSelection, reset_new, reset_null.
  destruct (getType q); try discriminate Hsel;
    try destruct (getSubtitlesType q);
    cbn; rewrite ?E; cbn; rewrite ?E; cbn;
    rewrite ?in_app_iff; cbn; intros H;
    repeat match goal with
           | H : _ \/ _ |- _ => destruct H as [H|H]
           | H : False |- _ => destruct H
           end;
    subst; eauto.
Qed.

(** C8.  A mute, unmute, pause or resume packet dispatched while the
    session holds no decoder changes nothing but the time of last
    activity, which every dispatch sets.  Whatever is dispatched next
    leaves the session exactly as if the packet had never arrived; a
    selection that follows makes no call on the new decoder beyond its
    construction (and the fresh font cache of CC): no [mute], no [pause]
    is replayed to it. *)
Theorem transport_without_decoder_is_dropped (p : Packet)
    (s : RenderSession) :
  is_transport (getType p) = true ->
  mDecoder s = None ->
  doOnPacketReceived p s = touchTime s
  /\ (forall q qs,
        dispatchAll (p :: q :: qs) s = dispatchAll (q :: qs) s)
  /\ (forall q c,
        is_selection (getType q) = true ->
        In c (calls (doOnPacketReceived q (doOnPacketReceived p s))) ->
        In c (calls s) \/ c = FontCacheNew \/ exists d, c = CtrlNew d q).
Proof.
  intros Ht E.
  assert (D : doOnPacketReceived p s = touchTime s).
  { unfold doOnPacketReceived, processPause, processResume,
      processMutePacket, processUnmutePacket.
    destruct (getType p); try discriminate Ht; cbn; rewrite E; reflexivity. }
  split; [exact D|]. split.
  - intros q qs. cbn [dispatchAll fold_left]. rewrite D.
    rewrite dispatch_after_touchTime. reflexivity.
  - intros q c Hsel. rewrite D, dispatch_after_touchTime.
    apply selection_from_no_decoder; assumption.
Qed.
End Transport.

(** A session that is muted and paused before anything is selected, and then
    given a CC selection: the log holds the construction only. *)
Lemma transport_without_decoder_is_dropped_witness :
  let ext := exampleExt true 0 in
  let s := RenderSession_ctor "disp0" "sockA" 0 in
  let q := {| getType := PacketType.SUBTITLE_SELECTION;
              getSubtitlesType := SUBTITLES_TYPE_CC; getBuffer := [] |} in
  doOnPacketReceived (bare PacketType.MUTE) s = touchTime s
  /\ dispatchAll [bare PacketType.MUTE; q] s = dispatchAll [q] s
  /\ calls (dispatchAll [bare PacketType.MUTE; bare PacketType.PAUSE; q] s)
     = [GfxInit; FontCacheNew;
        CtrlNew {| controller := CcSubController; serial := 0 |} q].
Proof.
  intros ext s q.
  destruct (@transport_without_decoder_is_dropped ext
              (bare PacketType.MUTE) s eq_refl eq_refl) as (H1 & H2 & _).
  split; [exact H1|]. split; [exact (H2 q [])|].
  rewrite (H2 (bare PacketType.PAUSE) [q]).
  destruct (@transport_without_decoder_is_dropped ext
              (bare PacketType.PAUSE) s eq_refl eq_refl) as (_ & H3 & _).
  rewrite (H3 q []). reflexivity.
Defined.

(** ** C6: the render thread *)

Section Loop.
Context {ext : Subttxrend}.

Lemma dispatch_keeps_quit (p : Packet) (s : RenderSession) :
  mQuitRenderThread (doOnPacketReceived p s) = mQuitRenderThread s.
Proof.
  unfold doOnPacketReceived, processDecoderSelection, processDataPacket,
    processResetAll, processResetChannel, processTtmlTimestamp,
    processWebvttTimestamp, processPause, processResume, processMutePacket,
    processUnmutePacket, processTtmlInfo, processSetCCAttributes,
    reset_new, reset_null.
  destruct (getType p); try destruct (getSubtitlesType p); cbn;
    destruct (mDecoder s) as [d|] eqn:E; cbn; rewrite ?E; cbn;
    try destruct (wantsData (calls s) d p);
    try destruct (SessionType.is_CC (mSessionType s));
    cbn; rewrite ?E; reflexivity.
Qed.

Lemma dispatch_queue_length (p : Packet) (s : RenderSession) :
  (length (mDataQueue (doOnPacketReceived p s))
   <= length (mDataQueue s))%nat.
Proof.
  unfold doOnPacketReceived, processDecoderSelection, processDataPacket,
    processResetAll, processResetChannel, processTtmlTimestamp,
    processWebvttTimestamp, processPause, processResume, processMutePacket,
    processUnmutePacket, processTtmlInfo, processSetCCAttributes,
    reset_new, reset_null.
  destruct (getType p); try destruct (getSubtitlesType p); cbn;
    destruct (mDecoder s) as [d|] eqn:E; cbn; rewrite ?E; cbn;
    try destruct (wantsData (calls s) d p);
    try destruct (SessionType.is_CC (mSessionType s));
    cbn; rewrite ?E; cbn; lia.
Qed.

Lemma drain_keeps_quit (fuel : nat) :
  forall s, mQuitRenderThread (drain fuel s) = mQuitRenderThread s.
Proof.
  induction fuel as [|fuel IH]; intros s; [reflexivity|].
  cbn [drain]. destruct (mDataQueue s) as [|[b|] rest]; [reflexivity| |].
  - rewrite IH, dispatch_keeps_quit. reflexivity.
  - rewrite IH. reflexivity.
Qed.

(** The fuel [processData] gives to its first loop is enough: the loop
    ends because it finds the queue empty. *)
Lemma drain_empties_the_queue (fuel : nat) :
  forall s, (length (mDataQueue s) <= fuel)%nat ->
            mDataQueue (drain fuel s) = [].
Proof.
  induction fuel as [|fuel IH]; intros s Hlen.
  - cbn. destruct (mDataQueue s); [reflexivity|cbn in Hlen; lia].
  - cbn [drain]. destruct (mDataQueue s) as [|[b|] rest] eqn:Q;
      [exact Q| |]; cbn in Hlen; apply IH.
    + pose proof (dispatch_queue_length (parse b) (set_mDataQueue rest s)) as L.
      cbn in L. lia.
    + cbn. lia.
Qed.

Lemma processData_empties_the_queue (s : RenderSession) :
  mDataQueue (snd (processData s)) = [].
Proof.
  unfold processData.
  pose proof (drain_empties_the_queue (length (mDataQueue s)) s (le_n _)) as D.
  destruct (mDecoder (drain (length (mDataQueue s)) s)); cbn; exact D.
Qed.

Lemma processData_keeps_quit (s : RenderSession) :
  mQuitRenderThread (snd (processData s)) = mQuitRenderThread s.
Proof.
  unfold processData.
  pose proof (drain_keeps_quit (length (mDataQueue s)) s) as D.
  destruct (mDecoder (drain (length (mDataQueue s)) s)); cbn; exact D.
Qed.

Lemma step_Pass (s : RenderSession) :
  step Pass s
  = Some (if fst (processData s) =? 0 then Clear
          else InnerWait (fst (processData s)),
          log GfxExecute (snd (processData s))).
Proof. unfold step. destruct (processData s). reflexivity. Qed.

(** C6, as the code has it.  A pass that reports a wait time of zero ends
    the inner loop: with no pass in between, the thread is back at the
    outer wait, whether or not a decoder is active.  After a pass that
    reports another wait time the thread waits up to that time and then
    tests the inner loop again; it runs another pass when shutdown is not
    requested and a decoder is still active.  When the inner test finds
    no decoder active, the loop is left and the ingress queue is
    cleared. *)
Theorem render_loop_after_a_pass (s : RenderSession) :
  (fst (processData s) = 0 ->
     step Pass s = Some (Clear, log GfxExecute (snd (processData s)))
     /\ (mQuitRenderThread s = false ->
         exists s',
           steps 3 Pass s = Some (OuterWait, s')
           /\ calls s' = calls (snd (processData s)) ++ [GfxExecute]
           /\ mDecoder s' = mDecoder (snd (processData s))))
  /\ (fst (processData s) <> 0 ->
     steps 2 Pass s
     = Some (InnerTest, log GfxExecute (snd (processData s)))
     /\ (mQuitRenderThread s = false ->
         isRenderingActive (snd (processData s)) = true ->
         steps 3 Pass s
         = Some (Pass, log GfxExecute (snd (processData s)))))
  /\ (isRenderingActive s = false ->
      steps 2 InnerTest s = Some (OuterTest, set_mDataQueue [] s)).
Proof.
  pose proof (processData_keeps_quit s) as Q.
  split; [|split].
  - intros Z0. split.
    + rewrite step_Pass, Z0. reflexivity.
    + intros Hq.
      exists (set_mDataQueue [] (log GfxExecute (snd (processData s)))).
      split; [|split; reflexivity].
      cbn [steps]. rewrite step_Pass, Z0. cbn.
      rewrite Q, Hq. reflexivity.
  - intros Hnz.
    assert (Hb : (fst (processData s) =? 0) = false)
      by (apply Z.eqb_neq; exact Hnz).
    split.
    + cbn [steps]. rewrite step_Pass, Hb. reflexivity.
    + intros Hq Hact. cbn [steps]. rewrite step_Pass, Hb. cbn.
      rewrite Q, Hq.
      change (isRenderingActive (log GfxExecute (snd (processData s))))
        with (isRenderingActive (snd (processData s))).
      rewrite Hact. reflexivity.
  - intros Hna. cbn. rewrite Hna, andb_false_r. reflexivity.
Qed.
End Loop.

(** A session with a WebVTT decoder and one queued buffer; the decoder
    reports a wait time of 40 ms, then the thread runs another pass. *)
Lemma render_loop_after_a_pass_witness :
  let ext := exampleExt true 40 in
  let s := addBuffer (Some (bytes_of "x"))
             (doOnPacketReceived (bare PacketType.WEBVTT_SELECTION)
                (RenderSession_ctor "disp0" EmptyString 0)) in
  steps 3 Pass s = Some (Pass, log GfxExecute (snd (processData s))).
Proof.
  intros ext s.
  destruct (@render_loop_after_a_pass ext s) as (_ & H & _).
  destruct H as [_ H]; [vm_compute; discriminate|].
  apply H; reflexivity.
Defined.

(** C6, as the claim words it, fails on both counts.  With a WebVTT decoder
    active, shutdown not requested and a decoder that reports a wait time of
    zero, the pass is followed by the clearing of the queue and the outer
    wait, where the thread stays blocked with its decoder still active: it
    does not run another pass.  And a buffer that a producer queues right
    after the pass is cleared away although a decoder is active. *)
Lemma zero_wait_time_leads_to_the_outer_wait :
  let ext := exampleExt true 0 in
  let s := addBuffer (Some (bytes_of "x"))
             (doOnPacketReceived (bare PacketType.WEBVTT_SELECTION)
                (RenderSession_ctor "disp0" EmptyString 0)) in
  isRenderingActive s = true
  /\ mQuitRenderThread s = false
  /\ fst (processData s) = 0
  /\ step Pass s = Some (Clear, log GfxExecute (snd (processData s)))
  /\ (exists s',
        steps 3 Pass s = Some (OuterWait, s')
        /\ isRenderingActive s' = true
        /\ step OuterWait s' = None)
  /\ (let s1 := addBuffer (Some (bytes_of "y"))
                  (log GfxExecute (snd (processData s))) in
      isRenderingActive s1 = true
      /\ mDataQueue s1 = [Some (bytes_of "y")]
      /\ step Clear s1 = Some (OuterTest, set_mDataQueue [] s1)).
Proof.
  intros ext s.
  split; [reflexivity|]. split; [reflexivity|]. split; [reflexivity|].
  split; [reflexivity|]. split.
  - eexists. split; [reflexivity|]. split; reflexivity.
  - cbv zeta. split; [reflexivity|]. split; reflexivity.
Qed.

(** ** The session registry *)

Lemma find_session_store (id : Z) (ses' : RenderSession) (m : SessionMap) :
  find_session id m <> None -> find_session id (store id ses' m) = Some ses'.
Proof.
  induction m as [|[k v] m IH]; cbn; intros H; [contradiction|].
  destruct (k =? id) eqn:K; cbn; rewrite K; [reflexivity|].
  apply IH. exact H.
Qed.

Lemma find_session_store_other (id id' : Z) (ses' : RenderSession)
    (m : SessionMap) :
  id' <> id -> find_session id' (store id ses' m) = find_session id' m.
Proof.
  intros Hne. induction m as [|[k v] m IH]; cbn; [reflexivity|].
  destruct (k =? id) eqn:K; cbn.
  - apply Z.eqb_eq in K. subst k.
    destruct (id =? id') eqn:K'; [apply Z.eqb_eq in K'; congruence|reflexivity].
  - destruct (k =? id'); [reflexivity|exact IH].
Qed.

Lemma keys_store_display (name : string) (ses' : RenderSession)
    (m : SessionMap) :
  map fst (store_display name ses' m) = map fst m.
Proof.
  induction m as [|[k v] m IH]; cbn; [reflexivity|].
  destruct (String.eqb (getDisplayName v) name); cbn; [reflexivity|].
  rewrite IH. reflexivity.
Qed.

Lemma store_display_same (name : string) (id : Z) (ses : RenderSession)
    (m : SessionMap) :
  find_display name m = Some (id, ses) -> store_display name ses m = m.
Proof.
  induction m as [|[k v] m IH]; cbn; [discriminate|].
  destruct (String.eqb (getDisplayName v) name).
  - intros [= -> ->]. reflexivity.
  - intros H. rewrite (IH H). reflexivity.
Qed.

Lemma find_display_store_display (name : string) (id : Z)
    (ses ses' : RenderSession) (m : SessionMap) :
  find_display name m = Some (id, ses) ->
  getDisplayName ses' = name ->
  find_display name (store_display name ses' m) = Some (id, ses').
Proof.
  intros H Hn. induction m as [|[k v] m IH]; cbn in *; [discriminate|].
  destruct (String.eqb (getDisplayName v) name) eqn:N; cbn.
  - injection H as -> _. rewrite Hn, String.eqb_refl. reflexivity.
  - rewrite N. apply IH. exact H.
Qed.

Lemma find_display_name (name : string) (id : Z) (ses : RenderSession)
    (m : SessionMap) :
  find_display name m = Some (id, ses) -> getDisplayName ses = name.
Proof.
  induction m as [|[k v] m IH]; cbn; [discriminate|].
  destruct (String.eqb (getDisplayName v) name) eqn:N.
  - intros [= _ <-]. apply String.eqb_eq. exact N.
  - exact IH.
Qed.

Lemma find_session_emplace (id : Z) (ses : RenderSession) (m : SessionMap) :
  find_session id m = None -> find_session id (emplace id ses m) = Some ses.
Proof.
  induction m as [|[k v] m IH]; cbn.
  - intros _. rewrite Z.eqb_refl. reflexivity.
  - destruct (k =? id) eqn:K; [discriminate|]. intros H.
    destruct (id <? k); cbn.
    + rewrite Z.eqb_refl. reflexivity.
    + rewrite (Z.eqb_sym id k), K. cbn. rewrite K. apply IH. exact H.
Qed.

Lemma start_when_started (socketOk : bool) (s : RenderSession) :
  mStarted s = true -> start socketOk s = (s, false).
Proof. intros H. unfold start. rewrite H. reflexivity. Qed.

Lemma start_keeps_display (socketOk : bool) (s : RenderSession) :
  getDisplayName (fst (start socketOk s)) = getDisplayName s.
Proof.
  unfold start.
  destruct (mStarted s); [reflexivity|]. cbn.
  destruct (is_empty (mSocketName s)); cbn; [reflexivity|].
  destruct socketOk; reflexivity.
Qed.

Lemma is_empty_true (str : string) : is_empty str = true <-> str = EmptyString.
Proof. destruct str; cbn; split; intros H; congruence. Qed.

(** C9.  [SetPreviewText] on an identifier the registry does not know
    returns the general failure and changes nothing; on a session whose type
    is not CC it returns "not supported" and changes nothing; on a session
    whose type is CC it returns success, the session's preview text is the
    given text, and the text is handed to the CC decoder the session
    holds. *)
Theorem SetPreviewText_results (sessionId : Z) (text : string)
    (impl : TextTrackImplementation) :
  (find_session sessionId (mSessions impl) = None ->
   SetPreviewText sessionId text impl = (ERROR_GENERAL, impl))
  /\ (forall ses,
        find_session sessionId (mSessions impl) = Some ses ->
        getSessionType ses <> SessionType.CC ->
        SetPreviewText sessionId text impl = (ERROR_NOT_SUPPORTED, impl))
  /\ (forall ses,
        find_session sessionId (mSessions impl) = Some ses ->
        getSessionType ses = SessionType.CC ->
        fst (SetPreviewText sessionId text impl) = ERROR_NONE
        /\ (exists ses',
              find_session sessionId
                (mSessions (snd (SetPreviewText sessionId text impl)))
              = Some ses'
              /\ ses' = setTextForClosedCaptionPreview text (touchTime ses)
              /\ mPreviewText ses' = text
              /\ (forall d, mDecoder ses = Some d ->
                    calls ses' = calls ses ++ [CtrlSetTextForPreview d text])
              /\ (mDecoder ses = None -> calls ses' = calls ses))
        /\ (forall other, other <> sessionId ->
              find_session other
                (mSessions (snd (SetPreviewText sessionId text impl)))
              = find_session other (mSessions impl))).
Proof.
  unfold SetPreviewText. split; [|split].
  - intros E. rewrite E. reflexivity.
  - intros ses E Hn. rewrite E.
    unfold getSessionType in *.
    destruct (mSessionType ses); try reflexivity. contradiction.
  - intros ses E Hc. rewrite E. unfold getSessionType in *. rewrite Hc.
    cbn [SessionType.is_CC fst snd mSessions]. split; [reflexivity|].
    split; [|intros other Ho; apply find_session_store_other; exact Ho].
    exists (setTextForClosedCaptionPreview text (touchTime ses)).
    split; [apply find_session_store; rewrite E; discriminate|].
    split; [reflexivity|].
    unfold setTextForClosedCaptionPreview. cbn. rewrite Hc. cbn.
    split; [destruct (mDecoder ses); reflexivity|].
    split.
    + intros d Hd. rewrite Hd. reflexivity.
    + intros Hd. rewrite Hd. reflexivity.
Qed.

(** The scenario of the specification: session "disp0" with socket "sockA",
    CC selected, then the preview text "Hi". *)
Lemma SetPreviewText_results_witness :
  let ext := exampleExt true 0 in
  let q := {| getType := PacketType.SUBTITLE_SELECTION;
              getSubtitlesType := SUBTITLES_TYPE_CC; getBuffer := [] |} in
  let cc := doOnPacketReceived q (RenderSession_ctor "disp0" "sockA" 0) in
  let vtt := doOnPacketReceived (bare PacketType.WEBVTT_SELECTION)
               (RenderSession_ctor "disp1" EmptyString 0) in
  let impl := {| mSessions := [(1, cc); (2, vtt)]; mSessionNumber := 2 |} in
  SetPreviewText 7 "Hi" impl = (ERROR_GENERAL, impl)
  /\ SetPreviewText 2 "Hi" impl = (ERROR_NOT_SUPPORTED, impl)
  /\ fst (SetPreviewText 1 "Hi" impl) = ERROR_NONE
  /\ (exists ses',
        find_session 1 (mSessions (snd (SetPreviewText 1 "Hi" impl)))
        = Some ses'
        /\ calls ses'
           = [GfxInit; FontCacheNew;
              CtrlNew {| controller := CcSubController; serial := 0 |} q;
              CtrlSetTextForPreview
                {| controller := CcSubController; serial := 0 |} "Hi"]).
Proof.
  intros ext q cc vtt impl.
  split; [exact (proj1 (SetPreviewText_results 7 "Hi" impl) eq_refl)|].
  split.
  - apply (proj1 (proj2 (SetPreviewText_results 2 "Hi" impl)) vtt eq_refl).
    discriminate.
  - destruct (proj2 (proj2 (SetPreviewText_results 1 "Hi" impl)) cc
                eq_refl eq_refl) as (Hr & (ses' & Hf & _ & _ & Hc & _) & _).
    split; [exact Hr|]. exists ses'. split; [exact Hf|].
    rewrite (Hc {| controller := CcSubController; serial := 0 |} eq_refl).
    reflexivity.
Defined.

(** C10.  [OpenSession] with an empty display name returns the general
    failure and leaves the registry and the caller's identifier as they
    were.  With a display name some session already has, it stores that
    session's identifier, calls [start] on that session, and neither adds a
    session nor touches the counter of identifiers; [start] on a started
    session does nothing, and the registry is then unchanged.  With a
    display name no session has, the identifier is the counter after its
    increment.  So the counter moves only for a non-empty display name
    without a session. *)
Theorem OpenSession_reuses_the_session_of_a_display (host : Host)
    (iDisplayName : string) (oSessionId : Z) (impl : TextTrackImplementation) :
  (iDisplayName = EmptyString ->
   OpenSession host iDisplayName oSessionId impl
   = (Return ERROR_GENERAL, oSessionId, impl))
  /\ (forall id ses,
        iDisplayName <> EmptyString ->
        find_display iDisplayName (mSessions impl) = Some (id, ses) ->
        snd (fst (OpenSession host iDisplayName oSessionId impl)) = id
        /\ mSessions (snd (OpenSession host iDisplayName oSessionId impl))
           = store_display iDisplayName
               (fst (start (socketCreated host) ses)) (mSessions impl)
        /\ find_display iDisplayName
             (mSessions (snd (OpenSession host iDisplayName oSessionId impl)))
           = Some (id, fst (start (socketCreated host) ses))
        /\ map fst
             (mSessions (snd (OpenSession host iDisplayName oSessionId impl)))
           = map fst (mSessions impl)
        /\ mSessionNumber (snd (OpenSession host iDisplayName oSessionId impl))
           = mSessionNumber impl
        /\ (mStarted ses = true ->
            start (socketCreated host) ses = (ses, false)
            /\ OpenSession host iDisplayName oSessionId impl
               = (Return ERROR_NONE, id, impl)))
  /\ (iDisplayName <> EmptyString ->
      find_display iDisplayName (mSessions impl) = None ->
      snd (fst (OpenSession host iDisplayName oSessionId impl))
      = u32 (mSessionNumber impl + 1)
      /\ mSessionNumber (snd (OpenSession host iDisplayName oSessionId impl))
         = u32 (mSessionNumber impl + 1))
  /\ (mSessionNumber (snd (OpenSession host iDisplayName oSessionId impl))
      <> mSessionNumber impl ->
      iDisplayName <> EmptyString
      /\ find_display iDisplayName (mSessions impl) = None).
Proof.
  unfold OpenSession.
  destruct (is_empty iDisplayName) eqn:Hempty.
  - apply is_empty_true in Hempty.
    split; [intros _; reflexivity|].
    split; [intros id ses Hne; contradiction|].
    split; [intros Hne; contradiction|].
    cbn. intros Hne. contradiction.
  - assert (Hne : iDisplayName <> EmptyString).
    { intros H. apply is_empty_true in H. congruence. }
    split; [intros H; contradiction|].
    destruct (find_display iDisplayName (mSessions impl)) as [[id0 ses0]|] eqn:F.
    + split; [|split; [intros _ H; discriminate H|]].
      * intros id ses _ [= <- <-].
        pose proof (start_keeps_display (socketCreated host) ses0) as Hd.
        destruct (start (socketCreated host) ses0) as [started thrown] eqn:S.
        cbn [fst snd mSessions mSessionNumber] in *.
        split; [reflexivity|]. split; [reflexivity|].
        split.
        { apply find_display_store_display with (ses := ses0); [exact F|].
          rewrite Hd. apply (find_display_name _ _ _ _ F). }
        split; [apply keys_store_display|]. split; [reflexivity|].
        intros Hst. rewrite (start_when_started _ _ Hst) in S.
        injection S as <- <-. split; [reflexivity|].
        rewrite (store_display_same _ _ _ _ F). destruct impl; reflexivity.
      * destruct (start (socketCreated host) ses0) as [started thrown].
        cbn. intros H. contradiction.
    + split; [intros id ses _ H; discriminate H|].
      split; [|intros _; split; [exact Hne|reflexivity]].
      intros _ _.
      destruct (negb (ensureDisplayIsCreated host iDisplayName));
        [split; reflexivity|].
      destruct (constructionThrows host); [split; reflexivity|].
      destruct (start (socketCreated host)
                  (RenderSession_ctor iDisplayName EmptyString (now host)))
        as [started thrown].
      destruct thrown; split; reflexivity.
Qed.

(** Opening "disp0" twice gives the same identifier and one session;
    opening "disp1" gives the next identifier. *)
Lemma OpenSession_reuses_the_session_of_a_display_witness :
  let host := {| ensureDisplayIsCreated := fun _ => true;
                 constructionThrows := false;
                 socketCreated := true; now := 0 |} in
  let impl0 := {| mSessions := []; mSessionNumber := 0 |} in
  let r1 := OpenSession host "disp0" 0 impl0 in
  let r2 := OpenSession host "disp0" 0 (snd r1) in
  let r3 := OpenSession host "disp1" 0 (snd r2) in
  OpenSession host EmptyString 99 (snd r1) = (Return ERROR_GENERAL, 99, snd r1)
  /\ snd (fst r1) = 1
  /\ r2 = (Return ERROR_NONE, 1, snd r1)
  /\ snd (fst r3) = 2
  /\ map fst (mSessions (snd r3)) = [1; 2].
Proof.
  intros host impl0 r1 r2 r3.
  split; [exact (proj1 (OpenSession_reuses_the_session_of_a_display
                          host EmptyString 99 (snd r1)) eq_refl)|].
  split; [exact (proj1 (proj1 (proj2 (proj2
                   (OpenSession_reuses_the_session_of_a_display
                      host "disp0" 0 impl0)))
                   ltac:(discriminate) eq_refl))|].
  split.
- destruct (proj1 (proj2 (OpenSession_reuses_the_session_of_a_display
                              host "disp0" 0 (snd r1)))
                1 (fst (start true (RenderSession_ctor "disp0" EmptyString 0)))
                ltac:(discriminate) eq_refl) as (_ & _ & _ & _ & _ & H).
    exact (proj2 (H eq_refl)).
  - split; [|reflexivity].
    exact (proj1 (proj1 (proj2 (proj2
             (OpenSession_reuses_the_session_of_a_display
                host "disp1" 0 (snd r2))))
             ltac:(discriminate) eq_refl)).
Defined.

(** A display without a session gets one: when the display can be created and
    nothing throws, the new session is started and stored under the new
    identifier, provided the map has no entry under it yet. *)
Lemma OpenSession_registers_the_new_session (host : Host)
    (iDisplayName : string) (oSessionId : Z) (impl : TextTrackImplementation) :
  is_empty iDisplayName = false ->
  find_display iDisplayName (mSessions impl) = None ->
  ensureDisplayIsCreated host iDisplayName = true ->
  constructionThrows host = false ->
  find_session (u32 (mSessionNumber impl + 1)) (mSessions impl) = None ->
  fst (fst (OpenSession host iDisplayName oSessionId impl)) = Return ERROR_NONE
  /\ exists ses,
       find_session (u32 (mSessionNumber impl + 1))
         (mSessions (snd (OpenSession host iDisplayName oSessionId impl)))
       = Some ses
       /\ mStarted ses = true
       /\ getDisplayName ses = iDisplayName
       /\ mDecoder ses = None.
Proof.
  intros He Hf Hd Hc Hfree. unfold OpenSession.
  rewrite He, Hf, Hd, Hc. cbn.
  split; [reflexivity|].
  eexists. split; [apply find_session_emplace; exact Hfree|].
  repeat split.
Qed.

(** ** Built packets: fields, data and time stamps *)

Lemma length_encode (type sCounter : Z) (ops : list BuildOp) :
  length (encode type sCounter ops) = (16 + length (body_of_ops ops))%nat.
Proof.
  rewrite encode_bytes, !length_app, !length_le32. lia.
Qed.

Lemma skipn_header (a b c d : Z) (body : DataBuffer) (k : nat) :
  skipn (16 + k) (le32 a ++ le32 b ++ le32 c ++ le32 d ++ body) = skipn k body.
Proof. reflexivity. Qed.

Lemma body_of_puts (vs : list Z) :
  body_of_ops (map OpPut vs) = flat_map (fun v => le32 (u32 v)) vs.
Proof.
  induction vs as [|v vs IH]; [reflexivity|].
  cbn [map body_of_ops flat_map] in *. rewrite <- IH. reflexivity.
Qed.

Lemma length_body_of_puts (vs : list Z) :
  length (body_of_ops (map OpPut vs)) = (4 * length vs)%nat.
Proof.
  rewrite body_of_puts.
  induction vs as [|v vs IH]; [reflexivity|].
  cbn [flat_map length]. rewrite length_app, length_le32, IH. lia.
Qed.

Lemma skipn_puts (vs : list Z) :
  forall i, skipn (4 * i) (flat_map (fun v => le32 (u32 v)) vs)
            = flat_map (fun v => le32 (u32 v)) (skipn i vs).
Proof.
  induction vs as [|v vs IH]; intros i.
  - rewrite !skipn_nil. reflexivity.
  - destruct i as [|i]; [reflexivity|].
    replace (4 * S i)%nat with (4 + 4 * i)%nat by lia.
    cbn [flat_map skipn]. change (skipn (4 + 4 * i) (le32 (u32 v) ++ ?r))
      with (skipn (4 * i) r). apply IH.
Qed.

Lemma word_of_field (vs : list Z) (i : nat) :
  (i < length vs)%nat ->
  word_at (skipn (4 * i) (flat_map (fun v => le32 (u32 v)) vs))
  = u32 (nth i vs 0).
Proof.
  intros Hi. rewrite skipn_puts.
  destruct (skipn i vs) as [|v rest] eqn:E.
  - pose proof (length_skipn i vs) as L. rewrite E in L. cbn in L. lia.
  - assert (N : nth i vs 0 = v).
    { rewrite <- (firstn_skipn i vs), E.
      rewrite app_nth2 by (rewrite length_firstn; lia).
      rewrite length_firstn.
      replace (i - Nat.min i (length vs))%nat with O by lia. reflexivity. }
    rewrite N. cbn [flat_map]. rewrite word_at_le32. apply u32_idem.
Qed.

Section Built.
Context {ext : Subttxrend}.

Lemma fold_put_ops (fields : list Z) :
  forall bp,
    fold_left (fun bp v => put v bp) fields bp
    = fold_left apply_op (map OpPut fields) bp.
Proof.
  induction fields as [|v fields IH]; intros bp; [reflexivity|].
  cbn [fold_left map]. apply IH.
Qed.

Lemma built_encode (type : PacketType.t) (fields : list Z) (c : Z) :
  built type fields c
  = (encode (typeCode type) c (map OpPut fields), u32 (c + 1)).
Proof.
  unfold built, encode, BuildPacket_ctor. cbn [fst].
  rewrite fold_put_ops. reflexivity.
Qed.

Lemma built_read_back (type : PacketType.t) (fields : list Z)
    (c : Z) :
  Z.of_nat (length fields) < 2 ^ 30 - 1 ->
  let buf := fst (built type fields c) in
  snd (built type fields c) = u32 (c + 1)
  /\ length buf = (16 + 4 * length fields)%nat
  /\ rd32 buf 0 = u32 (typeCode type)
  /\ rd32 buf 4 = u32 (c + 1)
  /\ rd32 buf 8 = 4 + 4 * Z.of_nat (length fields)
  /\ rd32 buf 12 = 1
  /\ (forall i, (i < length fields)%nat ->
                rd32 buf (16 + 4 * i) = u32 (nth i fields 0)).
Proof.
  intros Hlen buf. subst buf. rewrite built_encode. cbn [fst snd].
  split; [reflexivity|].
  split; [rewrite length_encode, length_body_of_puts; reflexivity|].
  rewrite encode_bytes.
  assert (F : final_type (typeCode type) (map OpPut fields) = typeCode type).
  { unfold final_type. generalize (typeCode type). clear Hlen.
    induction fields as [|v fields IH]; intros t; [reflexivity|].
    cbn [map fold_left]. apply IH. }
  rewrite F, length_body_of_puts.
  split; [rewrite rd32_0; apply u32_idem|].
  split; [rewrite rd32_4; apply u32_idem|].
  split; [rewrite rd32_8, u32_idem, u32_small by lia; lia|].
  split; [rewrite rd32_12; reflexivity|].
  intros i Hi. unfold rd32. rewrite skipn_header, body_of_puts.
  apply word_of_field. exact Hi.
Qed.

(** X1.  A packet built from a type and a list of 32-bit fields takes one
    sequence number, has 16 bytes and four more for each field, and reads
    back: the type, the sequence number and the payload length in the
    header, the constant 1, and then every field in the order given, each
    reduced modulo 2^32. *)
Theorem built_fields_read_back (type : PacketType.t) (fields : list Z)
    (c : Z) :
  Z.of_nat (length fields) < 2 ^ 30 - 1 ->
  let buf := fst (built type fields c) in
  snd (built type fields c) = u32 (c + 1)
  /\ length buf = (16 + 4 * length fields)%nat
  /\ rd32 buf 0 = u32 (typeCode type)
  /\ rd32 buf 4 = u32 (c + 1)
  /\ rd32 buf 8 = 4 + 4 * Z.of_nat (length fields)
  /\ rd32 buf 12 = 1
  /\ (forall i, (i < length fields)%nat ->
                rd32 buf (16 + 4 * i) = u32 (nth i fields 0)).
Proof. exact (built_read_back type fields c). Qed.

Lemma encode_retype (t0 t sCounter : Z)
    (ops : list BuildOp) :
  encode t0 sCounter (OpType t :: ops) = encode t sCounter ops.
Proof. rewrite !encode_bytes. reflexivity. Qed.

(** X2.  Changing the type of a freshly constructed packet gives the very
    buffer that constructing it with that type gives: [sendData], which
    starts every packet as INVALID and sets the type afterwards, loses
    nothing by it. *)
Theorem retyped_packet_is_the_typed_packet (t0 t sCounter : Z)
    (ops : list BuildOp) :
  encode t0 sCounter (OpType t :: ops) = encode t sCounter ops.
Proof. exact (encode_retype t0 t sCounter ops). Qed.

Lemma sendData_buffer_encode (type : DataType.t) (data : DataBuffer)
    (o c : Z) :
  (forall raw, type <> DataType.BAD raw) ->
  exists fields,
    length fields = data_fields type
    /\ fst (sendData_buffer type data o c)
       = Some (encode (typeCode (data_packet_type type)) c
                 (map OpPut fields ++ [OpData data])).
Proof.
  intros Hok. destruct type as [| | | |raw].
  - exists [0]. split; [reflexivity|].
    cbn [data_packet_type]. rewrite <- encode_retype
      with (t0 := typeCode PacketType.INVALID). reflexivity.
  - exists [Z.land o UINT32_MAX; Z.shiftr o 32]. split; [reflexivity|].
    cbn [data_packet_type]. rewrite <- encode_retype
      with (t0 := typeCode PacketType.INVALID). reflexivity.
  - exists [3; 0; 0]. split; [reflexivity|].
    cbn [data_packet_type]. rewrite <- encode_retype
      with (t0 := typeCode PacketType.INVALID). reflexivity.
  - exists [Z.land (s64 (- o)) UINT32_MAX; Z.shiftr (s64 (- o)) 32].
    split; [reflexivity|].
    cbn [data_packet_type]. rewrite <- encode_retype
      with (t0 := typeCode PacketType.INVALID). reflexivity.
  - exfalso. exact (Hok raw eq_refl).
Qed.

Lemma body_of_puts_data (fields : list Z) (data : DataBuffer) :
  body_of_ops (map OpPut fields ++ [OpData data])
  = flat_map (fun v => le32 (u32 v)) fields ++ data.
Proof.
  unfold body_of_ops. rewrite flat_map_app. cbn [flat_map].
  rewrite app_nil_r. f_equal. apply body_of_puts.
Qed.

(** X3.  For each of the four kinds of data, the packet [sendData] builds
    carries the caller's bytes unchanged at its end, behind the header, the
    constant 1 and the one, two or three fields of the kind; the type word
    is the data type of the kind and the length word counts all of the
    payload. *)
Theorem sendData_carries_the_data (type : DataType.t) (data : DataBuffer)
    (offsetMs sCounter : Z) :
  (forall raw, type <> DataType.BAD raw) ->
  Z.of_nat (length data) < 2 ^ 32 - 16 ->
  exists buf,
    fst (sendData_buffer type data offsetMs sCounter) = Some buf
    /\ skipn (16 + 4 * data_fields type) buf = data
    /\ length buf = (16 + 4 * data_fields type + length data)%nat
    /\ rd32 buf 0 = u32 (typeCode (data_packet_type type))
    /\ rd32 buf 8
       = 4 + 4 * Z.of_nat (data_fields type) + Z.of_nat (length data).
Proof.
  intros Hok Hlen.
  destruct (sendData_buffer_encode type data offsetMs sCounter Hok)
    as (fields & Hf & E).
  eexists. split; [exact E|].
  assert (Lb : length (flat_map (fun v => le32 (u32 v)) fields)
               = (4 * length fields)%nat)
    by (rewrite <- body_of_puts; apply length_body_of_puts).
  assert (Hk : (data_fields type <= 3)%nat) by (destruct type; cbn; lia).
  split; [|split; [|split]].
  - rewrite encode_bytes, skipn_header, body_of_puts_data, <- Hf.
    rewrite skipn_app, Lb, Nat.sub_diag.
    rewrite skipn_all2 by lia. reflexivity.
  - rewrite length_encode, body_of_puts_data, length_app, Lb, Hf. lia.
  - rewrite encode_bytes, rd32_0, u32_idem. f_equal.
    unfold final_type. rewrite fold_left_app. cbn [fold_left].
    generalize (typeCode (data_packet_type type)).
    clear. induction fields as [|v fields IH]; intros t; [reflexivity|].
    cbn [map fold_left]. apply IH.
  - rewrite encode_bytes, rd32_8, u32_idem, body_of_puts_data, length_app,
      Lb, Hf.
    rewrite u32_small by lia. lia.
Qed.

(** X4.  [sendData] takes one sequence number whatever happens.  For the
    four kinds of data it returns true, and the session changes only in that
    one buffer joins the end of the queue, and only if a decoder is held:
    without a decoder the data is dropped and the caller is still told
    true.  For any other value of the type it returns false and leaves the
    session alone. *)
Theorem sendData_outcome (type : DataType.t) (data : DataBuffer)
    (offsetMs sCounter : Z) (s : RenderSession) :
  snd (fst (sendData type data offsetMs sCounter s)) = u32 (sCounter + 1)
  /\ ((forall raw, type <> DataType.BAD raw) ->
      fst (fst (sendData type data offsetMs sCounter s)) = true
      /\ (mDecoder s = None ->
          snd (sendData type data offsetMs sCounter s) = s)
      /\ (mDecoder s <> None ->
          exists buf,
            fst (sendData_buffer type data offsetMs sCounter) = Some buf
            /\ snd (sendData type data offsetMs sCounter s)
               = set_mDataQueue (mDataQueue s ++ [Some buf]) s))
  /\ (forall raw, type = DataType.BAD raw ->
      sendData type data offsetMs sCounter s = (false, u32 (sCounter + 1), s)).
Proof.
  split; [|split].
  - unfold sendData.
    pose proof (sendData_counter type data offsetMs sCounter) as C.
    destruct (sendData_buffer type data offsetMs sCounter) as [[b|] c];
      cbn in *; exact C.
  - intros Hok.
    destruct (sendData_buffer_encode type data offsetMs sCounter Hok)
      as (fields & _ & E).
    rewrite (sendData_queues_the_buffer _ _ _ _ _ s E). cbn [fst snd].
    split; [reflexivity|]. unfold isRenderingActive. split.
    + intros Hn. rewrite Hn. reflexivity.
    + intros Hd. destruct (mDecoder s); [|contradiction].
      eexists. split; [exact E|reflexivity].
  - intros raw ->. reflexivity.
Qed.

(** X5.  [sendTimestamp] builds a packet only in a session of type WebVTT or
    TTML; in a session of any other type it does nothing at all and takes
    no sequence number.  The packet has 24 bytes and a payload of 12; its
    64-bit time stamp, stored low word first, reads back as the caller's
    value. *)
Theorem sendTimestamp_encoding (iMediaTimestampMs c : Z)
    (s : RenderSession) :
  0 <= iMediaTimestampMs < 2 ^ 64 ->
  (forall t,
      let buf := fst (built t [Z.land iMediaTimestampMs 4294967295;
                               Z.shiftr iMediaTimestampMs 32] c) in
      length buf = 24%nat
      /\ rd32 buf 0 = u32 (typeCode t)
      /\ rd32 buf 8 = 12
      /\ rd64 buf 16 = iMediaTimestampMs)
  /\ (mSessionType s = SessionType.WEBVTT ->
      sendTimestamp iMediaTimestampMs c s
      = (u32 (c + 1),
         onPacketReceived
           (parse (fst (built PacketType.WEBVTT_TIMESTAMP
                          [Z.land iMediaTimestampMs 4294967295;
                           Z.shiftr iMediaTimestampMs 32] c))) s))
  /\ (mSessionType s = SessionType.TTML ->
      sendTimestamp iMediaTimestampMs c s
      = (u32 (c + 1),
         onPacketReceived
           (parse (fst (built PacketType.TTML_TIMESTAMP
                          [Z.land iMediaTimestampMs 4294967295;
                           Z.shiftr iMediaTimestampMs 32] c))) s))
  /\ (mSessionType s <> SessionType.WEBVTT ->
      mSessionType s <> SessionType.TTML ->
      sendTimestamp iMediaTimestampMs c s = (c, s)).
Proof.
  intros Hr. split; [|split; [|split]].
  - intros t buf. subst buf.
    destruct (built_read_back t
                [Z.land iMediaTimestampMs 4294967295;
                 Z.shiftr iMediaTimestampMs 32] c)
      as (_ & Hl & H0 & _ & H8 & _ & Hf); [cbn; lia|].
    split; [exact Hl|]. split; [exact H0|]. split; [exact H8|].
    unfold rd64.
    pose proof (Hf 0%nat ltac:(cbn; lia)) as F0.
    pose proof (Hf 1%nat ltac:(cbn; lia)) as F1.
    cbn [nth Nat.mul Nat.add] in F0, F1.
    change (16 + 4)%nat with 20%nat.
    rewrite F0, F1.
    change 4294967295 with UINT32_MAX. rewrite low_word, high_word.
    unfold u32. rewrite split64. apply Z.mod_small. exact Hr.
  - intros E. unfold sendTimestamp, send. rewrite E.
    rewrite built_encode. reflexivity.
  - intros E. unfold sendTimestamp, send. rewrite E.
    rewrite built_encode. reflexivity.
  - intros H1 H2. unfold sendTimestamp.
    destruct (mSessionType s); try reflexivity; contradiction.
Qed.
End Built.

(** ** Teletext pages *)

Lemma teletext_page_fields (page : Z) :
  0 <= page < 2 ^ 16 ->
  0 <= ttxMagazine page <= 7
  /\ 0 <= ttxPage page <= 99
  /\ (page < 800 -> 100 * ttxMagazine page + ttxPage page = page)
  /\ (800 <= page -> ttxMagazine page = 0)
  /\ (forall other,
        100 <= page <= 899 -> 100 <= other <= 899 ->
        ttxMagazine other = ttxMagazine page ->
        ttxPage other = ttxPage page ->
        other = page).
Proof.
  intros Hr. unfold ttxMagazine, ttxPage.
  pose proof (Z.mod_pos_bound page 100 ltac:(lia)) as Hm.
  pose proof (Z.div_mod page 100 ltac:(lia)) as Hd.
  assert (Hall : forall other,
             100 <= page <= 899 -> 100 <= other <= 899 ->
             (if 800 <=? other then 0 else other / 100)
             = (if 800 <=? page then 0 else page / 100) ->
             other mod 100 = page mod 100 -> other = page).
  { intros other Hp Ho.
    pose proof (Z.mod_pos_bound other 100 ltac:(lia)) as Hm'.
    pose proof (Z.div_mod other 100 ltac:(lia)) as Hd'.
    destruct (800 <=? other) eqn:E';
      [apply Z.leb_le in E'|apply Z.leb_gt in E'];
      (destruct (800 <=? page) eqn:E;
       [apply Z.leb_le in E|apply Z.leb_gt in E]); lia. }
  destruct (800 <=? page) eqn:E;
    [apply Z.leb_le in E|apply Z.leb_gt in E].
  - split; [lia|]. split; [lia|]. split; [lia|]. split; [reflexivity|].
    exact Hall.
  - split; [lia|]. split; [lia|]. split; [lia|]. split; [lia|].
    exact Hall.
Qed.

Section Teletext.
Context {ext : Subttxrend}.
Variable subtitlesTypeCode : SubtitlesType -> Z.

(** X6.  For every page number of 16 bits [selectTtxService] sends a
    subtitle selection whose fields are the teletext type, a magazine
    between 0 and 7 and a page between 0 and 99.  Below 800 magazine and
    page give the page number back; from 800 on the magazine is 0, as
    teletext numbers its magazine 8.  On the page numbers of teletext, 100
    to 899, different numbers give different fields. *)
Theorem selectTtxService_fields (page c : Z) (s : RenderSession) :
  0 <= page < 2 ^ 16 ->
  (exists buf,
      selectTtxService subtitlesTypeCode page c s
      = (u32 (c + 1), onPacketReceived (parse buf) s)
      /\ rd32 buf 0 = u32 (typeCode PacketType.SUBTITLE_SELECTION)
      /\ rd32 buf 16 = u32 (subtitlesTypeCode SUBTITLES_TYPE_TELETEXT)
      /\ rd32 buf 20 = ttxMagazine page
      /\ rd32 buf 24 = ttxPage page)
  /\ 0 <= ttxMagazine page <= 7
  /\ 0 <= ttxPage page <= 99
  /\ (page < 800 -> 100 * ttxMagazine page + ttxPage page = page)
  /\ (800 <= page -> ttxMagazine page = 0)
  /\ (forall other,
        100 <= page <= 899 -> 100 <= other <= 899 ->
        ttxMagazine other = ttxMagazine page ->
        ttxPage other = ttxPage page ->
        other = page).
Proof.
  intros Hr.
  destruct (teletext_page_fields page Hr) as (Hm & Hp & H1 & H2 & H3).
  split; [|repeat split; try assumption; lia].
  exists (fst (built PacketType.SUBTITLE_SELECTION
                 [subtitlesTypeCode SUBTITLES_TYPE_TELETEXT;
                  ttxMagazine page; ttxPage page] c)).
  destruct (built_read_back PacketType.SUBTITLE_SELECTION
              [subtitlesTypeCode SUBTITLES_TYPE_TELETEXT;
               ttxMagazine page; ttxPage page] c)
    as (Hc & _ & H0 & _ & _ & _ & Hf); [cbn; lia|].
  split.
  - unfold selectTtxService, send.
    destruct (built PacketType.SUBTITLE_SELECTION
                [subtitlesTypeCode SUBTITLES_TYPE_TELETEXT;
                 ttxMagazine page; ttxPage page] c) as [buf c'].
    cbn [fst snd] in *. rewrite Hc. reflexivity.
  - split; [exact H0|].
    pose proof (Hf 0%nat ltac:(cbn; lia)) as F0.
    pose proof (Hf 1%nat ltac:(cbn; lia)) as F1.
    pose proof (Hf 2%nat ltac:(cbn; lia)) as F2.
    cbn [nth Nat.mul Nat.add] in F0, F1, F2.
    split; [exact F0|].
    split; [rewrite F1; apply u32_small; lia|rewrite F2; apply u32_small; lia].
Qed.
End Teletext.

(** Examples for the packets above. *)
Lemma built_fields_read_back_witness :
  let buf := fst (@built (exampleExt true 0) PacketType.WEBVTT_SELECTION
                    [1920; 1080] 6) in
  length buf = 24%nat /\ rd32 buf 4 = 7 /\ rd32 buf 8 = 12
  /\ rd32 buf 16 = 1920 /\ rd32 buf 20 = 1080.
Proof.
  destruct (@built_fields_read_back (exampleExt true 0)
              PacketType.WEBVTT_SELECTION [1920; 1080] 6)
    as (_ & Hl & _ & H4 & H8 & _ & Hf); [cbn; lia|].
  cbv zeta. split; [exact Hl|]. split; [exact H4|]. split; [exact H8|].
  split; [exact (Hf 0%nat ltac:(cbn; lia))|exact (Hf 1%nat ltac:(cbn; lia))].
Defined.

Lemma sendData_carries_the_data_witness :
  exists buf,
    fst (@sendData_buffer (exampleExt true 0) DataType.CC
           (bytes_of "caption") 0 0) = Some buf
    /\ skipn 28 buf = bytes_of "caption"
    /\ rd32 buf 0 = 10
    /\ rd32 buf 8 = 23.
Proof.
  destruct (@sendData_carries_the_data (exampleExt true 0) DataType.CC
              (bytes_of "caption") 0 0)
    as (buf & E & Hd & _ & H0 & H8); [discriminate|cbn; lia|].
  exists buf. split; [exact E|]. split; [exact Hd|]. split; [exact H0|exact H8].
Defined.

Lemma sendData_outcome_witness :
  let s := RenderSession_ctor "disp0" EmptyString 0 in
  @sendData (exampleExt true 0) DataType.TTML (bytes_of "x") 5 0 s
  = (true, 1, s)
  /\ @sendData (exampleExt true 0) (DataType.BAD 9) (bytes_of "x") 5 0 s
     = (false, 1, s).
Proof.
  intros s.
  destruct (@sendData_outcome (exampleExt true 0) DataType.TTML
              (bytes_of "x") 5 0 s) as (Hc & Hok & _).
  destruct (Hok ltac:(discriminate)) as (Ht & Hn & _).
  split.
  - specialize (Hn eq_refl).
    destruct (@sendData (exampleExt true 0) DataType.TTML (bytes_of "x") 5 0 s)
      as [[r c] s']. cbn [fst snd] in *. subst. reflexivity.
  - exact (proj2 (proj2 (@sendData_outcome (exampleExt true 0)
                           (DataType.BAD 9) (bytes_of "x") 5 0 s))
             9 eq_refl).
Defined.

Lemma sendTimestamp_encoding_witness :
  let s := @doOnPacketReceived (exampleExt true 0)
             (bare PacketType.WEBVTT_SELECTION)
             (RenderSession_ctor "disp0" EmptyString 0) in
  let buf := fst (@built (exampleExt true 0) PacketType.WEBVTT_TIMESTAMP
                    [Z.land 5000000000 4294967295; Z.shiftr 5000000000 32]
                    0) in
  rd64 buf 16 = 5000000000
  /\ @sendTimestamp (exampleExt true 0) 5000000000 0 s
     = (1, @onPacketReceived (exampleExt true 0)
             (@parse (exampleExt true 0) buf) s)
  /\ @sendTimestamp (exampleExt true 0) 5000000000 0
       (RenderSession_ctor "disp0" EmptyString 0)
     = (0, RenderSession_ctor "disp0" EmptyString 0).
Proof.
  intros s buf.
  destruct (@sendTimestamp_encoding (exampleExt true 0) 5000000000 0 s)
    as (Hb & Hw & _); [lia|].
  split; [exact (proj2 (proj2 (proj2 (Hb PacketType.WEBVTT_TIMESTAMP))))|].
  split; [exact (Hw eq_refl)|].
  destruct (@sendTimestamp_encoding (exampleExt true 0) 5000000000 0
              (RenderSession_ctor "disp0" EmptyString 0))
    as (_ & _ & _ & Hn); [lia|].
  apply Hn; discriminate.
Defined.

Lemma selectTtxService_fields_witness :
  ttxMagazine 888 = 0 /\ ttxPage 888 = 88
  /\ 100 * ttxMagazine 150 + ttxPage 150 = 150.
Proof.
  destruct (@selectTtxService_fields (exampleExt true 0)
              exampleSubtitlesTypeCode 888 0
              (RenderSession_ctor "disp0" EmptyString 0))
    as (_ & _ & _ & _ & H8 & _); [lia|].
  destruct (@selectTtxService_fields (exampleExt true 0)
              exampleSubtitlesTypeCode 150 0
              (RenderSession_ctor "disp0" EmptyString 0))
    as (_ & _ & _ & H1 & _ & _); [lia|].
  split; [apply H8; lia|]. split; [reflexivity|apply H1; lia].
Defined.

(** ** The queue and the render thread *)

Section Queue.
Context {ext : Subttxrend}.

Lemma dispatch_data (p : Packet) (s : RenderSession) (d : Decoder) :
  is_data (getType p) = true ->
  mDecoder s = Some d ->
  doOnPacketReceived p s = log (CtrlAddData d p) (touchTime s).
Proof.
  intros Hd E. unfold doOnPacketReceived, processDataPacket.
  destruct (getType p); try discriminate Hd; cbn; rewrite E; reflexivity.
Qed.

Lemma drain_nil (fuel : nat) (s : RenderSession) :
  mDataQueue s = [] -> drain fuel s = s.
Proof. intros E. destruct fuel; cbn; [|rewrite E]; reflexivity. Qed.

Lemma drain_data (q : list DataBufferPtr) :
  forall fuel s d,
    mDataQueue s = q ->
    (length q <= fuel)%nat ->
    mDecoder s = Some d ->
    Forall (fun b => is_data (getType (parse b)) = true) (buffers q) ->
    calls (drain fuel s)
    = calls s ++ map (fun b => CtrlAddData d (parse b)) (buffers q)
    /\ mDecoder (drain fuel s) = Some d
    /\ mDataQueue (drain fuel s) = [].
Proof.
  induction q as [|b rest IH]; intros fuel s d Q Hlen E Hall.
  - rewrite (drain_nil _ _ Q). cbn. rewrite app_nil_r. auto.
  - destruct fuel as [|fuel]; [cbn in Hlen; lia|].
    cbn [drain]. rewrite Q. destruct b as [b|].
    + cbn [buffers flat_map app] in Hall. inversion Hall as [|? ? Hb Hrest]; subst.
      rewrite (dispatch_data (parse b) (set_mDataQueue rest s) d Hb E).
      destruct (IH fuel
                  (log (CtrlAddData d (parse b))
                     (touchTime (set_mDataQueue rest s))) d)
        as (Hc & Hd & Hq);
        [reflexivity|cbn in Hlen; lia|exact E|exact Hrest|].
      rewrite Hc, Hd, Hq. cbn [buffers flat_map app map].
      cbn. rewrite <- app_assoc. auto.
    + cbn [buffers flat_map app] in Hall.
      destruct (IH fuel (set_mDataQueue rest s) d)
        as (Hc & Hd & Hq);
        [reflexivity|cbn in Hlen; lia|exact E|exact Hall|].
      rewrite Hc, Hd, Hq. auto.
Qed.

(** X7.  [processData] always leaves the ingress queue empty: its first loop
    ends, because no dispatch puts a buffer into the queue.  When the
    session holds a decoder and every queued buffer is a data packet, the
    decoder gets the packets by [addData] in the order in which they were
    queued (null buffers are skipped), then one [process] call, and the
    wait time returned is the decoder's. *)
Theorem processData_feeds_in_order (s : RenderSession) :
  mDataQueue (snd (processData s)) = []
  /\ (forall d,
        mDecoder s = Some d ->
        Forall (fun b => is_data (getType (parse b)) = true)
          (buffers (mDataQueue s)) ->
        calls (snd (processData s))
        = calls s
          ++ map (fun b => CtrlAddData d (parse b)) (buffers (mDataQueue s))
          ++ [CtrlProcess d]
        /\ mDecoder (snd (processData s)) = Some d
        /\ fst (processData s)
           = getWaitTime (calls (snd (processData s))) d).
Proof.
  split; [apply processData_empties_the_queue|].
  intros d E Hall.
  destruct (drain_data (mDataQueue s) (length (mDataQueue s)) s d
              eq_refl (le_n _) E Hall) as (Hc & Hd & _).
  unfold processData. rewrite Hd. cbn. rewrite Hc, <- app_assoc. auto.
Qed.

End Queue.

Lemma processData_feeds_in_order_witness :
  let ext := exampleExt true 40 in
  let p1 := le32 1 ++ bytes_of "one" in
  let p2 := le32 1 ++ bytes_of "two" in
  let d := {| controller := DvbSubController; serial := 0 |} in
  let s := addBuffer (Some p2)
             (addBuffer None
                (addBuffer (Some p1)
                   (doOnPacketReceived
                      {| getType := PacketType.SUBTITLE_SELECTION;
                         getSubtitlesType := SUBTITLES_TYPE_DVB;
                         getBuffer := [] |}
                      (RenderSession_ctor "disp0" EmptyString 0)))) in
  calls (snd (processData s))
  = calls s ++ [CtrlAddData d (parse p1); CtrlAddData d (parse p2);
                CtrlProcess d]
  /\ fst (processData s) = 40.
Proof.
  intros ext p1 p2 d s.
  destruct (proj2 (@processData_feeds_in_order ext s) d eq_refl)
    as (Hc & _ & Hw).
  - repeat constructor.
  - split; [exact Hc|]. rewrite Hw. reflexivity.
Defined.


(** ** What no packet and no step of the thread changes *)

Section Frame.
Context {ext : Subttxrend}.

Lemma dispatch_lifecycle (p : Packet) (s : RenderSession) :
  lifecycle (doOnPacketReceived p s) = lifecycle s.
Proof.
  unfold doOnPacketReceived, processDecoderSelection, processDataPacket,
    processResetAll, processResetChannel, processTtmlTimestamp,
    processWebvttTimestamp, processPause, processResume, processMutePacket,
    processUnmutePacket, processTtmlInfo, processSetCCAttributes,
    reset_new, reset_null.
  destruct (getType p); try destruct (getSubtitlesType p); cbn;
    destruct (mDecoder s) as [d|] eqn:E; cbn; rewrite ?E; cbn;
    try destruct (wantsData (calls s) d p);
    try destruct (SessionType.is_CC (mSessionType s));
    cbn; rewrite ?E; reflexivity.
Qed.

Lemma dispatch_queue (p : Packet) (s : RenderSession) :
  mDataQueue (doOnPacketReceived p s) = mDataQueue s
  \/ mDataQueue (doOnPacketReceived p s) = [].
Proof.
  unfold doOnPacketReceived, processDecoderSelection, processDataPacket,
    processResetAll, processResetChannel, processTtmlTimestamp,
    processWebvttTimestamp, processPause, processResume, processMutePacket,
    processUnmutePacket, processTtmlInfo, processSetCCAttributes,
    reset_new, reset_null.
  destruct (getType p); try destruct (getSubtitlesType p); cbn;
    destruct (mDecoder s) as [d|] eqn:E; cbn; rewrite ?E; cbn;
    try destruct (wantsData (calls s) d p);
    try destruct (SessionType.is_CC (mSessionType s));
    cbn; rewrite ?E; cbn; auto.
Qed.

Lemma drain_lifecycle (fuel : nat) :
  forall s, lifecycle (drain fuel s) = lifecycle s.
Proof.
  induction fuel as [|fuel IH]; intros s; [reflexivity|].
  cbn [drain]. destruct (mDataQueue s) as [|[b|] rest]; [reflexivity| |].
  - rewrite IH, dispatch_lifecycle. reflexivity.
  - rewrite IH. reflexivity.
Qed.

Lemma processData_lifecycle (s : RenderSession) :
  lifecycle (snd (processData s)) = lifecycle s.
Proof.
  unfold processData.
  pose proof (drain_lifecycle (length (mDataQueue s)) s) as D.
  destruct (mDecoder (drain (length (mDataQueue s)) s)); cbn [snd]; exact D.
Qed.

Lemma step_lifecycle (pt pt' : Point) (s s' : RenderSession) :
  step pt s = Some (pt', s') -> lifecycle s' = lifecycle s.
Proof.
  destruct pt; [cbn [step]..|rewrite step_Pass|cbn [step]|cbn [step]|cbn [step]].
  - intros [= _ <-]. reflexivity.
  - destruct (mQuitRenderThread s || isRenderingActive s && isDataQueued s);
      [intros [= _ <-]; reflexivity|discriminate].
  - intros [= _ <-]. reflexivity.
  - intros [= _ <-]. exact (processData_lifecycle s).
  - intros [= _ <-]. reflexivity.
  - intros [= _ <-]. reflexivity.
  - discriminate.
Qed.

(** X9.  No dispatched packet and no step of the render thread starts or
    stops the session, renames it, opens or closes its socket or window,
    requests shutdown or changes the preview text.  A dispatched packet
    leaves the ingress queue as it is or empties it; it never adds to
    it. *)
Theorem packets_leave_the_lifecycle_alone :
  (forall p s,
      lifecycle (doOnPacketReceived p s) = lifecycle s
      /\ (mDataQueue (doOnPacketReceived p s) = mDataQueue s
          \/ mDataQueue (doOnPacketReceived p s) = []))
  /\ (forall pt pt' s s',
        step pt s = Some (pt', s') -> lifecycle s' = lifecycle s).
Proof.
  split.
  - intros p s. split; [apply dispatch_lifecycle|apply dispatch_queue].
  - exact step_lifecycle.
Qed.

Lemma lifecycle_quit (s s' : RenderSession) :
  lifecycle s' = lifecycle s -> mQuitRenderThread s' = mQuitRenderThread s.
Proof. unfold lifecycle. intros [= _ _ _ _ _ _ H _ _ _]. exact H. Qed.

Lemma run_thread_lifecycle (fuel : nat) :
  forall pt s, lifecycle (snd (run_thread fuel pt s)) = lifecycle s.
Proof.
  induction fuel as [|fuel IH]; intros pt s; [reflexivity|].
  cbn [run_thread]. destruct (step pt s) as [[pt' s']|] eqn:S; [|reflexivity].
  rewrite IH. exact (step_lifecycle _ _ _ _ S).
Qed.

Lemma run_thread_returns (pt : Point)
    (s : RenderSession) :
  mQuitRenderThread s = true ->
  fst (run_thread 5 pt s) = Returned
  /\ lifecycle (snd (run_thread 5 pt s)) = lifecycle s.
Proof.
  intros Hq. split; [|apply run_thread_lifecycle].
  pose proof (lifecycle_quit _ _ (processData_lifecycle s)) as Q.
  destruct pt; cbn [run_thread]; rewrite ?step_Pass; cbn [step];
    rewrite ?Hq; cbn;
    try destruct (fst (processData s) =? 0); cbn; rewrite ?Q, ?Hq; cbn;
    rewrite ?Q, ?Hq; reflexivity.
Qed.

(** X10.  Once shutdown is requested the render thread returns from
    [processLoop] within five of its steps, wherever it stands, so that the
    [join] in [stop] comes back; on its way it has changed none of the
    lifecycle members. *)
Theorem render_thread_returns_after_shutdown (pt : Point)
    (s : RenderSession) :
  mQuitRenderThread s = true ->
  fst (run_thread 5 pt s) = Returned
  /\ lifecycle (snd (run_thread 5 pt s)) = lifecycle s.
Proof. exact (run_thread_returns pt s). Qed.
End Frame.

Lemma packets_leave_the_lifecycle_alone_witness :
  let ext := exampleExt true 0 in
  let s := addBuffer (Some (le32 3))
             (doOnPacketReceived (bare PacketType.WEBVTT_SELECTION)
                (RenderSession_ctor "disp0" EmptyString 0)) in
  lifecycle (snd (processData s)) = lifecycle s.
Proof.
  intros ext s.
  apply (proj2 (@packets_leave_the_lifecycle_alone ext) Pass Clear s
           (log GfxExecute (snd (processData s)))).
  reflexivity.
Defined.

Lemma render_thread_returns_after_shutdown_witness :
  let ext := exampleExt true 40 in
  let s := set_mQuitRenderThread true
             (doOnPacketReceived (bare PacketType.WEBVTT_SELECTION)
                (RenderSession_ctor "disp0" EmptyString 0)) in
  fst (run_thread 5 Pass s) = Returned.
Proof.
  intros ext s.
  exact (proj1 (@render_thread_returns_after_shutdown ext Pass s eq_refl)).
Defined.

(** ** Invariants over everything that can happen to a session *)

Lemma well_typed_wt (s : RenderSession) :
  well_typed s <-> wt (mDecoder s) (mSessionType s) (calls s).
Proof. reflexivity. Qed.

Lemma wt_snoc (o : option Decoder) (t : SessionType.t) (cs : list Call)
    (c : Call) :
  is_preview c = false -> wt o t cs -> wt o t (cs ++ [c]).
Proof.
  intros Hc [H1 H2]. split; [exact H1|].
  intros d text Hin. apply in_app_or in Hin as [Hin|[Hin|[]]].
  - exact (H2 d text Hin).
  - subst c. discriminate Hc.
Qed.

Lemma wt_change (o o' : option Decoder) (t t' : SessionType.t)
    (cs : list Call) :
  wt o t cs ->
  (forall d, o' = Some d -> controller_of t' = Some (controller d)) ->
  wt o' t' cs.
Proof. intros [_ H2] H. split; assumption. Qed.

Lemma wt_preview (d : Decoder) (cs : list Call) (text : string) :
  wt (Some d) SessionType.CC cs ->
  wt (Some d) SessionType.CC (cs ++ [CtrlSetTextForPreview d text]).
Proof.
  intros [H1 H2]. split; [exact H1|].
  intros d' text' Hin. apply in_app_or in Hin as [Hin|[Hin|[]]].
  - exact (H2 d' text' Hin).
  - injection Hin as <- _. specialize (H1 d eq_refl). cbn in H1. congruence.
Qed.

Ltac wt_peel H :=
  repeat (apply wt_snoc; [reflexivity|]);
  first
    [ exact H
    | apply (wt_change _ _ _ _ _ H); intros ? [= <-]; reflexivity
    | apply (wt_change _ _ _ _ _ H); intros ? Habs; discriminate Habs ].

Section Invariants.
Context {ext : Subttxrend}.

Lemma dispatch_wt (p : Packet) (s : RenderSession) :
  wt (mDecoder s) (mSessionType s) (calls s) ->
  wt (mDecoder (doOnPacketReceived p s))
    (mSessionType (doOnPacketReceived p s))
    (calls (doOnPacketReceived p s)).
Proof.
  unfold doOnPacketReceived, processDecoderSelection, processDataPacket,
    processResetAll, processResetChannel, processTtmlTimestamp,
    processWebvttTimestamp, processPause, processResume, processMutePacket,
    processUnmutePacket, processTtmlInfo, processSetCCAttributes,
    reset_new, reset_null.
  destruct (getType p); try destruct (getSubtitlesType p); cbn;
    destruct (mDecoder s) as [d|] eqn:E; cbn; rewrite ?E; cbn;
    try destruct (wantsData (calls s) d p);
    try destruct (SessionType.is_CC (mSessionType s));
    cbn; rewrite ?E; cbn; intros H; wt_peel H.
Qed.

Lemma dispatch_well_typed (p : Packet) (s : RenderSession) :
  well_typed s -> well_typed (doOnPacketReceived p s).
Proof. exact (dispatch_wt p s). Qed.

Lemma dispatch_sound (p : Packet) (s : RenderSession) :
  sound s -> sound (doOnPacketReceived p s).
Proof.
  intros [H1 H2]. split;
    [apply doOnPacketReceived_consistent|apply dispatch_well_typed];
    assumption.
Qed.

Lemma drain_sound (fuel : nat) : forall s, sound s -> sound (drain fuel s).
Proof.
  induction fuel as [|fuel IH]; intros s H; [exact H|].
  cbn [drain]. destruct (mDataQueue s) as [|[b|] rest]; [exact H| |].
  - apply IH. apply dispatch_sound. exact H.
  - apply IH. exact H.
Qed.

Lemma log_sound (c : Call) (s : RenderSession) :
  neutral c = true -> is_preview c = false -> sound s -> sound (log c s).
Proof.
  intros Hn Hp [H1 H2]. split.
  - unfold consistent in *. cbn. apply ok_snoc_neutral; assumption.
  - apply well_typed_wt. apply well_typed_wt in H2. cbn.
    apply wt_snoc; assumption.
Qed.

Lemma processData_sound (s : RenderSession) :
  sound s -> sound (snd (processData s)).
Proof.
  intros H. unfold processData.
  pose proof (drain_sound (length (mDataQueue s)) s H) as D.
  destruct (mDecoder (drain (length (mDataQueue s)) s)); cbn [snd];
    [apply log_sound; [reflexivity|reflexivity|exact D]|exact D].
Qed.

Lemma step_sound (pt pt' : Point) (s s' : RenderSession) :
  step pt s = Some (pt', s') -> sound s -> sound s'.
Proof.
  intros S H.
  destruct pt; [cbn [step] in S..|rewrite step_Pass in S|cbn [step] in S
               |cbn [step] in S|cbn [step] in S].
  - injection S as _ <-. exact H.
  - destruct (mQuitRenderThread s || isRenderingActive s && isDataQueued s);
      [injection S as _ <-; exact H|discriminate].
  - injection S as _ <-. exact H.
  - injection S as _ <-.
    apply log_sound; [reflexivity|reflexivity|].
    apply processData_sound. exact H.
  - injection S as _ <-. exact H.
  - injection S as _ <-. exact H.
  - discriminate.
Qed.

Lemma run_thread_sound (fuel : nat) :
  forall pt s, sound s -> sound (snd (run_thread fuel pt s)).
Proof.
  induction fuel as [|fuel IH]; intros pt s H; [exact H|].
  cbn [run_thread]. destruct (step pt s) as [[pt' s']|] eqn:S; [|exact H].
  apply IH. exact (step_sound _ _ _ _ S H).
Qed.

Lemma drop_decoder_sound (s : RenderSession) :
  sound s ->
  sound match mDecoder s with
        | Some d => reset_null (log (CtrlDeactivate d) s)
        | None => s
        end.
Proof.
  intros [H1 H2]. destruct (mDecoder s) as [d|] eqn:E; [|split; assumption].
  unfold reset_null. cbn. rewrite E. split.
  - unfold consistent in *. cbn. rewrite E in H1. peel.
  - change (wt (mDecoder s) (mSessionType s) (calls s)) in H2.
    rewrite E in H2. apply well_typed_wt. cbn. wt_peel H2.
Qed.

Lemma stop_sound (m : Machine) : sound (snd m) -> sound (snd (stop m)).
Proof.
  destruct m as [pt s]. cbn [snd]. intros H. unfold stop.
  destruct (mStarted s); cbn [negb]; [|exact H].
  cbv zeta.
  set (s1 := set_mQuitRenderThread true _).
  assert (H1 : sound s1).
  { subst s1.
    destruct (negb (is_empty (mSocketName (set_mStarted false s)))
              && mSocket (set_mStarted false s)); exact H. }
  remember (if mRenderThread s1 then join (pt, s1) else (pt, s1)) as m2
    eqn:Em.
  assert (Hj : sound (snd m2)).
  { rewrite Em. destruct (mRenderThread s1); [|exact H1].
    unfold join. cbn [fst snd].
    pose proof (run_thread_sound 5 pt s1 H1) as R.
    destruct (run_thread 5 pt s1) as [pt' s']. exact R. }
  destruct m2 as [pt2 s2]. cbn [snd] in Hj.
  pose proof (drop_decoder_sound (set_mDataQueue [] s2) Hj) as D.
  cbn [snd].
  match goal with
  | |- sound (if ?b then _ else _) => destruct b
  end; exact D.
Qed.

Lemma start_sound (socketOk : bool) (s : RenderSession) :
  sound s -> sound (fst (start socketOk s)).
Proof.
  intros H. unfold start.
  destruct (mStarted s); [exact H|].
  assert (H2 : sound (log GfxAttach
                        (set_mGfxWindow true
                           (log GfxCreateWindow (set_mStarted true s))))).
  { apply log_sound; [reflexivity|reflexivity|].
    apply (log_sound GfxCreateWindow (set_mStarted true s));
      [reflexivity|reflexivity|exact H]. }
  cbn [mSocketName set_mStarted set_mGfxWindow log set_calls].
  destruct (is_empty (mSocketName s)); cbn [negb]; [exact H2|].
  destruct socketOk; cbn [fst]; [|exact H2].
  apply (log_sound SocketStart
           (set_mSocket true
              (log GfxAttach
                 (set_mGfxWindow true
                    (log GfxCreateWindow (set_mStarted true s))))));
    [reflexivity|reflexivity|exact H2].
Qed.

Lemma preview_sound (text : string) (s : RenderSession) :
  sound s -> sound (setTextForClosedCaptionPreview text s).
Proof.
  intros [H1 H2]. unfold setTextForClosedCaptionPreview. cbn.
  destruct (mDecoder s) as [d|] eqn:E; [|split; assumption].
  destruct (mSessionType s) eqn:T; cbn; try (split; assumption).
  split.
  - unfold consistent in *. cbn. rewrite E in *. peel.
  - change (wt (mDecoder s) (mSessionType s) (calls s)) in H2.
    rewrite E, T in H2. apply well_typed_wt. cbn. rewrite E, T.
    apply wt_preview. exact H2.
Qed.

Lemma refresh_sound (s : RenderSession) :
  sound s -> sound (refresh_preview s).
Proof.
  intros [H1 H2]. unfold refresh_preview.
  destruct (negb (is_empty (mPreviewText s))); [|split; assumption].
  destruct (mDecoder s) as [d|] eqn:E; [|split; assumption].
  destruct (mSessionType s) eqn:T; cbn; try (split; assumption).
  split.
  - unfold consistent in *. cbn. rewrite E in *. peel.
  - change (wt (mDecoder s) (mSessionType s) (calls s)) in H2.
    rewrite E, T in H2. apply well_typed_wt. cbn. rewrite E, T.
    apply wt_preview. exact H2.
Qed.

Lemma react_sound (m : Machine) (e : Event) :
  sound (snd m) -> sound (snd (react m e)).
Proof.
  intros H. destruct e; cbn [react snd].
  - apply dispatch_sound. exact H.
  - unfold addBuffer. destruct (isRenderingActive (snd m)); exact H.
  - apply preview_sound. exact H.
  - apply refresh_sound. exact H.
  - destruct m as [pt s]. unfold start_thread. cbn [snd] in *.
    destruct (mStarted s) eqn:S; [exact H|].
    pose proof (start_sound socketOk s H) as R.
    destruct (start socketOk s) as [s' thrown]. exact R.
  - apply stop_sound. exact H.
  - destruct (mRenderThread (snd m)); [|exact H].
    destruct (step (fst m) (snd m)) as [[pt' s']|] eqn:S; [|exact H].
    exact (step_sound _ _ _ _ S H).
Qed.

Lemma history_sound (events : list Event) :
  forall m, sound (snd m) -> sound (snd (history events m)).
Proof.
  induction events as [|e events IH]; intros m H; [exact H|].
  cbn [history fold_left]. apply IH. apply react_sound. exact H.
Qed.

Lemma new_machine_sound (displayName socketName : string) (t : Z) :
  sound (snd (new_machine displayName socketName t)).
Proof.
  split; [apply RenderSession_ctor_consistent|].
  split; [discriminate|].
  cbn. intros d text [H|[]]. discriminate H.
Qed.

(** X11.  Whatever happens to a session in whatever order (packets and
    buffers arriving, the preview text set or refreshed, [start], [stop],
    steps of the render thread, which dispatches what is queued), at every
    moment of the call log at most one controller is active. *)
Theorem one_decoder_active_in_every_history (displayName socketName : string)
    (t : Z) (events : list Event) :
  one_active_at_a_time
    (calls (snd (history events (new_machine displayName socketName t)))).
Proof.
  exact (proj1 (proj1 (history_sound events _
                         (new_machine_sound displayName socketName t)))).
Qed.

(** X12.  Whatever happens to a session, the decoder it holds is of the
    class its session type names.  So the downcasts by session type are
    sound: a preview text only ever goes to a CC controller, and a session
    whose type is CC or TTML holds a CC or TTML controller or none. *)
Theorem decoder_matches_the_session_type (displayName socketName : string)
    (t : Z) (events : list Event) :
  let s := snd (history events (new_machine displayName socketName t)) in
  (forall d, mDecoder s = Some d ->
             controller_of (mSessionType s) = Some (controller d))
  /\ (forall d text, In (CtrlSetTextForPreview d text) (calls s) ->
                     controller d = CcSubController).
Proof.
  exact (proj2 (history_sound events _
                  (new_machine_sound displayName socketName t))).
Qed.
End Invariants.

(** ** Starting and stopping *)

Section Lifecycle.
Context {ext : Subttxrend}.

Lemma lifecycle_fields (s s' : RenderSession) :
  lifecycle s' = lifecycle s ->
  mStarted s' = mStarted s /\ mDisplayName s' = mDisplayName s
  /\ mSocketName s' = mSocketName s /\ mSocket s' = mSocket s
  /\ mGfxWindow s' = mGfxWindow s /\ mRenderThread s' = mRenderThread s
  /\ mQuitRenderThread s' = mQuitRenderThread s
  /\ mPreviewText s' = mPreviewText s
  /\ mHasCustomTtmlStyling s' = mHasCustomTtmlStyling s
  /\ steadyClock s' = steadyClock s.
Proof. unfold lifecycle. intros H. repeat split; congruence. Qed.

Lemma stop_not_started (m : Machine) :
  mStarted (snd m) = false -> stop m = m.
Proof. destruct m as [pt s]. cbn. intros ->. reflexivity. Qed.

Lemma stop_effect (pt : Point) (s : RenderSession) :
  mStarted s = true ->
  mStarted (snd (stop (pt, s))) = false
  /\ mQuitRenderThread (snd (stop (pt, s))) = true
  /\ mRenderThread (snd (stop (pt, s))) = false
  /\ mDecoder (snd (stop (pt, s))) = None
  /\ mDataQueue (snd (stop (pt, s))) = []
  /\ mGfxWindow (snd (stop (pt, s))) = false
  /\ (is_empty (mSocketName s) = false -> mSocket (snd (stop (pt, s))) = false)
  /\ mDisplayName (snd (stop (pt, s))) = mDisplayName s
  /\ mSocketName (snd (stop (pt, s))) = mSocketName s
  /\ mPreviewText (snd (stop (pt, s))) = mPreviewText s
  /\ (mRenderThread s = true -> fst (stop (pt, s)) = Returned).
Proof.
  intros Hs. unfold stop. rewrite Hs. cbn [negb]. cbv zeta.
  set (s0 := if negb (is_empty (mSocketName (set_mStarted false s)))
                && mSocket (set_mStarted false s)
             then set_mSocket false (set_mStarted false s)
             else set_mStarted false s).
  assert (L0 : mStarted s0 = false /\ mDisplayName s0 = mDisplayName s
               /\ mSocketName s0 = mSocketName s
               /\ mPreviewText s0 = mPreviewText s
               /\ mRenderThread s0 = mRenderThread s
               /\ (is_empty (mSocketName s) = false -> mSocket s0 = false)).
  { subst s0. cbn.
    destruct (is_empty (mSocketName s)); cbn;
      [repeat split; discriminate|].
    destruct (mSocket s) eqn:K; cbn; repeat split; auto. }
  destruct L0 as (A1 & A2 & A3 & A4 & A5 & A6).
  clearbody s0.
  remember (if mRenderThread (set_mQuitRenderThread true s0)
            then join (pt, set_mQuitRenderThread true s0)
            else (pt, set_mQuitRenderThread true s0)) as m2 eqn:Em.
  assert (Hj : mStarted (snd m2) = false
               /\ mDisplayName (snd m2) = mDisplayName s
               /\ mSocketName (snd m2) = mSocketName s
               /\ mPreviewText (snd m2) = mPreviewText s
               /\ mRenderThread (snd m2) = false
               /\ mSocket (snd m2) = mSocket s0
               /\ mQuitRenderThread (snd m2) = true
               /\ (mRenderThread s = true -> fst m2 = Returned)).
  { rewrite Em. cbn [mRenderThread set_mQuitRenderThread]. rewrite A5.
    destruct (mRenderThread s) eqn:R.
    - unfold join. cbn [fst snd].
      destruct (run_thread_returns pt (set_mQuitRenderThread true s0) eq_refl)
        as [Hp Hl].
      destruct (lifecycle_fields _ _ Hl)
        as (F1 & F2 & F3 & F4 & F5 & F6 & F7 & F8 & F9 & F10).
      destruct (run_thread 5 pt (set_mQuitRenderThread true s0)) as [pt' sj].
      cbn in *. repeat split; congruence.
    - cbn. repeat split; congruence. }
  destruct m2 as [pt2 s2]. cbn [fst snd] in Hj.
  destruct Hj as (B1 & B2 & B3 & B4 & B5 & B6 & B7 & B8).
  destruct (mDecoder s2) as [d|] eqn:D; unfold reset_null; cbn; rewrite ?D;
    cbn; destruct (mGfxWindow s2) eqn:W; cbn; rewrite ?D; repeat split;
    first [congruence | exact B8 | intros K; rewrite B6; exact (A6 K)].
Qed.

(** X13.  [stop] on a started session leaves it stopped with shutdown
    requested, the render thread joined (it has returned from
    [processLoop]), no decoder, an empty ingress queue, no window and no
    socket; the names and the preview text stay.  On a session that is not
    started [stop] does nothing, so a second [stop] changes nothing. *)
Theorem stop_releases_the_session (pt : Point) (s : RenderSession) :
  (mStarted s = true ->
   mStarted (snd (stop (pt, s))) = false
   /\ mQuitRenderThread (snd (stop (pt, s))) = true
   /\ mRenderThread (snd (stop (pt, s))) = false
   /\ mDecoder (snd (stop (pt, s))) = None
   /\ mDataQueue (snd (stop (pt, s))) = []
   /\ mGfxWindow (snd (stop (pt, s))) = false
   /\ (is_empty (mSocketName s) = false ->
       mSocket (snd (stop (pt, s))) = false)
   /\ mDisplayName (snd (stop (pt, s))) = mDisplayName s
   /\ mSocketName (snd (stop (pt, s))) = mSocketName s
   /\ mPreviewText (snd (stop (pt, s))) = mPreviewText s
   /\ (mRenderThread s = true -> fst (stop (pt, s)) = Returned))
  /\ (mStarted s = false -> stop (pt, s) = (pt, s))
  /\ stop (stop (pt, s)) = stop (pt, s).
Proof.
  split; [exact (stop_effect pt s)|].
  split; [exact (stop_not_started (pt, s))|].
  destruct (mStarted s) eqn:Hs.
  - apply stop_not_started. exact (proj1 (stop_effect pt s Hs)).
  - rewrite (stop_not_started (pt, s) Hs).
    exact (stop_not_started (pt, s) Hs).
Qed.


(** X15.  A [start] that throws because the socket source cannot be created
    leaves the session marked as started, with a window and without a
    render thread; since [start] returns at once on a session marked as
    started, calling it again does nothing and starts no thread. *)
Theorem failed_start_blocks_later_starts (s : RenderSession) :
  mStarted s = false ->
  is_empty (mSocketName s) = false ->
  snd (start false s) = true
  /\ mStarted (fst (start false s)) = true
  /\ mGfxWindow (fst (start false s)) = true
  /\ mRenderThread (fst (start false s)) = mRenderThread s
  /\ mSocket (fst (start false s)) = mSocket s
  /\ (forall socketOk,
        start socketOk (fst (start false s)) = (fst (start false s), false)).
Proof.
  intros Hs Hn. unfold start at 1 2 3 4 5. rewrite Hs. cbn. rewrite Hn. cbn.
  repeat split.
  intros socketOk. unfold start. rewrite Hs. cbn. rewrite Hn. reflexivity.
Qed.
End Lifecycle.

Lemma stop_releases_the_session_witness :
  let ext := exampleExt true 40 in
  let s := addBuffer (Some (le32 1))
             (doOnPacketReceived (bare PacketType.WEBVTT_SELECTION)
                (fst (start true (RenderSession_ctor "disp0" "sockA" 0)))) in
  let m := stop (InnerWait 40, s) in
  fst m = Returned /\ mDecoder (snd m) = None /\ mDataQueue (snd m) = []
  /\ mStarted (snd m) = false /\ mSocket (snd m) = false.
Proof.
  intros ext s m.
  destruct (proj1 (@stop_releases_the_session ext (InnerWait 40) s) eq_refl)
    as (H1 & _ & _ & H4 & H5 & _ & H7 & _ & _ & _ & H11).
  split; [exact (H11 eq_refl)|]. split; [exact H4|]. split; [exact H5|].
  split; [exact H1|exact (H7 eq_refl)].
Defined.


Lemma failed_start_blocks_later_starts_witness :
  let s := fst (start false (RenderSession_ctor "disp0" "sockA" 0)) in
  mStarted s = true /\ mRenderThread s = false
  /\ start true s = (s, false).
Proof.
  intros s.
  destruct (failed_start_blocks_later_starts
              (RenderSession_ctor "disp0" "sockA" 0) eq_refl eq_refl)
    as (_ & H2 & _ & H4 & _ & H6).
  split; [exact H2|]. split; [exact H4|exact (H6 true)].
Defined.

(** ** More on the session registry *)

Lemma display_names_store_display (name : string) (ses' : RenderSession)
    (m : SessionMap) :
  getDisplayName ses' = name ->
  display_names (store_display name ses' m) = display_names m.
Proof.
  intros Hn. unfold display_names.
  induction m as [|[k v] m IH]; [reflexivity|].
  cbn [store_display]. destruct (String.eqb (getDisplayName v) name) eqn:N.
  - apply String.eqb_eq in N. cbn [map snd]. rewrite Hn, N. reflexivity.
  - cbn [map snd]. rewrite IH. reflexivity.
Qed.

Lemma display_names_store (id : Z) (ses ses' : RenderSession)
    (m : SessionMap) :
  find_session id m = Some ses ->
  getDisplayName ses' = getDisplayName ses ->
  display_names (store id ses' m) = display_names m.
Proof.
  intros Hf Hn. unfold display_names.
  induction m as [|[k v] m IH]; [discriminate|].
  cbn [find_session] in Hf. cbn [store]. destruct (k =? id).
  - injection Hf as ->. cbn [map snd]. rewrite Hn. reflexivity.
  - cbn [map snd]. rewrite (IH Hf). reflexivity.
Qed.

Lemma keys_store (id : Z) (ses' : RenderSession) (m : SessionMap) :
  map fst (store id ses' m) = map fst m.
Proof.
  induction m as [|[k v] m IH]; [reflexivity|].
  cbn [store]. destruct (k =? id) eqn:K; cbn; [reflexivity|].
  rewrite IH. reflexivity.
Qed.

Lemma store_same (id : Z) (ses : RenderSession) (m : SessionMap) :
  find_session id m = Some ses -> store id ses m = m.
Proof.
  induction m as [|[k v] m IH]; [discriminate|].
  cbn. destruct (k =? id).
  - intros [= ->]. reflexivity.
  - intros H. rewrite (IH H). reflexivity.
Qed.

Lemma find_display_none (name : string) (m : SessionMap) :
  find_display name m = None -> ~ In name (display_names m).
Proof.
  induction m as [|[k v] m IH]; cbn; [intros _ []|].
  destruct (String.eqb (getDisplayName v) name) eqn:N; [discriminate|].
  intros H [Hv|Hin].
  - apply String.eqb_neq in N. contradiction.
  - exact (IH H Hin).
Qed.

Lemma in_display_names_emplace (id : Z) (ses : RenderSession) (m : SessionMap)
    (x : string) :
  In x (display_names (emplace id ses m)) ->
  x = getDisplayName ses \/ In x (display_names m).
Proof.
  induction m as [|[k v] m IH]; cbn.
  - intros [H|[]]. left. symmetry. exact H.
  - destruct (id <? k); [|destruct (id =? k)]; cbn.
    + intros [H|H]; [left; symmetry; exact H|right; exact H].
    + intros H. right. exact H.
    + intros [H|H]; [right; left; exact H|].
      destruct (IH H) as [E|E]; [left; exact E|right; right; exact E].
Qed.

Lemma NoDup_display_names_emplace (id : Z) (ses : RenderSession)
    (m : SessionMap) :
  NoDup (display_names m) ->
  ~ In (getDisplayName ses) (display_names m) ->
  NoDup (display_names (emplace id ses m)).
Proof.
  induction m as [|[k v] m IH]; cbn; intros Hnd Hni.
  - constructor; [intros []|constructor].
  - inversion Hnd as [|? ? Hv Hrest]; subst.
    destruct (id <? k); [|destruct (id =? k)]; cbn.
    + constructor; [exact Hni|exact Hnd].
    + exact Hnd.
    + constructor.
      * intros Hin. apply in_display_names_emplace in Hin as [E|E].
        -- apply Hni. left. exact E.
        -- exact (Hv E).
      * apply IH; [exact Hrest|]. intros Hin. apply Hni. right. exact Hin.
Qed.

(** X16.  [OpenSession] never gives two sessions the same display name:
    when the display names of the registered sessions are all different,
    they still are afterwards, whatever the call returns. *)
Theorem OpenSession_keeps_display_names_apart (host : Host)
    (iDisplayName : string) (oSessionId : Z) (impl : TextTrackImplementation) :
  NoDup (display_names (mSessions impl)) ->
  NoDup (display_names
           (mSessions (snd (OpenSession host iDisplayName oSessionId impl)))).
Proof.
  intros Hnd. unfold OpenSession.
  destruct (is_empty iDisplayName); [exact Hnd|].
  destruct (find_display iDisplayName (mSessions impl)) as [[id ses]|] eqn:F.
  - pose proof (start_keeps_display (socketCreated host) ses) as Hd.
    destruct (start (socketCreated host) ses) as [started thrown].
    cbn [fst snd mSessions] in *.
    rewrite display_names_store_display; [exact Hnd|].
    rewrite Hd. exact (find_display_name _ _ _ _ F).
  - destruct (negb (ensureDisplayIsCreated host iDisplayName)); [exact Hnd|].
    destruct (constructionThrows host); [exact Hnd|].
    pose proof (start_keeps_display (socketCreated host)
                  (RenderSession_ctor iDisplayName EmptyString (now host)))
      as Hd.
    destruct (start (socketCreated host)
                (RenderSession_ctor iDisplayName EmptyString (now host)))
      as [started thrown].
    destruct thrown; [exact Hnd|].
    cbn [fst snd mSessions] in *.
    apply NoDup_display_names_emplace; [exact Hnd|].
    rewrite Hd. cbn. apply find_display_none. exact F.
Qed.

Lemma OpenSession_keeps_display_names_apart_witness :
  let host := {| ensureDisplayIsCreated := fun _ => true;
                 constructionThrows := false;
                 socketCreated := true; now := 0 |} in
  let impl0 := {| mSessions := []; mSessionNumber := 0 |} in
  let impl1 := snd (OpenSession host "disp0" 0 impl0) in
  let impl2 := snd (OpenSession host "disp1" 0 impl1) in
  let impl3 := snd (OpenSession host "disp0" 0 impl2) in
  display_names (mSessions impl3) = ["disp0"%string; "disp1"%string]
  /\ NoDup (display_names (mSessions impl3)).
Proof.
  intros host impl0 impl1 impl2 impl3.
  split; [reflexivity|].
  apply (OpenSession_keeps_display_names_apart host "disp0" 0 impl2).
  apply (OpenSession_keeps_display_names_apart host "disp1" 0 impl1).
  apply (OpenSession_keeps_display_names_apart host "disp0" 0 impl0).
  constructor.
Defined.

(** X17.  For a display that has no session, when the display can be
    created, nothing throws and the new identifier is not yet a key of the
    map, [OpenSession] returns success and the session is then found under
    the returned identifier: started, with the display name asked for and
    without a decoder. *)
Theorem OpenSession_then_lookup (host : Host) (iDisplayName : string)
    (oSessionId : Z) (impl : TextTrackImplementation) :
  is_empty iDisplayName = false ->
  find_display iDisplayName (mSessions impl) = None ->
  ensureDisplayIsCreated host iDisplayName = true ->
  constructionThrows host = false ->
  find_session (u32 (mSessionNumber impl + 1)) (mSessions impl) = None ->
  fst (fst (OpenSession host iDisplayName oSessionId impl)) = Return ERROR_NONE
  /\ exists ses,
       find_session (snd (fst (OpenSession host iDisplayName oSessionId impl)))
         (mSessions (snd (OpenSession host iDisplayName oSessionId impl)))
       = Some ses
       /\ mStarted ses = true
       /\ getDisplayName ses = iDisplayName
       /\ mDecoder ses = None.
Proof.
  intros He Hf Hd Hc Hfree. unfold OpenSession.
  rewrite He, Hf, Hd, Hc. cbn.
  split; [reflexivity|].
  eexists. split; [apply find_session_emplace; exact Hfree|].
  repeat split.
Qed.

Lemma OpenSession_then_lookup_witness :
  let host := {| ensureDisplayIsCreated := fun _ => true;
                 constructionThrows := false;
                 socketCreated := true; now := 0 |} in
  let r := OpenSession host "disp0" 0
             {| mSessions := []; mSessionNumber := 4 |} in
  snd (fst r) = 5
  /\ exists ses, find_session 5 (mSessions (snd r)) = Some ses
                 /\ mStarted ses = true.
Proof.
  intros host r.
  destruct (OpenSession_then_lookup host "disp0" 0
              {| mSessions := []; mSessionNumber := 4 |}
              eq_refl eq_refl eq_refl eq_refl eq_refl)
    as (_ & ses & Hf & Hs & _).
  split; [reflexivity|]. exists ses. split; [exact Hf|exact Hs].
Defined.

(** X18.  When the construction of the new session throws, [OpenSession]
    catches the exception and still returns success with a new identifier.
    No session is stored, the identifier is used up, and, unless the map
    had that key already, a later call with the identifier fails with the
    general error.  When the display cannot be created the call returns the
    general error, but the identifier is used up as well. *)
Theorem OpenSession_success_without_a_session (host : Host)
    (iDisplayName : string) (oSessionId : Z) (impl : TextTrackImplementation) :
  is_empty iDisplayName = false ->
  find_display iDisplayName (mSessions impl) = None ->
  (ensureDisplayIsCreated host iDisplayName = true ->
   constructionThrows host = true ->
   OpenSession host iDisplayName oSessionId impl
   = (Return ERROR_NONE, u32 (mSessionNumber impl + 1),
      {| mSessions := mSessions impl;
         mSessionNumber := u32 (mSessionNumber impl + 1) |})
   /\ (find_session (u32 (mSessionNumber impl + 1)) (mSessions impl) = None ->
       forall text,
         fst (SetPreviewText (u32 (mSessionNumber impl + 1)) text
                (snd (OpenSession host iDisplayName oSessionId impl)))
         = ERROR_GENERAL))
  /\ (ensureDisplayIsCreated host iDisplayName = false ->
      OpenSession host iDisplayName oSessionId impl
      = (Return ERROR_GENERAL, u32 (mSessionNumber impl + 1),
         {| mSessions := mSessions impl;
            mSessionNumber := u32 (mSessionNumber impl + 1) |})).
Proof.
  intros He Hf. unfold OpenSession. rewrite He, Hf. split.
  - intros Hd Hc. rewrite Hd, Hc. cbn. split; [reflexivity|].
    intros Hfree text. unfold SetPreviewText. cbn. rewrite Hfree. reflexivity.
  - intros Hd. rewrite Hd. reflexivity.
Qed.

Lemma OpenSession_success_without_a_session_witness :
  let host := {| ensureDisplayIsCreated := fun _ => true;
                 constructionThrows := true;
                 socketCreated := true; now := 0 |} in
  let impl := {| mSessions := []; mSessionNumber := 0 |} in
  OpenSession host "disp0" 0 impl
  = (Return ERROR_NONE, 1, {| mSessions := []; mSessionNumber := 1 |})
  /\ fst (SetPreviewText 1 "Hi" (snd (OpenSession host "disp0" 0 impl)))
     = ERROR_GENERAL.
Proof.
  intros host impl.
  destruct (proj1 (OpenSession_success_without_a_session host "disp0" 0 impl
                     eq_refl eq_refl) eq_refl eq_refl) as [H1 H2].
  split; [exact H1|exact (H2 eq_refl "Hi"%string)].
Defined.

Section RegistryOps.
Context {ext : Subttxrend}.
Variable subtitlesTypeCode : SubtitlesType -> Z.

Lemma on_session_unknown (id : Z)
    (call : Z -> RenderSession -> Z * RenderSession) (w : Process) :
  find_session id (mSessions (registry w)) = None ->
  on_session id call w = (ERROR_GENERAL, w).
Proof. intros H. unfold on_session. rewrite H. reflexivity. Qed.

(** X19.  Each of the session operations (close, pause, resume, mute,
    unmute, reset, send data, send time stamp, and the teletext, DVB,
    WebVTT and SCTE selections) returns the general error for an identifier
    that is not registered, and changes neither the registry nor the
    sequence counter. *)
Theorem operation_on_unknown_session (op : SessionOp) (sessionId : Z)
    (w : Process) :
  find_session sessionId (mSessions (registry w)) = None ->
  perform subtitlesTypeCode op sessionId w = (ERROR_GENERAL, w).
Proof.
  intros H. destruct op; cbn [perform];
    unfold CloseSession, PauseSession, ResumeSession, MuteSession,
      UnMuteSession, ResetSession, SendSessionData, SendSessionTimestamp,
      SetSessionTeletextSelection, SetSessionDvbSubtitleSelection,
      SetSessionWebVTTSelection, SetSessionSCTESelection;
    apply on_session_unknown; exact H.
Qed.

Lemma send_tame (type : PacketType.t) (fields : list Z) :
  tame (send type fields).
Proof.
  intros c ses. unfold send. rewrite built_encode. cbn [fst snd].
  split; [apply dispatch_lifecycle|right; reflexivity].
Qed.

Lemma call_of_tame (op : SessionOp) :
  exists call,
    tame call
    /\ forall id w, perform subtitlesTypeCode op id w = on_session id call w.
Proof.
  destruct op; cbn [perform]; eexists; (split; [|intros id w; reflexivity]).
  - intros c ses. destruct (send_tame PacketType.MUTE [] c ses) as [L C].
    unfold mute. destruct (send PacketType.MUTE [] c ses) as [c' ses'].
    cbn [fst snd] in *. split; [exact L|exact C].
  - apply send_tame.
  - apply send_tame.
  - apply send_tame.
  - apply send_tame.
  - apply send_tame.
  - intros c ses.
    pose proof (sendData_counter (fTypeConvert type) data displayOffsetMs c)
      as C.
    unfold sendData.
    destruct (sendData_buffer (fTypeConvert type) data displayOffsetMs c)
      as [[b|] c']; cbn [fst snd] in *; subst c';
      (split; [|right; reflexivity]); [|reflexivity].
    unfold addBuffer. destruct (isRenderingActive ses); reflexivity.
  - intros c ses. unfold sendTimestamp.
    destruct (mSessionType ses);
      first [apply send_tame | split; [reflexivity|left; reflexivity]].
  - apply send_tame.
  - intros c ses. split; [reflexivity|left; reflexivity].
  - apply send_tame.
  - intros c ses. split; [reflexivity|left; reflexivity].
Qed.

(** X20.  On a registered session each of these operations returns success,
    whatever the session did with the call.  Afterwards the same
    identifiers are registered, the counter of identifiers is unchanged,
    every session has kept its display name, the session concerned is
    started exactly if it was before, every other session is untouched, and
    at most one sequence number has been taken. *)
Theorem operation_on_known_session (op : SessionOp) (sessionId : Z)
    (w : Process) (ses : RenderSession) :
  find_session sessionId (mSessions (registry w)) = Some ses ->
  let r := perform subtitlesTypeCode op sessionId w in
  fst r = ERROR_NONE
  /\ map fst (mSessions (registry (snd r))) = map fst (mSessions (registry w))
  /\ mSessionNumber (registry (snd r)) = mSessionNumber (registry w)
  /\ display_names (mSessions (registry (snd r)))
     = display_names (mSessions (registry w))
  /\ (exists ses',
        find_session sessionId (mSessions (registry (snd r))) = Some ses'
        /\ lifecycle ses' = lifecycle ses)
  /\ (forall other, other <> sessionId ->
        find_session other (mSessions (registry (snd r)))
        = find_session other (mSessions (registry w)))
  /\ (sCounter (snd r) = sCounter w
      \/ sCounter (snd r) = u32 (sCounter w + 1)).
Proof.
  intros Hf r. subst r.
  destruct (call_of_tame op) as (call & Ht & ->).
  unfold on_session. rewrite Hf.
  destruct (Ht (sCounter w) ses) as [L C].
  destruct (call (sCounter w) ses) as [c' ses']. cbn [fst snd] in *.
  split; [reflexivity|]. cbn [registry mSessions mSessionNumber sCounter].
  split; [apply keys_store|]. split; [reflexivity|].
  split.
  { apply display_names_store with (ses := ses); [exact Hf|].
    unfold getDisplayName. unfold lifecycle in L. congruence. }
  split.
  { exists ses'. split; [|exact L].
    apply find_session_store. rewrite Hf. discriminate. }
  split; [|exact C].
  intros other Ho. apply find_session_store_other. exact Ho.
Qed.

(** X21.  The DVB and the SCTE selection are not implemented: on a
    registered session they return success and change nothing, neither the
    session nor the sequence counter. *)
Theorem dvb_and_scte_selection_do_nothing (sessionId : Z) (w : Process)
    (ses : RenderSession) (compositionPageId ancillaryPageId : Z) :
  find_session sessionId (mSessions (registry w)) = Some ses ->
  fst (SetSessionDvbSubtitleSelection sessionId compositionPageId
         ancillaryPageId w) = ERROR_NONE
  /\ fst (SetSessionSCTESelection sessionId w) = ERROR_NONE
  /\ mSessions (registry (snd (SetSessionDvbSubtitleSelection sessionId
                                 compositionPageId ancillaryPageId w)))
     = mSessions (registry w)
  /\ mSessions (registry (snd (SetSessionSCTESelection sessionId w)))
     = mSessions (registry w)
  /\ sCounter (snd (SetSessionDvbSubtitleSelection sessionId
                      compositionPageId ancillaryPageId w)) = sCounter w
  /\ sCounter (snd (SetSessionSCTESelection sessionId w)) = sCounter w.
Proof.
  intros Hf.
  unfold SetSessionDvbSubtitleSelection, SetSessionSCTESelection, on_session,
    selectDvbService, selectScteService.
  rewrite Hf. cbn. rewrite (store_same _ _ _ Hf). repeat split.
Qed.

(** X22.  [CloseSession] does not close much.  When the parser recognises
    the packet that [mute] builds, the session stays registered and started
    and keeps its decoder, its type and its queue; the decoder, if there is
    one, is muted, and the time of last activity is set. *)
Theorem CloseSession_only_mutes (iSessionId : Z) (w : Process)
    (ses : RenderSession) :
  find_session iSessionId (mSessions (registry w)) = Some ses ->
  getType (parse (fst (built PacketType.MUTE [] (sCounter w))))
  = PacketType.MUTE ->
  fst (CloseSession iSessionId w) = ERROR_NONE
  /\ exists ses',
       find_session iSessionId
         (mSessions (registry (snd (CloseSession iSessionId w)))) = Some ses'
       /\ mStarted ses' = mStarted ses
       /\ mDecoder ses' = mDecoder ses
       /\ mSessionType ses' = mSessionType ses
       /\ mDataQueue ses' = mDataQueue ses
       /\ mLastActiveTime ses' = steadyClock ses
       /\ calls ses'
          = calls ses ++ match mDecoder ses with
                         | Some d => [CtrlMute d true]
                         | None => []
                         end.
Proof.
  intros Hf Hp. unfold CloseSession, on_session, mute, send, close.
  rewrite Hf.
  destruct (built PacketType.MUTE [] (sCounter w)) as [buf c'] eqn:B.
  cbn [fst snd] in *. split; [reflexivity|].
  cbn [registry mSessions].
  eexists. split; [apply find_session_store; rewrite Hf; discriminate|].
  unfold onPacketReceived, doOnPacketReceived, processMutePacket.
  rewrite Hp. cbn.
  destruct (mDecoder ses) as [d|] eqn:D; cbn; rewrite ?app_nil_r;
    repeat split; exact D.
Qed.
End RegistryOps.

Lemma operation_on_unknown_session_witness :
  let w := {| sCounter := 3;
              registry := {| mSessions := []; mSessionNumber := 0 |} |} in
  @perform (exampleExtAll true 0) exampleSubtitlesTypeCode
    (OpSendData DataType.TTML 0 (bytes_of "x")) 1 w
  = (ERROR_GENERAL, w).
Proof.
  intros w.
  exact (@operation_on_unknown_session (exampleExtAll true 0)
           exampleSubtitlesTypeCode
           (OpSendData DataType.TTML 0 (bytes_of "x")) 1 w eq_refl).
Defined.

Lemma operation_on_known_session_witness :
  let ext := exampleExtAll true 0 in
  let ses := fst (start true (RenderSession_ctor "disp0" EmptyString 0)) in
  let w := {| sCounter := 3;
              registry := {| mSessions := [(1, ses)];
                             mSessionNumber := 1 |} |} in
  let r := perform exampleSubtitlesTypeCode OpWebVTT 1 w in
  fst r = ERROR_NONE
  /\ sCounter (snd r) = 4
  /\ display_names (mSessions (registry (snd r))) = ["disp0"%string].
Proof.
  intros ext ses w r.
  destruct (@operation_on_known_session ext exampleSubtitlesTypeCode
              OpWebVTT 1 w ses eq_refl) as (H1 & _ & _ & H4 & _).
  split; [exact H1|]. split; [reflexivity|exact H4].
Defined.

Lemma dvb_and_scte_selection_do_nothing_witness :
  let ses := fst (start true (RenderSession_ctor "disp0" EmptyString 0)) in
  let w := {| sCounter := 3;
              registry := {| mSessions := [(1, ses)];
                             mSessionNumber := 1 |} |} in
  fst (SetSessionDvbSubtitleSelection 1 2 3 w) = ERROR_NONE
  /\ mSessions (registry (snd (SetSessionDvbSubtitleSelection 1 2 3 w)))
     = [(1, ses)].
Proof.
  intros ses w.
  destruct (dvb_and_scte_selection_do_nothing 1 w ses 2 3 eq_refl)
    as (H1 & _ & H3 & _).
  split; [exact H1|exact H3].
Defined.

Lemma CloseSession_only_mutes_witness :
  let ext := exampleExtAll true 0 in
  let d := {| controller := WebvttController; serial := 0 |} in
  let ses := doOnPacketReceived (bare PacketType.WEBVTT_SELECTION)
               (fst (start true (RenderSession_ctor "disp0" EmptyString 0))) in
  let w := {| sCounter := 3;
              registry := {| mSessions := [(1, ses)];
                             mSessionNumber := 1 |} |} in
  exists ses',
    find_session 1 (mSessions (registry (snd (CloseSession 1 w)))) = Some ses'
    /\ mStarted ses' = true
    /\ mDecoder ses' = Some d
    /\ calls ses' = calls ses ++ [CtrlMute d true].
Proof.
  intros ext d ses w.
  destruct (@CloseSession_only_mutes ext 1 w ses eq_refl eq_refl)
    as (_ & ses' & Hf & Hs & Hd & _ & _ & _ & Hc).
  exists ses'. split; [exact Hf|]. split; [rewrite Hs; reflexivity|].
  split; [rewrite Hd; reflexivity|exact Hc].
Defined.

(** ** Closed-caption attributes *)

Section CcAttributes.
Context {ext : Subttxrend}.
Variable attributeMask : Z.

(** X23.  [setCcAttributes] builds a packet of 80 bytes with a payload of
    68.  When the parser recognises it, a session of type CC that holds a
    decoder hands the packet to the decoder and then, if a preview text is
    stored, hands that text to the decoder again, in this order, so that the
    preview shows the new style; without a stored text only the packet is
    handed over.  A session of another type, or one without a decoder,
    makes no call on any decoder. *)
Theorem setCcAttributes_refreshes_the_preview
    (fontColor fontOpacity fontStyle fontSize edgeType edgeColor
     backgroundColor backgroundOpacity windowColor windowOpacity : Z)
    (c : Z) (s : RenderSession) :
  let fields := cc_attribute_fields attributeMask fontColor fontOpacity
                  fontStyle fontSize edgeType edgeColor backgroundColor
                  backgroundOpacity windowColor windowOpacity in
  let buf := fst (built PacketType.SET_CC_ATTRIBUTES fields c) in
  let r := setCcAttributes attributeMask fontColor fontOpacity fontStyle
             fontSize edgeType edgeColor backgroundColor backgroundOpacity
             windowColor windowOpacity c s in
  getType (parse buf) = PacketType.SET_CC_ATTRIBUTES ->
  length buf = 80%nat
  /\ rd32 buf 8 = 68
  /\ fst r = u32 (c + 1)
  /\ (forall d,
        mDecoder s = Some d ->
        mSessionType s = SessionType.CC ->
        calls (snd r)
        = calls s
          ++ CtrlProcessSetCCAttributesPacket d (parse buf)
             :: (if is_empty (mPreviewText s) then []
                 else [CtrlSetTextForPreview d (mPreviewText s)]))
  /\ (mDecoder s = None \/ mSessionType s <> SessionType.CC ->
      calls (snd r) = calls s)
  /\ mDecoder (snd r) = mDecoder s.
Proof.
  intros fields buf r Hp.
  destruct (built_read_back PacketType.SET_CC_ATTRIBUTES fields c)
    as (Hc & Hl & _ & _ & H8 & _); [cbn; lia|].
  split; [exact Hl|]. split; [exact H8|].
  subst r. unfold setCcAttributes, send.
  change [1; attributeMask; fontColor; backgroundColor; fontOpacity;
          backgroundOpacity; fontStyle; fontSize; -1; -1; -1; 4278190080;
          windowColor; windowOpacity; edgeType; edgeColor] with fields.
  subst buf.
  destruct (built PacketType.SET_CC_ATTRIBUTES fields c) as [b c'].
  cbn [fst snd] in *. split; [exact Hc|].
  unfold onPacketReceived, doOnPacketReceived, processSetCCAttributes,
    refresh_preview.
  rewrite Hp. cbn.
  destruct (mDecoder s) as [d|] eqn:D; cbn.
  - destruct (mSessionType s) eqn:T; cbn; rewrite ?D; cbn; rewrite ?T; cbn;
      (split; [intros d0 [= <-] HT; try discriminate HT
              |split; [intros [K|K]; [discriminate K|try contradiction]|]]);
      try (destruct (is_empty (mPreviewText s)); cbn; rewrite ?D; cbn;
           rewrite ?T; cbn; rewrite <- ?app_assoc; reflexivity).
  - rewrite ?D. cbn.
    destruct (is_empty (mPreviewText s)); cbn; rewrite ?D; cbn;
      (split; [intros d0 K; discriminate K|split; [reflexivity|]]);
      cbn; rewrite ?D; reflexivity.
Qed.
End CcAttributes.

Lemma setCcAttributes_refreshes_the_preview_witness :
  let ext := exampleExtAll true 0 in
  let q := {| getType := PacketType.SUBTITLE_SELECTION;
              getSubtitlesType := SUBTITLES_TYPE_CC; getBuffer := [] |} in
  let d := {| controller := CcSubController; serial := 0 |} in
  let s := setTextForClosedCaptionPreview "Hi"
             (doOnPacketReceived q
                (RenderSession_ctor "disp0" EmptyString 0)) in
  let buf := fst (built PacketType.SET_CC_ATTRIBUTES
                    (cc_attribute_fields 4095 1 2 3 4 5 6 7 8 9 10) 0) in
  calls (snd (setCcAttributes 4095 1 2 3 4 5 6 7 8 9 10 0 s))
  = calls s ++ [CtrlProcessSetCCAttributesPacket d (parse buf);
                CtrlSetTextForPreview d "Hi"].
Proof.
  intros ext q d s buf.
  destruct (@setCcAttributes_refreshes_the_preview ext 4095
              1 2 3 4 5 6 7 8 9 10 0 s eq_refl)
    as (_ & _ & _ & H & _).
  exact (H d eq_refl eq_refl).
Defined.
